(** * Remote process lifecycle controller of [extensions/models/minecraft_server.ts]

  A shallow embedding of the model's methods ([say], [op], [deop],
  [warnShutdown], [stopMinecraftServer], [status], [startMinecraftServer],
  [collectMetrics]) and of [writeMetricsFiles] from the metrics helper.

  The methods are [async] functions whose only effects are remote commands
  ([sshExecRaw], [sshExec], [waitForSsh]), timed sleeps, clock reads and
  [context.writeResource].  They are modelled as state-passing functions
  over a [World] (clock and event trace), run against an environment that
  answers every remote command as a function of the history and the clock.
  [console.log] calls have no effect on the results and are left out.

  JavaScript strings are modelled as [string] (code units below 256).
  Clock readings and exit codes are integers ([Z]); the numbers read from
  remote output are doubles ([JsString.number]). *)

From Stdlib Require Import ZArith List String Ascii Bool Lia.
From Stdlib Require Import DecimalString DecimalPos.
Import ListNotations.

Local Open Scope string_scope.
Local Open Scope Z_scope.

Set Implicit Arguments.

(* ================================================================== *)
(** * Strings as JavaScript sees them *)
(* ================================================================== *)

Module JsString.

(** The code unit of a character. *)
Definition codeUnit (c : ascii) : N := N_of_ascii c.

(** [WhiteSpace] and [LineTerminator] code units below 256:
    TAB, LF, VT, FF, CR, SP and NBSP. *)
Definition isWhite (c : ascii) : bool :=
  let n := codeUnit c in
  ((9 <=? n) && (n <=? 13) || (n =? 32) || (n =? 160))%N.

(** [LineTerminator] code units below 256: LF and CR. *)
Definition isLineTerminator (c : ascii) : bool :=
  let n := codeUnit c in ((n =? 10) || (n =? 13))%N.

(** [\d] *)
Definition isDigit (c : ascii) : bool :=
  let n := codeUnit c in ((48 <=? n) && (n <=? 57))%N.

(** [.] (without the [s] flag) *)
Definition isDot (c : ascii) : bool := negb (isLineTerminator c).

(** [[a-zA-Z0-9_]] *)
Definition isWord (c : ascii) : bool :=
  let n := codeUnit c in
  ((97 <=? n) && (n <=? 122) || (65 <=? n) && (n <=? 90)
   || (48 <=? n) && (n <=? 57) || (n =? 95))%N.

(** Truthiness of a string: non-empty. *)
Definition truthy (s : string) : bool :=
  match s with EmptyString => false | String _ _ => true end.

Fixpoint all (p : ascii -> bool) (s : string) : bool :=
  match s with
  | EmptyString => true
  | String c r => p c && all p r
  end.

Fixpoint filter (p : ascii -> bool) (s : string) : string :=
  match s with
  | EmptyString => EmptyString
  | String c r => if p c then String c (filter p r) else filter p r
  end.

Fixpoint takeWhile (p : ascii -> bool) (s : string) : string :=
  match s with
  | EmptyString => EmptyString
  | String c r => if p c then String c (takeWhile p r) else EmptyString
  end.

Fixpoint dropWhile (p : ascii -> bool) (s : string) : string :=
  match s with
  | EmptyString => EmptyString
  | String c r => if p c then dropWhile p r else s
  end.

(** [String.prototype.trimStart] *)
Definition trimStart (s : string) : string := dropWhile isWhite s.

(** [String.prototype.trimEnd] *)
Fixpoint trimEnd (s : string) : string :=
  match s with
  | EmptyString => EmptyString
  | String c r =>
      match trimEnd r with
      | EmptyString => if isWhite c then EmptyString else String c EmptyString
      | String _ _ as r' => String c r'
      end
  end.

(** [String.prototype.trim] *)
Definition trim (s : string) : string := trimEnd (trimStart s).

(** [s.split(sep)] for a one-character separator; never the empty list. *)
Fixpoint split (sep : ascii) (s : string) : list string :=
  match s with
  | EmptyString => [EmptyString]
  | String c r =>
      if Ascii.eqb c sep then EmptyString :: split sep r
      else match split sep r with
           | h :: t => String c h :: t
           | [] => [String c EmptyString]
           end
  end.

(** If [p] is a prefix of [s], what follows it. *)
Fixpoint stripPrefix (p s : string) : option string :=
  match p, s with
  | EmptyString, _ => Some s
  | String a p', String b s' =>
      if Ascii.eqb a b then stripPrefix p' s' else None
  | String _ _, EmptyString => None
  end.

(** Value of a string of decimal digits, most significant first. *)
Fixpoint digitsValueAcc (acc : Z) (s : string) : Z :=
  match s with
  | EmptyString => acc
  | String c r => digitsValueAcc (10 * acc + (Z.of_N (codeUnit c) - 48)) r
  end.

Definition digitsValue (s : string) : Z := digitsValueAcc 0 s.

(** The decimal numeral of an integer. *)
Definition ofZ (z : Z) : string := NilZero.string_of_int (Z.to_int z).

(** ** Numbers

    The numbers of this program are the results of [parseInt], of [x || 0]
    and of [x + 1]: doubles whose value is an integer, and the two
    infinities.  [NaN] is the [None] of an [option number].  Negative zero
    is not told apart from zero: wherever this program uses a number, the
    two behave alike (falsy, printed as 0). *)
Inductive number : Type :=
| Fin (z : Z)
| Inf (negative : bool).

Definition numEqb (x y : number) : bool :=
  match x, y with
  | Fin a, Fin b => a =? b
  | Inf a, Inf b => Bool.eqb a b
  | _, _ => false
  end.

(** The double nearest to the integer [z], ties to the even significand;
    an infinity from [2^1024 - 2^970] on.  Integers below [2^53] in
    absolute value are doubles themselves. *)
Definition toNumber (z : Z) : number :=
  let a := Z.abs z in
  let e := Z.log2 a - 52 in
  if e <=? 0 then Fin z
  else
    let q := a / 2 ^ e in
    let r := a mod 2 ^ e in
    let half := 2 ^ (e - 1) in
    let q' :=
      if r <? half then q
      else if half <? r then q + 1
      else if Z.even q then q else q + 1 in
    let v := q' * 2 ^ e in
    if 2 ^ 1024 <=? v then Inf (z <? 0) else Fin (Z.sgn z * v).

(** [x + 1] *)
Definition plusOne (x : number) : number :=
  match x with
  | Fin z => toNumber (z + 1)
  | Inf b => Inf b
  end.

(** [Number::toString] looks for the fewest digits [k] and the integers
    [s] (of [k] digits) and [n] with [s * 10^(n-k)] rounding to the number,
    taking the closest [s] (the even one on a tie).  For a number [a] of [m]
    decimal digits the candidates with [k] digits are the two multiples of
    [10^(m-k)] around [a]. *)
Fixpoint shortestDigits (fuel : nat) (k a m : Z) : option (Z * Z) :=
  match fuel with
  | O => None
  | S fuel' =>
      let p := 10 ^ (m - k) in
      let lo := a / p in
      let hi := lo + 1 in
      let okLo := numEqb (toNumber (lo * p)) (Fin a) in
      let okHi := numEqb (toNumber (hi * p)) (Fin a) in
      let pick :=
        if okLo && okHi then
          if a - lo * p <? hi * p - a then Some lo
          else if hi * p - a <? a - lo * p then Some hi
          else Some (if Z.even lo then lo else hi)
        else if okLo then Some lo
        else if okHi then Some hi
        else None in
      match pick with
      | Some s => if s =? 10 ^ k then Some (10 ^ (k - 1), m + 1) else Some (s, m)
      | None => shortestDigits fuel' (k + 1) a m
      end
  end.

Fixpoint zeros (n : nat) : string :=
  match n with
  | O => EmptyString
  | S n' => String "0" (zeros n')
  end.

(** [Number::toString] of a non-negative integer-valued double.  Below
    [2^53] every integer is a double of its own, so the shortest digits are
    the numeral itself.  From there on the shortest digits are searched for,
    and printed with zeros after them while the number has at most 21
    digits, in the exponent form beyond. *)
Definition positiveToString (a : Z) : string :=
  if a <? 2 ^ 53 then ofZ a
  else
    match shortestDigits 17 1 a (Z.of_nat (String.length (ofZ a))) with
    | Some (s, n) =>
        let digits := ofZ s in
        if n <=? 21 then
          digits ++ zeros (Z.to_nat (n - Z.of_nat (String.length digits)))
        else
          match digits with
          | String d EmptyString => String d ("e+" ++ ofZ (n - 1))
          | String d rest => String d ("." ++ rest ++ "e+" ++ ofZ (n - 1))
          | EmptyString => ofZ a
          end
    | None => ofZ a
    end.

(** A number inside a template literal. *)
Definition numberToString (x : number) : string :=
  match x with
  | Fin z => if z <? 0 then "-" ++ positiveToString (- z) else positiveToString z
  | Inf false => "Infinity"
  | Inf true => "-Infinity"
  end.

(** [parseInt(s, 10)]: leading white space, an optional sign, the longest
    prefix of digits, whose value is rounded to a double; [None] is [NaN]. *)
Definition parseInt (s : string) : option number :=
  let s1 := trimStart s in
  let '(sign, s2) :=
    match s1 with
    | String "-" r => (-1, r)
    | String "+" r => (1, r)
    | _ => (1, s1)
    end in
  let ds := takeWhile isDigit s2 in
  if truthy ds then Some (toNumber (sign * digitsValue ds)) else None.

(** [x || 0] for a number [x]: [NaN] and [0] are falsy. *)
Definition orZero (x : option number) : number :=
  match x with Some v => v | None => Fin 0 end.

End JsString.

(* ================================================================== *)
(** * A backtracking matcher for the regular expressions of the source *)
(* ================================================================== *)

Module Regex.
Import JsString.

(** The pattern language the source needs: literal text, and greedy
    capturing groups over a character class, one-or-more and zero-or-more. *)
Inductive atom : Type :=
| Lit (s : string)
| PlusGroup (cls : ascii -> bool)
| StarGroup (cls : ascii -> bool).

Definition regex := list atom.

(** Greedy [c*]: the longest run first, then shorter ones on failure of
    the continuation [k], which receives the captured text and the rest. *)
Fixpoint star {R} (cls : ascii -> bool) (s : string)
         (k : string -> string -> option R) : option R :=
  match s with
  | EmptyString => k EmptyString EmptyString
  | String c r =>
      if cls c then
        match star cls r (fun cap rest => k (String c cap) rest) with
        | Some res => Some res
        | None => k EmptyString s
        end
      else k EmptyString s
  end.

(** Match [re] at the start of [s]; captures are accumulated in reverse. *)
Fixpoint matchHere (re : regex) (s : string) (caps : list string)
  : option (list string) :=
  match re with
  | [] => Some (rev caps)
  | Lit l :: re' =>
      match stripPrefix l s with
      | Some s' => matchHere re' s' caps
      | None => None
      end
  | PlusGroup cls :: re' =>
      match s with
      | String c r =>
          if cls c then
            star cls r (fun cap rest => matchHere re' rest (String c cap :: caps))
          else None
      | EmptyString => None
      end
  | StarGroup cls :: re' =>
      star cls s (fun cap rest => matchHere re' rest (cap :: caps))
  end.

(** [s.match(re)] for a non-global [re]: the leftmost start position that
    matches; the result is the list of groups [m[1], m[2], ...]. *)
Fixpoint jsMatch (re : regex) (s : string) : option (list string) :=
  match matchHere re s [] with
  | Some caps => Some caps
  | None =>
      match s with
      | EmptyString => None
      | String _ r => jsMatch re r
      end
  end.

End Regex.

(* ================================================================== *)
(** * The player-list response *)
(* ================================================================== *)

Import JsString.

(** The pattern of the source: "There are ", a group of one or more digits,
  " of a max of ", a group of one or more digits, " players online:", and
  a group of any characters up to the end of the line. *)
Definition listRegex : Regex.regex :=
[ Regex.Lit "There are "; Regex.PlusGroup isDigit;
  Regex.Lit " of a max of "; Regex.PlusGroup isDigit;
  Regex.Lit " players online:"; Regex.StarGroup isDot ].

(** [playerStr ? playerStr.split(",").map(p => p.trim()).filter(Boolean) : []] *)
Definition playersOf (playerStr : string) : list string :=
if truthy playerStr
then List.filter truthy (List.map trim (split "," playerStr))
else [].

(** [newLines.match(listRegex)] followed by the three reads of the match:
    [parseInt(m[1], 10)], [parseInt(m[2], 10)] and the player list of
    [m[3].trim()]; [None] when the pattern matches nowhere. *)
Definition parsePlayerList (newLines : string)
  : option (option number * option number * list string) :=
  match Regex.jsMatch listRegex newLines with
  | Some [m1; m2; m3] => Some (parseInt m1, parseInt m2, playersOf (trim m3))
  | _ => None
  end.

(* ================================================================== *)
(** * The world the methods run in *)
(* ================================================================== *)

(** The result object of [sshExecRaw]. *)
Record ExecResult : Type := mkExecResult {
  code : Z;
  stdout : string;
  stderr : string
}.

(** [ServerSchema]: every field is optional ([None]: absent); [online] and
    [max] are in addition nullable (inner [None]: [null]).  [timestamp] is
    the ISO rendering of a clock reading. *)
Record ServerData : Type := mkServerData {
  success : option bool;
  skipped : option bool;
  alreadyStopped : option bool;
  timedOut : option bool;
  ip : option (option string);
  serverRunning : option bool;
  serverReady : option bool;
  online : option (option number);
  max : option (option number);
  players : option (list string);
  timestamp : option string
}.

Definition emptyData : ServerData :=
  mkServerData None None None None None None None None None None None.

Definition with_success (v : bool) (d : ServerData) : ServerData :=
  mkServerData (Some v) (skipped d) (alreadyStopped d) (timedOut d) (ip d)
    (serverRunning d) (serverReady d) (online d) (max d) (players d) (timestamp d).
Definition with_skipped (v : bool) (d : ServerData) : ServerData :=
  mkServerData (success d) (Some v) (alreadyStopped d) (timedOut d) (ip d)
    (serverRunning d) (serverReady d) (online d) (max d) (players d) (timestamp d).
Definition with_alreadyStopped (v : bool) (d : ServerData) : ServerData :=
  mkServerData (success d) (skipped d) (Some v) (timedOut d) (ip d)
    (serverRunning d) (serverReady d) (online d) (max d) (players d) (timestamp d).
Definition with_timedOut (v : bool) (d : ServerData) : ServerData :=
  mkServerData (success d) (skipped d) (alreadyStopped d) (Some v) (ip d)
    (serverRunning d) (serverReady d) (online d) (max d) (players d) (timestamp d).
Definition with_ip (v : option string) (d : ServerData) : ServerData :=
  mkServerData (success d) (skipped d) (alreadyStopped d) (timedOut d) (Some v)
    (serverRunning d) (serverReady d) (online d) (max d) (players d) (timestamp d).
Definition with_serverRunning (v : bool) (d : ServerData) : ServerData :=
  mkServerData (success d) (skipped d) (alreadyStopped d) (timedOut d) (ip d)
    (Some v) (serverReady d) (online d) (max d) (players d) (timestamp d).
Definition with_serverReady (v : bool) (d : ServerData) : ServerData :=
  mkServerData (success d) (skipped d) (alreadyStopped d) (timedOut d) (ip d)
    (serverRunning d) (Some v) (online d) (max d) (players d) (timestamp d).
Definition with_online (v : option number) (d : ServerData) : ServerData :=
  mkServerData (success d) (skipped d) (alreadyStopped d) (timedOut d) (ip d)
    (serverRunning d) (serverReady d) (Some v) (max d) (players d) (timestamp d).
Definition with_max (v : option number) (d : ServerData) : ServerData :=
  mkServerData (success d) (skipped d) (alreadyStopped d) (timedOut d) (ip d)
    (serverRunning d) (serverReady d) (online d) (Some v) (players d) (timestamp d).
Definition with_players (v : list string) (d : ServerData) : ServerData :=
  mkServerData (success d) (skipped d) (alreadyStopped d) (timedOut d) (ip d)
    (serverRunning d) (serverReady d) (online d) (max d) (Some v) (timestamp d).
Definition with_timestamp (v : string) (d : ServerData) : ServerData :=
  mkServerData (success d) (skipped d) (alreadyStopped d) (timedOut d) (ip d)
    (serverRunning d) (serverReady d) (online d) (max d) (players d) (Some v).

(** An object literal [{ f1: v1, f2: v2, ... }] is a list of field setters. *)
Definition object (fields : list (ServerData -> ServerData)) : ServerData :=
  fold_left (fun d f => f d) fields emptyData.

(** What a run does to the outside, in order. *)
Inductive Event : Type :=
| EvExecRaw (host : option string) (user cmd : string) (res : ExecResult)
| EvExec (host : option string) (user cmd : string) (err : option string)
| EvWaitForSsh (host : option string) (user : string) (ok : bool)
| EvSleep (ms : Z)
| EvWriteResource (kind name : string) (data : ServerData).

(** The remote side and the scheduler.  Every answer may depend on all that
    happened before and on the clock; durations are never negative. *)
Record Env : Type := mkEnv {
  respond : list Event -> Z -> option string -> string -> string -> ExecResult;
  execError : list Event -> Z -> option string -> string -> string -> option string;
  sshReady : list Event -> Z -> option string -> string -> bool;
  latency : list Event -> Z -> N;
  oversleep : list Event -> Z -> N
}.

(** [now]: what [Date.now()] returns, in milliseconds. *)
Record World : Type := mkWorld {
  now : Z;
  trace : list Event
}.

(** The handle [context.writeResource] returns. *)
Record Handle : Type := mkHandle {
  handleKind : string;
  handleName : string
}.

(** How an [async] method ends: it returns, it throws [new Error(msg)], or
    the bounded unrolling of one of its loops is used up. *)
Inductive outcome (A : Type) : Type :=
| Ret (a : A)
| Throw (msg : string)
| OutOfFuel.
Arguments Throw {A} msg.
Arguments OutOfFuel {A}.

Definition M (A : Type) : Type := World -> outcome A * World.

Definition ret {A} (a : A) : M A := fun w => (Ret a, w).

Definition throw {A} (msg : string) : M A := fun w => (Throw msg, w).

Definition outOfFuel {A} : M A := fun w => (OutOfFuel, w).

Definition bind {A B} (m : M A) (k : A -> M B) : M B :=
  fun w =>
    match m w with
    | (Ret a, w') => k a w'
    | (Throw msg, w') => (Throw msg, w')
    | (OutOfFuel, w') => (OutOfFuel, w')
    end.

Notation "x <- m ;; k" := (bind m (fun x => k))
  (at level 61, m at next level, right associativity).
Notation "m ;; k" := (bind m (fun _ => k))
  (at level 61, right associativity).

(** The events a run added to the trace. *)
Definition newEvents (w w' : World) : list Event :=
  skipn (List.length (trace w)) (trace w').

(** [globalArguments]; [sshHost] is nullable. *)
Record GlobalArgs : Type := mkGlobalArgs {
  sshHost : option string;
  sshUser : string;
  tmuxSession : string;
  serverDir : string;
  startScript : string;
  logPath : string;
  serverName : string
}.

(** Characters that cannot be written inside a string literal here. *)
Definition nlChar : ascii := ascii_of_N 10.
Definition nl : string := String nlChar EmptyString.
Definition dq : string := String (ascii_of_N 34) EmptyString.
Definition bs : string := String (ascii_of_N 92) EmptyString.

(** A nullable string inside a template literal. *)
Definition hostText (h : option string) : string :=
  match h with Some s => s | None => "null" end.

(** ** The remote commands of the source, as the templates build them *)

Definition cmdEcho : string := "echo ok".

Definition cmdHasSession (g : GlobalArgs) : string :=
  "tmux has-session -t " ++ tmuxSession g
  ++ " 2>/dev/null && echo exists || echo missing".

Definition cmdSendKeys (g : GlobalArgs) (text : string) : string :=
  "tmux send-keys -t " ++ tmuxSession g ++ " '" ++ text ++ "' Enter".

Definition cmdKillSession (g : GlobalArgs) : string :=
  "tmux kill-session -t " ++ tmuxSession g ++ " 2>/dev/null || true".

Definition cmdJavaCheck : string :=
  "pgrep -f java > /dev/null 2>&1 && echo running || echo stopped".

Definition cmdJavaPid : string :=
  "pgrep -f 'java.*neoforge' || pgrep -f java".

Definition cmdKill0 (pid : string) : string :=
  "kill -0 " ++ pid ++ " 2>/dev/null && echo running || echo stopped".

Definition cmdWc (g : GlobalArgs) : string := "wc -l < " ++ logPath g.

Definition cmdTail (g : GlobalArgs) (lineCount : number) : string :=
  "tail -n +" ++ numberToString (plusOne lineCount) ++ " " ++ logPath g.

Definition cmdTruncate (path : string) : string :=
  "truncate -s 0 " ++ path ++ " 2>/dev/null || true".

Definition startLogOf (g : GlobalArgs) : string :=
  "/tmp/mc-start-" ++ tmuxSession g ++ ".log".

Definition cmdNewSession (g : GlobalArgs) : string :=
  "tmux new-session -d -s " ++ tmuxSession g ++ " -c " ++ serverDir g
  ++ " 'bash " ++ startScript g ++ " 2>&1 | tee " ++ startLogOf g ++ "'".

Definition cmdGrepDone (g : GlobalArgs) : string :=
  "grep -q '\]: Done (' " ++ logPath g
  ++ " 2>/dev/null && echo READY || echo WAITING".

Definition cmdSessionAlive (g : GlobalArgs) : string :=
  "tmux has-session -t " ++ tmuxSession g
  ++ " 2>/dev/null && echo alive || echo dead".

Definition cmdCatStartLog (g : GlobalArgs) : string :=
  "cat " ++ startLogOf g ++ " 2>/dev/null || echo "
  ++ dq ++ "(no output)" ++ dq.

Definition msgDead (startOutput : string) : string :=
  "Server process exited before becoming ready. start.sh output:"
  ++ nl ++ startOutput.

Definition msgNotReady (readyTimeout : Z) (startOutput : string) : string :=
  "Minecraft server did not become ready within "
  ++ numberToString (toNumber readyTimeout)
  ++ "s. start.sh output:" ++ nl ++ startOutput.

(** ** Metrics formatting ([formatPromMetrics], [formatLogLine]) *)

Module Metrics.

(** A nullable number inside a template literal. *)
Definition numText (absent : string) (x : option (option number)) : string :=
  match x with
  | Some (Some v) => numberToString v
  | Some None => "null"
  | None => absent
  end.

(** A nullable number in JSON: an infinity is written as [null]. *)
Definition jsonNumber (x : option number) : string :=
  match x with
  | Some (Fin z) => numberToString (Fin z)
  | Some (Inf _) => "null"
  | None => "null"
  end.

Definition join (sep : string) (l : list string) : string :=
  match l with
  | [] => EmptyString
  | h :: t => fold_left (fun acc x => acc ++ sep ++ x) t h
  end.

Definition formatPromMetrics (nowMs : Z) (gameType serverName : string)
           (data : ServerData) : string :=
  let labels := "game=" ++ dq ++ gameType ++ dq ++ ",server=" ++ dq
                ++ serverName ++ dq in
  let running := match serverRunning data with Some true => 1 | _ => 0 end in
  let lines :=
    [ "# HELP game_server_running Whether the game server process is running";
      "# TYPE game_server_running gauge";
      "game_server_running{" ++ labels ++ "} " ++ numberToString (Fin running);
      "# HELP game_players_online Current number of players online";
      "# TYPE game_players_online gauge";
      "game_players_online{" ++ labels ++ "} "
        ++ numText "undefined" (online data) ] in
  let lines :=
    match max data with
    | Some None => lines
    | _ =>
        List.app lines
         [ "# HELP game_players_max Maximum player slots";
           "# TYPE game_players_max gauge";
           "game_players_max{" ++ labels ++ "} "
             ++ numText "undefined" (max data) ]
    end in
  let lines :=
    List.app lines
     [ "# HELP game_metrics_collected_at Unix timestamp of last successful collection";
       "# TYPE game_metrics_collected_at gauge";
       "game_metrics_collected_at{" ++ labels ++ "} " ++ numberToString (toNumber (nowMs / 1000)) ] in
  join nl lines ++ nl.

Definition hexDigit (n : N) : string :=
  String (ascii_of_N (if (n <? 10)%N then 48 + n else 87 + n)) EmptyString.

(** [QuoteJSONString], without the enclosing quotes. *)
Fixpoint jsonEscape (s : string) : string :=
  match s with
  | EmptyString => EmptyString
  | String c r =>
      let n := codeUnit c in
      (if (n =? 34)%N then bs ++ dq
       else if (n =? 92)%N then bs ++ bs
       else if (n =? 8)%N then bs ++ "b"
       else if (n =? 9)%N then bs ++ "t"
       else if (n =? 10)%N then bs ++ "n"
       else if (n =? 12)%N then bs ++ "f"
       else if (n =? 13)%N then bs ++ "r"
       else if (n <? 32)%N then bs ++ "u00" ++ hexDigit (n / 16) ++ hexDigit (n mod 16)
       else String c EmptyString) ++ jsonEscape r
  end.

Definition jsonString (s : string) : string := dq ++ jsonEscape s ++ dq.

Definition jsonBool (b : bool) : string := if b then "true" else "false".

(** One property of a JSON object; an [undefined] value drops the property. *)
Definition jsonProp (key : string) (value : option string) : list string :=
  match value with
  | Some v => [dq ++ key ++ dq ++ ":" ++ v]
  | None => []
  end.

Definition formatLogLine (ts gameType serverName : string)
           (data : ServerData) : string :=
  "{" ++ join ","
    (List.concat
       [ jsonProp "ts" (Some (jsonString ts));
         jsonProp "game" (Some (jsonString gameType));
         jsonProp "server" (Some (jsonString serverName));
         jsonProp "running" (option_map jsonBool (serverRunning data));
         jsonProp "online" (option_map jsonNumber (online data));
         jsonProp "max" (option_map jsonNumber (max data));
         jsonProp "players"
           (option_map (fun l => "[" ++ join "," (List.map jsonString l) ++ "]")
                       (players data)) ])
  ++ "}".

(** [s.replace(/'/g, "'\\''")] *)
Fixpoint quoteForShell (s : string) : string :=
  match s with
  | EmptyString => EmptyString
  | String c r =>
      (if (codeUnit c =? 39)%N then "'" ++ bs ++ "''" else String c EmptyString)
      ++ quoteForShell r
  end.

Definition promDir : string := "/var/lib/node_exporter/textfile_collector".
Definition promFile (gameType : string) : string :=
  promDir ++ "/game_" ++ gameType ++ ".prom".
Definition logFile : string := "/var/log/game-players.log".

Definition cmdWriteProm (gameType promContent : string) : string :=
  "mkdir -p " ++ promDir ++ " && cat > " ++ promFile gameType
  ++ ".tmp << 'PROMEOF'" ++ nl ++ promContent ++ "PROMEOF" ++ nl
  ++ "mv " ++ promFile gameType ++ ".tmp " ++ promFile gameType.

Definition cmdAppendLog (logLine : string) : string :=
  "echo '" ++ quoteForShell logLine ++ "' >> " ++ logFile.

End Metrics.

(* ================================================================== *)
(** * The methods of the model *)
(* ================================================================== *)

Section Controller.

(** [isValidSshHost] and [Date.prototype.toISOString] are taken as given;
    [sshExecRaw], [sshExec] and [waitForSsh] are answered by [env]. *)
Variable isValidSshHost : option string -> bool.
Variable toISOString : Z -> string.
Variable env : Env.

Definition elapse (d : N) (e : Event) (w : World) : World :=
  mkWorld (now w + Z.of_N d) (trace w ++ [e]).

(** [await sshExecRaw(host, user, cmd)]: never throws, returns the result. *)
Definition sshExecRaw (host : option string) (user cmd : string) : M ExecResult :=
  fun w =>
    let r := respond env (trace w) (now w) host user cmd in
    (Ret r, elapse (latency env (trace w) (now w)) (EvExecRaw host user cmd r) w).

(** [await sshExec(host, user, cmd)]: throws when the command fails. *)
Definition sshExec (host : option string) (user cmd : string) : M unit :=
  fun w =>
    let err := execError env (trace w) (now w) host user cmd in
    let w' := elapse (latency env (trace w) (now w)) (EvExec host user cmd err) w in
    match err with
    | Some msg => (Throw msg, w')
    | None => (Ret tt, w')
    end.

(** [await waitForSsh(host, user)] *)
Definition waitForSsh (host : option string) (user : string) : M bool :=
  fun w =>
    let ok := sshReady env (trace w) (now w) host user in
    (Ret ok, elapse (latency env (trace w) (now w)) (EvWaitForSsh host user ok) w).

(** [await new Promise(r => setTimeout(r, ms))]: at least [ms] pass. *)
Definition sleep (ms : Z) : M unit :=
  fun w =>
    (Ret tt,
     mkWorld (now w + ms + Z.of_N (oversleep env (trace w) (now w)))
             (trace w ++ [EvSleep ms])).

(** [Date.now()] *)
Definition dateNow : M Z := fun w => (Ret (now w), w).

(** [new Date().toISOString()] *)
Definition isoNow : M string := fun w => (Ret (toISOString (now w)), w).

(** [await context.writeResource(kind, name, data)] *)
Definition writeResource (kind name : string) (data : ServerData) : M Handle :=
  fun w =>
    (Ret (mkHandle kind name),
     mkWorld (now w) (trace w ++ [EvWriteResource kind name data])).

(** [const handle = await context.writeResource(...); return { dataHandles: [handle] }] *)
Definition writeAndReturn (kind name : string) (data : ServerData)
  : M (list Handle) :=
  handle <- writeResource kind name data ;;
  ret [handle].

Definition sessionExists (tmuxCheck : ExecResult) : bool :=
  String.eqb (trim (stdout tmuxCheck)) "exists".

(** The body shared by [say], [op] and [deop] after the argument check:
    host gate, session gate, one [send-keys], result. *)
Definition sendToConsole (g : GlobalArgs) (text : string) : M (list Handle) :=
  if negb (isValidSshHost (sshHost g)) then
    writeAndReturn "server" (serverName g)
      (object [with_success true; with_skipped true])
  else
    tmuxCheck <- sshExecRaw (sshHost g) (sshUser g) (cmdHasSession g) ;;
    if negb (sessionExists tmuxCheck) then
      writeAndReturn "server" (serverName g)
        (object [with_success true; with_skipped true])
    else
      _ <- sshExecRaw (sshHost g) (sshUser g) (cmdSendKeys g text) ;;
      writeAndReturn "server" (serverName g)
        (object [with_success true; with_skipped false]).

Definition say (message : string) (g : GlobalArgs) : M (list Handle) :=
  if negb (truthy message) then throw "message is required"
  else sendToConsole g ("say " ++ message).

Definition sanitize (playerName : string) : string :=
  JsString.filter isWord playerName.

Definition op (playerName : string) (g : GlobalArgs) : M (list Handle) :=
  if negb (truthy playerName) then throw "playerName is required"
  else
    let sanitized := sanitize playerName in
    sendToConsole g ("op " ++ sanitized).

Definition deop (playerName : string) (g : GlobalArgs) : M (list Handle) :=
  if negb (truthy playerName) then throw "playerName is required"
  else
    let sanitized := sanitize playerName in
    sendToConsole g ("deop " ++ sanitized).

Definition warnText : string := "say == SERVER SHUTTING DOWN IN 30 SECONDS ==".

Definition warnShutdown (g : GlobalArgs) : M (list Handle) :=
  if negb (isValidSshHost (sshHost g)) then
    writeAndReturn "server" (serverName g)
      (object [with_success true; with_skipped true])
  else
    tmuxCheck <- sshExecRaw (sshHost g) (sshUser g) (cmdHasSession g) ;;
    if negb (sessionExists tmuxCheck) then
      writeAndReturn "server" (serverName g)
        (object [with_success true; with_skipped true])
    else
      _ <- sshExecRaw (sshHost g) (sshUser g) (cmdSendKeys g warnText) ;;
      _ <- sshExecRaw (sshHost g) (sshUser g) (cmdSendKeys g warnText) ;;
      _ <- sshExecRaw (sshHost g) (sshUser g) (cmdSendKeys g warnText) ;;
      sleep 30000 ;;
      writeAndReturn "server" (serverName g)
        (object [with_success true; with_skipped false]).

(** ** [stopMinecraftServer] *)

Definition pollInterval : Z := 3000.
Definition pollTimeout : Z := 90.

(** [while (Date.now() < pollDeadline) { sleep; check; if stopped break }] *)
Fixpoint pollPid (fuel : nat) (g : GlobalArgs) (originalPid : string)
         (pollDeadline : Z) : M unit :=
  match fuel with
  | O => outOfFuel
  | S fuel' =>
      t <- dateNow ;;
      if t <? pollDeadline then
        sleep pollInterval ;;
        check <- sshExecRaw (sshHost g) (sshUser g) (cmdKill0 originalPid) ;;
        if String.eqb (trim (stdout check)) "stopped" then ret tt
        else pollPid fuel' g originalPid pollDeadline
      else ret tt
  end.

(** Iterations the loop can need, and one more test of its condition. *)
Definition pollPidFuel : nat := S (Z.to_nat (pollTimeout * 1000 / pollInterval)).

Definition alreadyStoppedData (ts : string) : ServerData :=
  object [with_success true; with_alreadyStopped true; with_timedOut false;
          with_timestamp ts].

(** The result object after the graceful stop was attempted. *)
Definition stoppedData (g : GlobalArgs) (timedOut : bool) (ts : string)
  : ServerData :=
  object [with_success true; with_alreadyStopped false; with_timedOut timedOut;
          with_ip (sshHost g); with_timestamp ts].

(** The second half of [stopMinecraftServer], from "Wait for java to exit"
    on: capture the pid, poll it, kill the session, write the result. *)
Definition awaitExitAndKill (g : GlobalArgs) : M (list Handle) :=
  javaPid <- sshExecRaw (sshHost g) (sshUser g) cmdJavaPid ;;
  let originalPid :=
    hd EmptyString (split nlChar (trim (stdout javaPid))) in
  pollStart <- dateNow ;;
  let pollDeadline := pollStart + pollTimeout * 1000 in
  pollPid pollPidFuel g originalPid pollDeadline ;;
  t <- dateNow ;;
  let timedOut := pollDeadline <=? t in
  _ <- sshExecRaw (sshHost g) (sshUser g) (cmdKillSession g) ;;
  ts <- isoNow ;;
  writeAndReturn "server" (serverName g) (stoppedData g timedOut ts).

Definition stopMinecraftServer (g : GlobalArgs) : M (list Handle) :=
  if negb (isValidSshHost (sshHost g)) then
    ts <- isoNow ;;
    writeAndReturn "server" (serverName g) (alreadyStoppedData ts)
  else
    reachable <- sshExecRaw (sshHost g) (sshUser g) cmdEcho ;;
    if negb (code reachable =? 0) then
      ts <- isoNow ;;
      writeAndReturn "server" (serverName g) (alreadyStoppedData ts)
    else
      tmuxCheck <- sshExecRaw (sshHost g) (sshUser g) (cmdHasSession g) ;;
      javaCheck <- sshExecRaw (sshHost g) (sshUser g) cmdJavaCheck ;;
      let tmuxExists := sessionExists tmuxCheck in
      let javaRunning := String.eqb (trim (stdout javaCheck)) "running" in
      if negb tmuxExists && negb javaRunning then
        ts <- isoNow ;;
        writeAndReturn "server" (serverName g) (alreadyStoppedData ts)
      else
        (if tmuxExists
         then _ <- sshExecRaw (sshHost g) (sshUser g) (cmdSendKeys g "stop") ;; ret tt
         else ret tt) ;;
        awaitExitAndKill g.

(** ** [status] *)

Definition notRunningData (ts : string) : ServerData :=
  object [with_serverRunning false; with_timestamp ts].

(** The result object [status] writes for the tail [newLines]. *)
Definition statusData (newLines ts : string) : ServerData :=
  match parsePlayerList newLines with
  | Some (online, max, players) =>
      object [with_serverRunning true; with_online online; with_max max;
              with_players players; with_timestamp ts]
  | None =>
      object [with_serverRunning true; with_online None; with_max None;
              with_players []; with_timestamp ts]
  end.

Definition status (g : GlobalArgs) : M (list Handle) :=
  if negb (isValidSshHost (sshHost g)) then
    ts <- isoNow ;;
    writeAndReturn "server" (serverName g) (notRunningData ts)
  else
    reachable <- sshExecRaw (sshHost g) (sshUser g) cmdEcho ;;
    if negb (code reachable =? 0) then
      ts <- isoNow ;;
      writeAndReturn "server" (serverName g) (notRunningData ts)
    else
      tmuxCheck <- sshExecRaw (sshHost g) (sshUser g) (cmdHasSession g) ;;
      if negb (sessionExists tmuxCheck) then
        ts <- isoNow ;;
        writeAndReturn "server" (serverName g) (notRunningData ts)
      else
        wcResult <- sshExecRaw (sshHost g) (sshUser g) (cmdWc g) ;;
        let lineCount := orZero (parseInt (trim (stdout wcResult))) in
        _ <- sshExecRaw (sshHost g) (sshUser g) (cmdSendKeys g "list") ;;
        sleep 2000 ;;
        tailResult <- sshExecRaw (sshHost g) (sshUser g) (cmdTail g lineCount) ;;
        let newLines := stdout tailResult in
        ts <- isoNow ;;
        writeAndReturn "server" (serverName g) (statusData newLines ts).

(** ** [startMinecraftServer] *)

Definition readyTimeout : Z := 900.
Definition readyPoll : Z := 5.

(** [while (Date.now() < readyDeadline) { log check; session check; sleep }];
    the result is [serverReady] after the loop. *)
Fixpoint pollReady (fuel : nat) (g : GlobalArgs) (readyDeadline : Z) : M bool :=
  match fuel with
  | O => outOfFuel
  | S fuel' =>
      t <- dateNow ;;
      if t <? readyDeadline then
        logCheck <- sshExecRaw (sshHost g) (sshUser g) (cmdGrepDone g) ;;
        if String.eqb (trim (stdout logCheck)) "READY" then ret true
        else
          tmuxAlive <- sshExecRaw (sshHost g) (sshUser g) (cmdSessionAlive g) ;;
          if String.eqb (trim (stdout tmuxAlive)) "dead" then
            startOutput <- sshExecRaw (sshHost g) (sshUser g) (cmdCatStartLog g) ;;
            throw (msgDead (stdout startOutput))
          else
            sleep (readyPoll * 1000) ;;
            pollReady fuel' g readyDeadline
      else ret false
  end.

Definition pollReadyFuel : nat :=
  S (Z.to_nat (readyTimeout * 1000 / (readyPoll * 1000))).

Definition readyData (g : GlobalArgs) (ts : string) : ServerData :=
  object [with_success true; with_ip (sshHost g); with_serverReady true;
          with_timestamp ts].

Definition startMinecraftServer (g : GlobalArgs) : M (list Handle) :=
  if negb (isValidSshHost (sshHost g)) then
    throw "sshHost is required - is the VM running?"
  else
    sshOk <- waitForSsh (sshHost g) (sshUser g) ;;
    if negb sshOk then
      throw ("SSH not reachable on " ++ hostText (sshHost g) ++ " after 60s")
    else
      _ <- sshExecRaw (sshHost g) (sshUser g) (cmdKillSession g) ;;
      _ <- sshExecRaw (sshHost g) (sshUser g) (cmdTruncate (logPath g)) ;;
      _ <- sshExecRaw (sshHost g) (sshUser g) (cmdTruncate (startLogOf g)) ;;
      startResult <- sshExecRaw (sshHost g) (sshUser g) (cmdNewSession g) ;;
      if negb (code startResult =? 0) then
        throw ("Failed to start tmux session: " ++ stderr startResult)
      else
        readyStart <- dateNow ;;
        let readyDeadline := readyStart + readyTimeout * 1000 in
        serverReady <- pollReady pollReadyFuel g readyDeadline ;;
        if negb serverReady then
          startOutput <- sshExecRaw (sshHost g) (sshUser g) (cmdCatStartLog g) ;;
          throw (msgNotReady readyTimeout (stdout startOutput))
        else
          ts <- isoNow ;;
          writeAndReturn "server" (serverName g) (readyData g ts).

(** ** [writeMetricsFiles] and [collectMetrics] *)

Definition writeMetricsFiles (host : option string) (user gameType name : string)
           (data : ServerData) : M unit :=
  t <- dateNow ;;
  let promContent := Metrics.formatPromMetrics t gameType name data in
  ts <- isoNow ;;
  let logLine := Metrics.formatLogLine ts gameType name data in
  sshExec host user (Metrics.cmdWriteProm gameType promContent) ;;
  sshExec host user (Metrics.cmdAppendLog logLine).

Definition metricsDownData : ServerData :=
  object [with_serverRunning false; with_online (Some (Fin 0)); with_max None;
          with_players []].

(** The object [data] that [collectMetrics] builds from the tail. *)
Definition metricsData (tail : string) : ServerData :=
  let m := Regex.jsMatch listRegex tail in
  let online :=
    match m with Some [m1; _; _] => parseInt m1 | _ => Some (Fin 0) end in
  let max :=
    match m with Some [_; m2; _] => parseInt m2 | _ => None end in
  let playerStr :=
    match m with Some [_; _; m3] => trim m3 | _ => EmptyString end in
  let players := playersOf playerStr in
  object [with_serverRunning true; with_online online; with_max max;
          with_players players].

Definition collectMetrics (g : GlobalArgs) : M (list Handle) :=
  if negb (isValidSshHost (sshHost g)) then
    ts <- isoNow ;;
    writeAndReturn "metrics" (serverName g) (with_timestamp ts metricsDownData)
  else
    reachable <- sshExecRaw (sshHost g) (sshUser g) cmdEcho ;;
    if negb (code reachable =? 0) then
      ts <- isoNow ;;
      writeAndReturn "metrics" (serverName g) (with_timestamp ts metricsDownData)
    else
      tmuxCheck <- sshExecRaw (sshHost g) (sshUser g) (cmdHasSession g) ;;
      if negb (sessionExists tmuxCheck) then
        let data := metricsDownData in
        writeMetricsFiles (sshHost g) (sshUser g) "minecraft" (serverName g) data ;;
        ts <- isoNow ;;
        writeAndReturn "metrics" (serverName g) (with_timestamp ts data)
      else
        wcResult <- sshExecRaw (sshHost g) (sshUser g) (cmdWc g) ;;
        let lineCount := orZero (parseInt (trim (stdout wcResult))) in
        _ <- sshExecRaw (sshHost g) (sshUser g) (cmdSendKeys g "list") ;;
        sleep 2000 ;;
        tailResult <- sshExecRaw (sshHost g) (sshUser g) (cmdTail g lineCount) ;;
        let data := metricsData (stdout tailResult) in
        writeMetricsFiles (sshHost g) (sshUser g) "minecraft" (serverName g) data ;;
        ts <- isoNow ;;
        writeAndReturn "metrics" (serverName g) (with_timestamp ts data).

End Controller.

(** Remote commands take no time and sleeps last exactly as long as asked:
    the simulated clock of a test. *)
Definition IdealTiming (env : Env) : Prop :=
  (forall h t, latency env h t = 0%N) /\ (forall h t, oversleep env h t = 0%N).

(* ================================================================== *)
(** * Reading a trace *)
(* ================================================================== *)

Definition isSleep (e : Event) : bool :=
  match e with EvSleep _ => true | _ => false end.


(** The raw remote commands of a trace, in order, with their results. *)
Fixpoint rawCommands (evs : list Event) : list (string * ExecResult) :=
  match evs with
  | [] => []
  | EvExecRaw _ _ cmd res :: r => (cmd, res) :: rawCommands r
  | _ :: r => rawCommands r
  end.

(** The resource written last. *)
Fixpoint lastWrite (evs : list Event) : option ServerData :=
  match evs with
  | [] => None
  | e :: r =>
      match lastWrite r with
      | Some d => Some d
      | None => match e with EvWriteResource _ _ d => Some d | _ => None end
      end
  end.

Definition isKill0 (cmd : string) : bool := String.prefix "kill -0 " cmd.

(** The results of the pid-liveness checks of a trace. *)
Definition pidChecks (evs : list Event) : list ExecResult :=
  List.map snd (List.filter (fun p => isKill0 (fst p)) (rawCommands evs)).

Definition observedDead (check : ExecResult) : bool :=
  String.eqb (trim (stdout check)) "stopped".

(** The events of the pid-liveness loop for the given check results. *)
Definition pollPidEvents (g : GlobalArgs) (pid : string)
           (checks : list ExecResult) : list Event :=
  flat_map (fun r => [EvSleep pollInterval;
                      EvExecRaw (sshHost g) (sshUser g) (cmdKill0 pid) r])
           checks.

(** The events of the readiness loop for iterations that found neither the
    marker nor a dead session. *)
Definition pollReadyEvents (g : GlobalArgs)
           (checks : list (ExecResult * ExecResult)) : list Event :=
  flat_map (fun p => [EvExecRaw (sshHost g) (sshUser g) (cmdGrepDone g) (fst p);
                      EvExecRaw (sshHost g) (sshUser g) (cmdSessionAlive g) (snd p);
                      EvSleep (readyPoll * 1000)])
           checks.

(** Commands that only probe the remote host. *)
Definition isProbe (g : GlobalArgs) (cmd : string) : bool :=
  String.eqb cmd cmdEcho || String.eqb cmd (cmdHasSession g)
  || String.eqb cmd cmdJavaCheck.

(** No event of the trace changes anything on the remote host. *)
Definition readOnlyEvent (g : GlobalArgs) (e : Event) : bool :=
  match e with
  | EvExecRaw _ _ cmd _ => isProbe g cmd
  | EvExec _ _ _ _ => false
  | EvWaitForSsh _ _ _ => true
  | EvSleep _ => true
  | EvWriteResource _ _ _ => true
  end.

(** No event of the trace runs anything on the remote host. *)
Definition isRemote (e : Event) : bool :=
  match e with
  | EvExecRaw _ _ _ _ | EvExec _ _ _ _ | EvWaitForSsh _ _ _ => true
  | EvSleep _ | EvWriteResource _ _ _ => false
  end.

(** [tail -n +k] on a file of the given lines: from line [k] on, counting
    from 1. *)
Definition tailFromLine (k : Z) (lines : list string) : list string :=
  skipn (Z.to_nat (k - 1)) lines.

(** How [tail] reads the command the query sends: after [tail -n +] a
    plain decimal numeral, then a space and the file.  Anything else after
    the sign (a minus, [Infinity], an exponent form) is no line number. *)
Definition tailStart (cmd : string) : option Z :=
  match stripPrefix "tail -n +" cmd with
  | Some r =>
      match dropWhile isDigit r with
      | String " " _ =>
          option_map Z.of_uint (NilZero.uint_of_string (takeWhile isDigit r))
      | _ => None
      end
  | None => None
  end.

(* ================================================================== *)
(** * The response line, declaratively *)
(* ================================================================== *)

Definition startsWithLineTerminator (s : string) : bool :=
  match s with
  | EmptyString => true
  | String c _ => isLineTerminator c
  end.

(** [s] begins with a player-list response: the fixed words around two
    non-empty decimal numerals [n] and [m], then [rest] up to the end of the
    line. *)
Definition ListLineAt (s n m rest : string) : Prop :=
  exists post,
    s = "There are " ++ n ++ " of a max of " ++ m ++ " players online:"
        ++ rest ++ post
    /\ truthy n = true /\ JsString.all isDigit n = true
    /\ truthy m = true /\ JsString.all isDigit m = true
    /\ JsString.all isDot rest = true
    /\ startsWithLineTerminator post = true.

(** The first response in [text] starts after [pre]. *)
Definition FirstListLine (text n m rest : string) : Prop :=
  exists pre s,
    text = pre ++ s /\ ListLineAt s n m rest
    /\ forall pre1 c pre2 n' m' rest',
         pre = pre1 ++ String c pre2 ->
         ~ ListLineAt (String c pre2 ++ s) n' m' rest'.

(** No response anywhere in [text]. *)
Definition NoListLine (text : string) : Prop :=
  forall pre s n m rest, text = pre ++ s -> ~ ListLineAt s n m rest.

(** The pattern read off position by position, without backtracking: the
    two numerals are the longest runs of digits. *)
Definition listLineAt (s : string) : option (string * string * string) :=
  match stripPrefix "There are " s with
  | None => None
  | Some s1 =>
      let n := takeWhile isDigit s1 in
      if truthy n then
        match stripPrefix " of a max of " (dropWhile isDigit s1) with
        | None => None
        | Some s2 =>
            let m := takeWhile isDigit s2 in
            if truthy m then
              match stripPrefix " players online:" (dropWhile isDigit s2) with
              | None => None
              | Some s3 => Some (n, m, takeWhile isDot s3)
              end
            else None
        end
      else None
  end.

Definition groupsOf (x : string * string * string) : list string :=
  let '(n, m, rest) := x in [n; m; rest].

(** [f] applied to the last element only. *)
Fixpoint mapLast {A} (f : A -> A) (l : list A) : list A :=
  match l with
  | [] => []
  | x :: r =>
      match r with
      | [] => [f x]
      | _ :: _ => x :: mapLast f r
      end
  end.

Definition mapHead {A} (f : A -> A) (l : list A) : list A :=
  match l with
  | [] => []
  | x :: r => f x :: r
  end.

(** The comma-separated names of [rest], each trimmed, empty ones dropped. *)
Definition namesOf (rest : string) : list string :=
  List.filter truthy (List.map trim (split "," rest)).

(* ================================================================== *)
(** * A simulated server *)
(* ================================================================== *)

(** A scripted remote side: the session exists before [sessionUntil], the
    hosted process lives before [javaUntil], the log shows the ready marker
    from [readyAt] on (never, when that is [None]), and [wc], [tail] and
    [cat] answer fixed texts. *)
Record Scenario : Type := mkScenario {
  reachable : bool;
  sshUp : bool;
  sessionUntil : Z;
  javaUntil : Z;
  readyAt : option Z;
  wcText : string;
  tailText : string;
  startLogText : string
}.

Definition say_line (word : string) : ExecResult :=
  mkExecResult 0 (word ++ nl) EmptyString.

Definition simRespond (sc : Scenario) (g : GlobalArgs)
           (h : list Event) (t : Z) (host : option string) (user cmd : string)
  : ExecResult :=
  if String.eqb cmd cmdEcho then
    mkExecResult (if reachable sc then 0 else 255) ("ok" ++ nl) EmptyString
  else if String.eqb cmd (cmdHasSession g) then
    say_line (if t <? sessionUntil sc then "exists" else "missing")
  else if String.eqb cmd (cmdSessionAlive g) then
    say_line (if t <? sessionUntil sc then "alive" else "dead")
  else if String.eqb cmd cmdJavaCheck then
    say_line (if t <? javaUntil sc then "running" else "stopped")
  else if String.eqb cmd cmdJavaPid then
    mkExecResult 0 ("4242" ++ nl ++ "4243" ++ nl) EmptyString
  else if isKill0 cmd then
    say_line (if t <? javaUntil sc then "running" else "stopped")
  else if String.eqb cmd (cmdWc g) then
    mkExecResult 0 (wcText sc) EmptyString
  else if String.prefix "tail -n +" cmd then
    mkExecResult 0 (tailText sc) EmptyString
  else if String.eqb cmd (cmdGrepDone g) then
    say_line (match readyAt sc with
              | Some t0 => if t0 <=? t then "READY" else "WAITING"
              | None => "WAITING"
              end)
  else if String.eqb cmd (cmdCatStartLog g) then
    mkExecResult 0 (startLogText sc) EmptyString
  else mkExecResult 0 EmptyString EmptyString.

(** The simulated clock: remote commands take no time, sleeps are exact. *)
Definition simEnv (sc : Scenario) (g : GlobalArgs) : Env :=
  mkEnv (simRespond sc g)
        (fun _ _ _ _ _ => None)
        (fun _ _ _ _ => sshUp sc)
        (fun _ _ => 0%N)
        (fun _ _ => 0%N).

Definition simValid (h : option string) : bool :=
  match h with
  | Some s => truthy s
  | None => false
  end.

Definition simISO (t : Z) : string := ofZ t.

Definition simArgs : GlobalArgs :=
  mkGlobalArgs (Some "10.0.0.7") "root" "mons" "~/mons" "./startserver.sh"
               "~/mons/logs/latest.log" "server".

Definition simArgsNoHost : GlobalArgs :=
  mkGlobalArgs None "root" "mons" "~/mons" "./startserver.sh"
               "~/mons/logs/latest.log" "server".

Definition world0 : World := mkWorld 1000000 [].

Definition listLine : string :=
  "[12:00:00] [Server thread/INFO]: There are 2 of a max of 20 players online: Alice, Bob".

(** A running server with two players. *)
Definition scRunning : Scenario :=
  mkScenario true true 100000000 100000000 (Some 0) ("41" ++ nl)
             (listLine ++ nl) EmptyString.

(** [s] is empty or begins with a character outside [p]. *)
Definition stopsAt (p : ascii -> bool) (s : string) : bool :=
  match s with
  | EmptyString => true
  | String c _ => negb (p c)
  end.


(** The run ends at once with the one resource [d] written and nothing
    else done. *)
Definition shortCircuits (run : outcome (list Handle) * World) (w : World)
           (kind name : string) (d : ServerData) : Prop :=
  run = (Ret [mkHandle kind name],
         mkWorld (now w) (trace w ++ [EvWriteResource kind name d])).

Definition skippedData : ServerData :=
  object [with_success true; with_skipped true].

(** What [sendToConsole] may run for the console text [text]: the session
    check and the command that types [text] into the session, both spelled
    out. *)
Definition consoleEvent (g : GlobalArgs) (text : string) (e : Event) : Prop :=
  match e with
  | EvExecRaw host user cmd _ =>
      host = sshHost g /\ user = sshUser g
      /\ (cmd = "tmux has-session -t " ++ tmuxSession g
                ++ " 2>/dev/null && echo exists || echo missing"
          \/ cmd = "tmux send-keys -t " ++ tmuxSession g ++ " '" ++ text
                   ++ "' Enter")
  | EvExec _ _ _ _ => False
  | EvWaitForSsh _ _ _ => False
  | EvSleep _ => False
  | EvWriteResource _ _ _ => True
  end.

(** [Removed keep s t]: [t] is [s] with exactly the characters outside
    [keep] removed, the others kept in their order. *)
Inductive Removed (keep : ascii -> bool) : string -> string -> Prop :=
| RemovedNil : Removed keep EmptyString EmptyString
| RemovedKeep c s t :
    keep c = true -> Removed keep s t -> Removed keep (String c s) (String c t)
| RemovedDrop c s t :
    keep c = false -> Removed keep s t -> Removed keep (String c s) t.

Definition sawReady (logCheck : ExecResult) : bool :=
  String.eqb (trim (stdout logCheck)) "READY".

Definition sawDead (tmuxAlive : ExecResult) : bool :=
  String.eqb (trim (stdout tmuxAlive)) "dead".

(** How the readiness loop can end, with the events of its last pass. *)
Inductive ReadyEnd (g : GlobalArgs) (deadline : Z)
  : outcome bool -> list Event -> Prop :=
| EndTimedOut :
    ReadyEnd g deadline (Ret false) []
| EndReady (rg : ExecResult) :
    sawReady rg = true ->
    ReadyEnd g deadline (Ret true)
      [EvExecRaw (sshHost g) (sshUser g) (cmdGrepDone g) rg]
| EndDead (rg ra rc : ExecResult) :
    sawReady rg = false -> sawDead ra = true ->
    ReadyEnd g deadline (Throw (msgDead (stdout rc)))
      [EvExecRaw (sshHost g) (sshUser g) (cmdGrepDone g) rg;
       EvExecRaw (sshHost g) (sshUser g) (cmdSessionAlive g) ra;
       EvExecRaw (sshHost g) (sshUser g) (cmdCatStartLog g) rc].

(** The target is stopped and stays so: no host, or the host never answers,
    or it never shows the session nor a hosted process. *)
Definition StoppedTarget (isValidSshHost : option string -> bool) (env : Env)
           (g : GlobalArgs) : Prop :=
  isValidSshHost (sshHost g) = false
  \/ (forall h t,
        code (respond env h t (sshHost g) (sshUser g) cmdEcho) <> 0)
  \/ (forall h t,
        sessionExists (respond env h t (sshHost g) (sshUser g) (cmdHasSession g))
        = false
        /\ String.eqb
             (trim (stdout (respond env h t (sshHost g) (sshUser g) cmdJavaCheck)))
             "running" = false).

(** The events of [startMinecraftServer] between the SSH wait and the
    readiness loop: stale-session kill, the two truncations, the creation. *)
Definition startSetup (g : GlobalArgs) (r1 r2 r3 r4 : ExecResult) : list Event :=
  [ EvExecRaw (sshHost g) (sshUser g) (cmdKillSession g) r1;
    EvExecRaw (sshHost g) (sshUser g) (cmdTruncate (logPath g)) r2;
    EvExecRaw (sshHost g) (sshUser g) (cmdTruncate (startLogOf g)) r3;
    EvExecRaw (sshHost g) (sshUser g) (cmdNewSession g) r4 ].

(** How [startMinecraftServer] ends once the session was created, given how
    the readiness loop ended: outcome of the method and events after the
    setup. *)
Definition StartEnd (g : GlobalArgs) (deadline : Z)
           (o : outcome (list Handle)) (rest : list Event) : Prop :=
  exists passes last oo,
    ReadyEnd g deadline oo last
    /\ match oo with
       | Ret true =>
           exists ts,
             o = Ret [mkHandle "server" (serverName g)]
             /\ rest = (pollReadyEvents g passes ++ last
                          ++ [EvWriteResource "server" (serverName g)
                                              (readyData g ts)])%list
       | Ret false =>
           passes <> []
           /\ exists rc,
               o = Throw (msgNotReady readyTimeout (stdout rc))
               /\ rest = (pollReadyEvents g passes
                            ++ [EvExecRaw (sshHost g) (sshUser g)
                                          (cmdCatStartLog g) rc])%list
       | Throw m =>
           o = Throw m /\ rest = (pollReadyEvents g passes ++ last)%list
       | OutOfFuel => False
       end.







(** The server becomes ready 897 s after the start: inside the last poll
    interval of the 900 s. *)
Definition scReadyLate : Scenario :=
  mkScenario true true 100000000 100000000 (Some 1897000) ("41" ++ nl)
             EmptyString "boot log".



(** The hosted process exits 5.5 s after the stop command. *)
Definition scStopsSoon : Scenario :=
  mkScenario true true 100000000 1005500 (Some 0) ("41" ++ nl)
             EmptyString EmptyString.

(** The hosted process never exits. *)
Definition scNeverStops : Scenario :=
  mkScenario true true 100000000 100000000 (Some 0) ("41" ++ nl)
             EmptyString EmptyString.

(** Nothing runs on the host: no session, no process. *)
Definition scDown : Scenario :=
  mkScenario true true 0 0 None EmptyString EmptyString EmptyString.

(** The list command is answered with something else. *)
Definition scGarbled : Scenario :=
  mkScenario true true 100000000 100000000 (Some 0) ("41" ++ nl)
             ("[12:00:01] [Server thread/INFO]: Unknown command" ++ nl)
             EmptyString.

Definition isRaw (e : Event) : bool :=
  match e with EvExecRaw _ _ _ _ => true | _ => false end.

(** The watermark the query takes from the answer to [wc -l]. *)
Definition watermarkOf (wcResult : ExecResult) : number :=
  orZero (parseInt (trim (stdout wcResult))).

(** The events of the query phase of [status] and [collectMetrics]. *)
Definition queryEvents (g : GlobalArgs) (r0 r1 rw rl rt : ExecResult)
  : list Event :=
  [ EvExecRaw (sshHost g) (sshUser g) cmdEcho r0;
    EvExecRaw (sshHost g) (sshUser g) (cmdHasSession g) r1;
    EvExecRaw (sshHost g) (sshUser g) (cmdWc g) rw;
    EvExecRaw (sshHost g) (sshUser g) (cmdSendKeys g "list") rl;
    EvSleep 2000;
    EvExecRaw (sshHost g) (sshUser g) (cmdTail g (watermarkOf rw)) rt ].

(** The probes a query may have run when it ends at a gate. *)
Definition gateProbes (g : GlobalArgs) (pre : list Event) : Prop :=
  pre = []
  \/ (exists r0, pre = [EvExecRaw (sshHost g) (sshUser g) cmdEcho r0])
  \/ (exists r0 r1,
        pre = [EvExecRaw (sshHost g) (sshUser g) cmdEcho r0;
               EvExecRaw (sshHost g) (sshUser g) (cmdHasSession g) r1]).

(** Where the [list] command stands at index [i] of a trace: the line count
    was read right before it, the settle wait and the tail follow it, and
    the tail command names the number after the watermark.  For a watermark
    that is a line count below [2^53], that number is the next integer:
    [tail] starts at the line after the watermark, so that every line it
    returns has a line number above the watermark. *)
Definition QueryOrder (g : GlobalArgs) (evs : list Event) (i : nat) : Prop :=
  exists rw rt,
    (1 <= i)%nat
    /\ nth_error evs (i - 1)
       = Some (EvExecRaw (sshHost g) (sshUser g) ("wc -l < " ++ logPath g) rw)
    /\ nth_error evs (i + 1) = Some (EvSleep 2000)
    /\ nth_error evs (i + 2)
       = Some (EvExecRaw (sshHost g) (sshUser g)
                 ("tail -n +" ++ numberToString (plusOne (watermarkOf rw))
                  ++ " " ++ logPath g) rt)
    /\ forall z,
         watermarkOf rw = Fin z -> 0 <= z < 2 ^ 53 ->
         tailStart ("tail -n +" ++ numberToString (plusOne (watermarkOf rw))
                    ++ " " ++ logPath g)
         = Some (z + 1)
         /\ forall lines j l,
             nth_error (tailFromLine (z + 1) lines) j = Some l ->
             nth_error lines (Z.to_nat z + j) = Some l
             /\ z < Z.of_nat (Z.to_nat z + j) + 1.

(** The result of a query whose response was not understood, for the two
    values of [online] in question. *)
Definition undeterminedData (d : ServerData) (onlineValue : option number) : Prop :=
  serverRunning d = Some true /\ online d = Some onlineValue
  /\ max d = Some None /\ players d = Some [].

(** The host does not answer. *)
Definition scUnreachable : Scenario :=
  mkScenario false true 0 0 None EmptyString EmptyString EmptyString.

Definition okResult : ExecResult := mkExecResult 0 EmptyString EmptyString.

(* ================================================================== *)
(** * What a method may emit *)
(* ================================================================== *)

(** A remote event is addressed to the host and user of the configuration. *)
Definition onHost (g : GlobalArgs) (e : Event) : Prop :=
  match e with
  | EvExecRaw h u _ _ | EvExec h u _ _ | EvWaitForSsh h u _ =>
      h = sshHost g /\ u = sshUser g
  | EvSleep _ | EvWriteResource _ _ _ => True
  end.

(** Whatever world [m] starts in, it only appends to the trace, and every
    event it appends satisfies [P]. *)
Definition Emits (P : Event -> Prop) {A} (m : M A) : Prop :=
  forall w, exists evs,
    trace (snd (m w)) = (trace w ++ evs)%list /\ Forall P evs.

Definition sentData : ServerData :=
  object [with_success true; with_skipped false].

(** The trace of a console method ([say], [op], [deop]) on a usable host,
    given the answer [check] to the session check: one [send-keys] of
    [text] when the session exists, nothing but the check otherwise. *)
Definition consoleTrace (g : GlobalArgs) (text : string) (check : ExecResult)
           (evs : list Event) : Prop :=
  if sessionExists check then
    exists r,
      evs = [ EvExecRaw (sshHost g) (sshUser g) (cmdHasSession g) check;
              EvExecRaw (sshHost g) (sshUser g) (cmdSendKeys g text) r;
              EvWriteResource "server" (serverName g) sentData ]
  else
    evs = [ EvExecRaw (sshHost g) (sshUser g) (cmdHasSession g) check;
            EvWriteResource "server" (serverName g) skippedData ].

Definition isWrite (e : Event) : bool :=
  match e with EvWriteResource _ _ _ => true | _ => false end.



Definition javaRunning (javaCheck : ExecResult) : bool :=
  String.eqb (trim (stdout javaCheck)) "running".


(* ================================================================== *)
(** * Player names and numbers *)
(* ================================================================== *)

Definition notComma (c : ascii) : bool := negb (Ascii.eqb c ",").

Definition whiteOrComma (c : ascii) : bool := isWhite c || Ascii.eqb c ",".

(** A reported name: not empty, no white space around it, no comma in it. *)
Definition cleanName (name : string) : Prop :=
  truthy name = true /\ trim name = name /\ JsString.all notComma name = true.

(** Zero, a positive integer, or the positive infinity. *)
Definition notNegative (x : number) : bool :=
  match x with
  | Fin z => 0 <=? z
  | Inf negative => negb negative
  end.

(** The resource [collectMetrics] may write: kind and name as configured,
    [online] a number that is not negative: never null, absent or [NaN]. *)
Definition metricsWrite (g : GlobalArgs) (e : Event) : Prop :=
  match e with
  | EvWriteResource kind name d =>
      kind = "metrics" /\ name = serverName g
      /\ exists v, online d = Some (Some v) /\ notNegative v = true
  | _ => True
  end.

(* ================================================================== *)
(** * The quoting of the log line *)
(* ================================================================== *)

(** How a POSIX shell reads one word made of single-quoted parts and
    backslash-escaped characters: inside quotes every character up to the
    closing quote stands for itself; outside quotes a quote opens a quoted
    part and a backslash makes the next character stand for itself.  Any
    other unquoted character, and an unclosed quote, give [None]. *)
Fixpoint shUnquote (inQuote : bool) (s : string) : option string :=
  match s with
  | EmptyString => if inQuote then None else Some EmptyString
  | String c r =>
      if inQuote then
        if Ascii.eqb c "'" then shUnquote false r
        else option_map (String c) (shUnquote true r)
      else if Ascii.eqb c "'" then shUnquote true r
      else if (codeUnit c =? 92)%N then
        match r with
        | String d r' => option_map (String d) (shUnquote false r')
        | EmptyString => None
        end
      else None
  end.

(** Not a control character: no line break in particular. *)
Definition noControl (c : ascii) : bool := (32 <=? codeUnit c)%N.

(** The word that [cmdAppendLog] hands to [echo]. *)
Definition quotedLogLine (logLine : string) : string :=
  "'" ++ Metrics.quoteForShell logLine ++ "'".

(* ================================================================== *)
(** * How reports end *)
(* ================================================================== *)

(** How a run of [collectMetrics] can end: it returns the handle of the one
    resource it wrote, as its last event; or it throws the error of a
    failed [sshExec], its last event, having written no resource. *)
Definition CollectEnd (g : GlobalArgs) (o : outcome (list Handle))
           (evs : list Event) : Prop :=
  (o = Ret [mkHandle "metrics" (serverName g)]
   /\ exists pre d,
       evs = (pre ++ [EvWriteResource "metrics" (serverName g) d])%list
       /\ lastWrite pre = None)
  \/ (exists msg pre c,
         o = Throw msg
         /\ evs = (pre ++ [EvExec (sshHost g) (sshUser g) c (Some msg)])%list
         /\ lastWrite evs = None).

(** An environment in which every file write on the host fails. *)
Definition brokenDiskEnv (sc : Scenario) (g : GlobalArgs) : Env :=
  mkEnv (simRespond sc g)
        (fun _ _ _ _ _ => Some "disk full")
        (fun _ _ _ _ => sshUp sc)
        (fun _ _ => 0%N)
        (fun _ _ => 0%N).


(** A response line with nobody online. *)
Definition emptyListLine : string :=
  "[12:00:00] [Server thread/INFO]: There are 0 of a max of 20 players online: ".

(* ================================================================== *)
(** * The here-document of the metrics file *)
(* ================================================================== *)

Definition notLineBreak (c : ascii) : bool := negb (Ascii.eqb c nlChar).

(** The lines that [formatPromMetrics] joins. *)
Definition promLines (nowMs : Z) (gameType serverName : string)
           (data : ServerData) : list string :=
  let labels := "game=" ++ dq ++ gameType ++ dq ++ ",server=" ++ dq
                ++ serverName ++ dq in
  let running := match serverRunning data with Some true => 1 | _ => 0 end in
  List.app
    [ "# HELP game_server_running Whether the game server process is running";
      "# TYPE game_server_running gauge";
      "game_server_running{" ++ labels ++ "} " ++ numberToString (Fin running);
      "# HELP game_players_online Current number of players online";
      "# TYPE game_players_online gauge";
      "game_players_online{" ++ labels ++ "} "
        ++ Metrics.numText "undefined" (online data) ]
    (List.app
       match max data with
       | Some None => []
       | _ => [ "# HELP game_players_max Maximum player slots";
                "# TYPE game_players_max gauge";
                "game_players_max{" ++ labels ++ "} "
                  ++ Metrics.numText "undefined" (max data) ]
       end
       [ "# HELP game_metrics_collected_at Unix timestamp of last successful collection";
         "# TYPE game_metrics_collected_at gauge";
         "game_metrics_collected_at{" ++ labels ++ "} " ++ numberToString (toNumber (nowMs / 1000)) ]).

(** Lines, each ended by a line break. *)
Definition unlines (lines : list string) : string :=
  fold_right (fun l acc => l ++ nl ++ acc) EmptyString lines.

(** How the shell reads a here-document whose delimiter is quoted: the
    lines after the command line, taken as they are, up to the first line
    that is the delimiter; with them, the lines after the delimiter.
    [None] when no line is the delimiter. *)
Fixpoint heredoc (delim : string) (lines : list string)
  : option (list string * list string) :=
  match lines with
  | [] => None
  | l :: r =>
      if String.eqb l delim then Some ([], r)
      else option_map (fun p => (l :: fst p, snd p)) (heredoc delim r)
  end.

(** The last line of the command that writes the metrics file. *)
Definition cmdMoveProm (gameType : string) : string :=
  "mv " ++ Metrics.promFile gameType ++ ".tmp " ++ Metrics.promFile gameType.

(* ================================================================== *)
(** * The claims as the specification states them, and their inputs *)
(* ================================================================== *)




(** A response line whose count no double holds. *)
Definition bigCountLine : string :=
  "[12:00:00] [Server thread/INFO]: There are 9007199254740993 of a max of 20 players online: Alice".

Definition scBigCount : Scenario :=
  mkScenario true true 100000000 100000000 (Some 0) ("41" ++ nl)
             (bigCountLine ++ nl) EmptyString.

(** A log of [2^53] lines. *)
Definition scHugeLog : Scenario :=
  mkScenario true true 100000000 100000000 (Some 0)
             ("9007199254740992" ++ nl) (listLine ++ nl) EmptyString.

(** The tail as the specification states it, with the [list] command at
    index [i]: the tail command starts at a line above the watermark. *)
Definition TailAboveWatermark (evs : list Event) (i : nat) : Prop :=
  exists host user cw rw ct rt z k,
    nth_error evs (i - 1) = Some (EvExecRaw host user cw rw)
    /\ watermarkOf rw = Fin z
    /\ nth_error evs (i + 2) = Some (EvExecRaw host user ct rt)
    /\ tailStart ct = Some k
    /\ z < k.
(* ================================================================== *)
(** * Facts about strings *)
(* ================================================================== *)

Unset Implicit Arguments.

Lemma str_app_assoc (a b c : string) : (a ++ b) ++ c = a ++ (b ++ c).
Proof.
  induction a as [|x a IH]; simpl; [reflexivity | now rewrite IH].
Qed.

Lemma str_app_nil_r (a : string) : a ++ EmptyString = a.
Proof.
  induction a as [|x a IH]; simpl; [reflexivity | now rewrite IH].
Qed.

Lemma all_filter (p : ascii -> bool) (s : string) :
  JsString.all p (JsString.filter p s) = true.
Proof.
  induction s as [|c r IH]; simpl; [reflexivity|].
  destruct (p c) eqn:E; simpl; [rewrite E; exact IH | exact IH].
Qed.

Lemma filter_keeps (p : ascii -> bool) (s : string) :
  JsString.all p s = true -> JsString.filter p s = s.
Proof.
  induction s as [|c r IH]; simpl; [reflexivity|].
  intros H. apply andb_prop in H. destruct H as [Hc Hr].
  rewrite Hc, (IH Hr). reflexivity.
Qed.

Lemma stripPrefix_app (p s : string) : stripPrefix p (p ++ s) = Some s.
Proof.
  induction p as [|a p IH]; simpl; [reflexivity|].
  rewrite Ascii.eqb_refl. exact IH.
Qed.

Lemma stripPrefix_Some (p s r : string) :
  stripPrefix p s = Some r -> s = p ++ r.
Proof.
  revert s. induction p as [|a p IH]; intros s H; simpl in *.
  - now inversion H.
  - destruct s as [|b s]; [discriminate|].
    destruct (Ascii.eqb a b) eqn:E; [|discriminate].
    apply Ascii.eqb_eq in E. subst b. now rewrite (IH _ H).
Qed.

Lemma takeWhile_dropWhile (p : ascii -> bool) (s : string) :
  takeWhile p s ++ dropWhile p s = s.
Proof.
  induction s as [|c r IH]; simpl; [reflexivity|].
  destruct (p c); simpl; [now rewrite IH | reflexivity].
Qed.

Lemma all_takeWhile (p : ascii -> bool) (s : string) :
  JsString.all p (takeWhile p s) = true.
Proof.
  induction s as [|c r IH]; simpl; [reflexivity|].
  destruct (p c) eqn:E; simpl; [rewrite E; exact IH | reflexivity].
Qed.

Lemma stopsAt_dropWhile (p : ascii -> bool) (s : string) :
  stopsAt p (dropWhile p s) = true.
Proof.
  induction s as [|c r IH]; simpl; [reflexivity|].
  destruct (p c) eqn:E; simpl; [exact IH | now rewrite E].
Qed.

Lemma takeWhile_app (p : ascii -> bool) (a b : string) :
  JsString.all p a = true -> stopsAt p b = true ->
  takeWhile p (a ++ b) = a /\ dropWhile p (a ++ b) = b.
Proof.
  intros Ha Hb. induction a as [|c a IH]; simpl in *.
  - destruct b as [|d b]; simpl in *; [auto|].
    apply negb_true_iff in Hb. rewrite Hb. auto.
  - apply andb_prop in Ha. destruct Ha as [Hc Ha]. rewrite Hc.
    destruct (IH Ha) as [E1 E2]. rewrite E1, E2. auto.
Qed.

(* ================================================================== *)
(** * Facts about numbers *)
(* ================================================================== *)

Lemma toNumber_small (z : Z) : Z.abs z < 2 ^ 53 -> toNumber z = Fin z.
Proof.
  intros H. unfold toNumber.
  assert (E : Z.log2 (Z.abs z) - 52 <= 0).
  { destruct (Z.eq_dec (Z.abs z) 0) as [->|Hz]; [cbn; lia|].
    assert (Z.log2 (Z.abs z) < 53); [|lia].
    apply Z.log2_lt_pow2; lia. }
  apply Z.leb_le in E. cbv zeta. now rewrite E.
Qed.

(** Line counts up to [2^53] are doubles themselves. *)
Lemma toNumber_count (z : Z) : 0 <= z <= 2 ^ 53 -> toNumber z = Fin z.
Proof.
  intros H. destruct (Z.eq_dec z (2 ^ 53)) as [->|Hz]; [vm_compute; reflexivity|].
  apply toNumber_small. lia.
Qed.

Lemma numberToString_count (z : Z) :
  0 <= z <= 2 ^ 53 -> numberToString (Fin z) = ofZ z.
Proof.
  intros H. destruct (Z.eq_dec z (2 ^ 53)) as [->|Hz]; [vm_compute; reflexivity|].
  unfold numberToString, positiveToString.
  replace (z <? 0) with false by (symmetry; apply Z.ltb_ge; lia).
  replace (z <? 2 ^ 53) with true by (symmetry; apply Z.ltb_lt; lia).
  reflexivity.
Qed.

Lemma plusOne_count (z : Z) : 0 <= z < 2 ^ 53 -> plusOne (Fin z) = Fin (z + 1).
Proof. intros H. cbn [plusOne]. apply toNumber_count. lia. Qed.

Lemma toNumber_notNegative (z : Z) : 0 <= z -> notNegative (toNumber z) = true.
Proof.
  intros H. unfold toNumber. cbv zeta.
  destruct (Z.log2 (Z.abs z) - 52 <=? 0) eqn:E; [now apply Z.leb_le|].
  apply Z.leb_gt in E.
  match goal with |- context [if ?c then _ else _] => destruct c end.
  - cbn [notNegative]. apply negb_true_iff, Z.ltb_ge, H.
  - cbn [notNegative]. apply Z.leb_le.
    apply Z.mul_nonneg_nonneg; [apply Z.sgn_nonneg, H|].
    apply Z.mul_nonneg_nonneg; [|apply Z.pow_nonneg; lia].
    assert (0 <= Z.abs z / 2 ^ (Z.log2 (Z.abs z) - 52))
      by (apply Z.div_pos; [lia | apply Z.pow_pos_nonneg; lia]).
    repeat match goal with |- context [if ?c then _ else _] => destruct c end; lia.
Qed.

Lemma digit_value_range (c : ascii) :
  isDigit c = true -> 0 <= Z.of_N (codeUnit c) - 48 <= 9.
Proof.
  unfold isDigit. intros H. apply andb_prop in H. destruct H as [H1 H2].
  apply N.leb_le in H1. apply N.leb_le in H2. lia.
Qed.

Lemma digitsValueAcc_nonneg (s : string) (acc : Z) :
  0 <= acc -> JsString.all isDigit s = true -> 0 <= digitsValueAcc acc s.
Proof.
  revert acc. induction s as [|c r IH]; intros acc Ha H; [exact Ha|].
  cbn [JsString.all digitsValueAcc] in *.
  apply andb_prop in H. destruct H as [Hc Hr].
  pose proof (digit_value_range c Hc). apply IH; [lia | exact Hr].
Qed.

Lemma uint_digits (d : Decimal.uint) :
  JsString.all isDigit (NilEmpty.string_of_uint d) = true.
Proof.
  induction d; cbn [NilEmpty.string_of_uint JsString.all]; auto.
Qed.

(** The numeral of a count is made of digits and reads back as the count. *)
Lemma ofZ_count (z : Z) :
  0 <= z ->
  JsString.all isDigit (ofZ z) = true
  /\ option_map Z.of_uint (NilZero.uint_of_string (ofZ z)) = Some z.
Proof.
  intros H. destruct z as [|p|p]; [split; reflexivity | | lia].
  unfold ofZ. cbn [Z.to_int NilZero.string_of_int].
  pose proof (Unsigned.to_uint_nonnil p) as Hn. split.
  - unfold NilZero.string_of_uint.
    destruct (Pos.to_uint p); try apply (uint_digits (_ u)). now destruct Hn.
  - rewrite (NilZero.usu _ Hn). cbn [option_map]. unfold Z.of_uint.
    now rewrite Unsigned.of_to.
Qed.

Lemma tailStart_count (z : Z) (path : string) :
  0 <= z -> tailStart ("tail -n +" ++ ofZ z ++ " " ++ path) = Some z.
Proof.
  intros H. destruct (ofZ_count z H) as [Hd Hp].
  unfold tailStart. rewrite (stripPrefix_app "tail -n +").
  destruct (takeWhile_app isDigit (ofZ z) (" " ++ path) Hd eq_refl) as [E1 E2].
  rewrite E1, E2. exact Hp.
Qed.

(* ================================================================== *)
(** * The matcher finds the response line *)
(* ================================================================== *)

Lemma star_greedy {R} (p : ascii -> bool) (s : string)
      (k : string -> string -> option R) (r : R) :
  k (takeWhile p s) (dropWhile p s) = Some r -> Regex.star p s k = Some r.
Proof.
  revert k. induction s as [|c s IH]; intros k H; simpl in *; [exact H|].
  destruct (p c); [|exact H].
  now rewrite (IH (fun cap rest => k (String c cap) rest) H).
Qed.

(** When the continuation refuses every rest that begins inside the class,
    backtracking finds nothing the longest run did not find. *)
Lemma star_stops {R} (p : ascii -> bool) (s : string)
      (k : string -> string -> option R) :
  (forall cap rest, stopsAt p rest = false -> k cap rest = None) ->
  Regex.star p s k = k (takeWhile p s) (dropWhile p s).
Proof.
  revert k. induction s as [|c s IH]; intros k H; simpl; [reflexivity|].
  destruct (p c) eqn:E; [|reflexivity].
  rewrite IH by (intros; now apply H).
  destruct (k (String c (takeWhile p s)) (dropWhile p s)); [reflexivity|].
  apply H. simpl. now rewrite E.
Qed.

Lemma digit_not_space (a : ascii) : isDigit a = true -> Ascii.eqb " " a = false.
Proof.
  intros H. destruct (Ascii.eqb_spec " "%char a) as [<-|]; [|reflexivity].
  vm_compute in H. discriminate.
Qed.

Lemma stripPrefix_space_digit (l rest : string) :
  stopsAt isDigit rest = false -> stripPrefix (String " " l) rest = None.
Proof.
  destruct rest as [|a rest]; cbn [stopsAt stripPrefix]; [discriminate|].
  intros H. apply negb_false_iff in H. now rewrite (digit_not_space _ H).
Qed.

Lemma matchHere_listRegex (s : string) :
  Regex.matchHere listRegex s [] = option_map groupsOf (listLineAt s).
Proof.
  unfold listRegex, listLineAt. cbn [Regex.matchHere].
  destruct (stripPrefix "There are " s) as [s1|]; [|reflexivity].
  destruct s1 as [|c1 r1]; [reflexivity|].
  cbn [takeWhile dropWhile]. destruct (isDigit c1) eqn:E1; [|reflexivity].
  cbn [truthy]. rewrite star_stops.
  2:{ intros cap rest H. now rewrite (stripPrefix_space_digit _ _ H). }
  destruct (stripPrefix " of a max of " (dropWhile isDigit r1)) as [s2|];
    [|reflexivity].
  destruct s2 as [|c2 r2]; [reflexivity|].
  cbn [takeWhile dropWhile]. destruct (isDigit c2) eqn:E2; [|reflexivity].
  cbn [truthy]. rewrite star_stops.
  2:{ intros cap rest H. now rewrite (stripPrefix_space_digit _ _ H). }
  destruct (stripPrefix " players online:" (dropWhile isDigit r2)) as [s3|];
    [|reflexivity].
  apply star_greedy. reflexivity.
Qed.

Lemma listLineAt_complete (s n m rest : string) :
  ListLineAt s n m rest -> listLineAt s = Some (n, m, rest).
Proof.
  intros (post & Hs & Hn & Dn & Hm & Dm & Hr & Hp). subst s.
  unfold listLineAt. rewrite stripPrefix_app.
  assert (Sp : forall l x, stopsAt isDigit (String " " l ++ x) = true)
    by reflexivity.
  destruct (takeWhile_app isDigit n
              (" of a max of " ++ m ++ " players online:" ++ rest ++ post)
              Dn (Sp _ _)) as [T1 D1].
  rewrite T1, D1, Hn, stripPrefix_app.
  destruct (takeWhile_app isDigit m (" players online:" ++ rest ++ post)
              Dm (Sp _ _)) as [T2 D2].
  rewrite T2, D2, Hm, stripPrefix_app.
  assert (Sr : stopsAt isDot post = true).
  { destruct post as [|c post]; [reflexivity|]. simpl in *.
    unfold isDot. now rewrite Hp. }
  destruct (takeWhile_app isDot rest post Hr Sr) as [T3 _].
  now rewrite T3.
Qed.

Lemma listLineAt_sound (s n m rest : string) :
  listLineAt s = Some (n, m, rest) -> ListLineAt s n m rest.
Proof.
  unfold listLineAt. intros H.
  destruct (stripPrefix "There are " s) as [s1|] eqn:P1; [|discriminate].
  destruct (truthy (takeWhile isDigit s1)) eqn:Hn; [|discriminate].
  destruct (stripPrefix " of a max of " (dropWhile isDigit s1)) as [s2|] eqn:P2;
    [|discriminate].
  destruct (truthy (takeWhile isDigit s2)) eqn:Hm; [|discriminate].
  destruct (stripPrefix " players online:" (dropWhile isDigit s2)) as [s3|] eqn:P3;
    [|discriminate].
  inversion H; subst n m rest; clear H.
  exists (dropWhile isDot s3).
  repeat split; auto using all_takeWhile.
  - rewrite takeWhile_dropWhile.
    rewrite <- (stripPrefix_Some _ _ _ P3), takeWhile_dropWhile.
    rewrite <- (stripPrefix_Some _ _ _ P2), takeWhile_dropWhile.
    exact (stripPrefix_Some _ _ _ P1).
  - pose proof (stopsAt_dropWhile isDot s3) as St.
    destruct (dropWhile isDot s3) as [|c r]; [reflexivity|].
    simpl in *. unfold isDot in St. now rewrite negb_involutive in St.
Qed.

Lemma jsMatch_here (s : string) (x : string * string * string) :
  listLineAt s = Some x -> Regex.jsMatch listRegex s = Some (groupsOf x).
Proof.
  intros H. destruct s; cbn [Regex.jsMatch];
    rewrite matchHere_listRegex, H; reflexivity.
Qed.

Lemma jsMatch_first (text n m rest : string) :
  FirstListLine text n m rest ->
  Regex.jsMatch listRegex text = Some [n; m; rest].
Proof.
  intros (pre & s & Ht & Hs & Hpre). subst text.
  induction pre as [|c pre IH].
  - cbn [append]. exact (jsMatch_here _ _ (listLineAt_complete _ _ _ _ Hs)).
  - change (String c pre ++ s) with (String c (pre ++ s)).
    cbn [Regex.jsMatch]. rewrite matchHere_listRegex.
    destruct (listLineAt (String c (pre ++ s))) as [[[n' m'] rest']|] eqn:E.
    + exfalso. apply (Hpre EmptyString c pre n' m' rest' eq_refl).
      now apply listLineAt_sound.
    + simpl. apply IH. intros pre1 c' pre2 n' m' rest' Hp.
      apply (Hpre (String c pre1) c' pre2). simpl. now rewrite Hp.
Qed.

Lemma jsMatch_none (text : string) :
  NoListLine text -> Regex.jsMatch listRegex text = None.
Proof.
  intros H. induction text as [|c text IH].
  - cbn [Regex.jsMatch]. rewrite matchHere_listRegex.
    destruct (listLineAt EmptyString) as [[[n m] rest]|] eqn:E; [|reflexivity].
    exfalso. apply (H EmptyString EmptyString n m rest eq_refl).
    now apply listLineAt_sound.
  - cbn [Regex.jsMatch]. rewrite matchHere_listRegex.
    destruct (listLineAt (String c text)) as [[[n m] rest]|] eqn:E.
    + exfalso. apply (H EmptyString (String c text) n m rest eq_refl).
      now apply listLineAt_sound.
    + simpl. apply IH. intros pre s n m rest Ht.
      apply (H (String c pre) s). simpl. now rewrite Ht.
Qed.

(** Whatever the matcher returns has three groups, the two numerals being
    non-empty runs of digits. *)
Lemma jsMatch_groups (text : string) (caps : list string) :
  Regex.jsMatch listRegex text = Some caps ->
  exists n m rest s,
    caps = [n; m; rest] /\ ListLineAt s n m rest
    /\ exists pre, text = pre ++ s.
Proof.
  induction text as [|c text IH]; cbn [Regex.jsMatch];
    rewrite matchHere_listRegex.
  - destruct (listLineAt EmptyString) as [[[n m] rest]|] eqn:E;
      simpl; intros H; inversion H; subst.
    exists n, m, rest, EmptyString. repeat split; auto using listLineAt_sound.
    now exists EmptyString.
  - destruct (listLineAt (String c text)) as [[[n m] rest]|] eqn:E; simpl.
    + intros H; inversion H; subst.
      exists n, m, rest, (String c text).
      repeat split; auto using listLineAt_sound. now exists EmptyString.
    + intros H. destruct (IH H) as (n & m & rest & s & Hc & Hl & pre & Hp).
      exists n, m, rest, s. repeat split; auto.
      exists (String c pre). simpl. now rewrite Hp.
Qed.

(* ================================================================== *)
(** * Numerals and name lists *)
(* ================================================================== *)

Lemma takeWhile_all (p : ascii -> bool) (s : string) :
  JsString.all p s = true -> takeWhile p s = s.
Proof.
  induction s as [|c r IH]; simpl; [reflexivity|].
  intros H. apply andb_prop in H. destruct H as [Hc Hr].
  now rewrite Hc, (IH Hr).
Qed.

Lemma parseInt_digit_head (c : ascii) (r : string) :
  isDigit c = true ->
  parseInt (String c r)
  = Some (toNumber (digitsValue (String c (takeWhile isDigit r)))).
Proof.
  intros H.
  destruct c as [[] [] [] [] [] [] [] []]; cbv in H; try discriminate H;
    unfold parseInt, trimStart; cbn [dropWhile];
    (lazymatch goal with
     | |- context [isWhite ?c] => change (isWhite c) with false
     end);
    cbv iota; cbn [takeWhile];
    (lazymatch goal with
     | |- context [isDigit ?c] => change (isDigit c) with true
     end);
    cbv iota; cbn [truthy]; now rewrite Z.mul_1_l.
Qed.

(** A captured numeral is never [NaN]: [parseInt] gives its value. *)
Lemma parseInt_digits (n : string) :
  truthy n = true -> JsString.all isDigit n = true ->
  parseInt n = Some (toNumber (digitsValue n)).
Proof.
  destruct n as [|c r]; [discriminate|]. intros _ H. simpl in H.
  apply andb_prop in H. destruct H as [Hc Hr].
  rewrite (parseInt_digit_head c r Hc), (takeWhile_all _ _ Hr). reflexivity.
Qed.

Lemma dropWhile_idem (p : ascii -> bool) (s : string) :
  dropWhile p (dropWhile p s) = dropWhile p s.
Proof.
  induction s as [|c r IH]; simpl; [reflexivity|].
  destruct (p c) eqn:E; [exact IH|]. simpl. now rewrite E.
Qed.

Lemma trimEnd_cons (c : ascii) (r : string) :
  trimEnd (String c r) =
  match trimEnd r with
  | EmptyString => if isWhite c then EmptyString else String c EmptyString
  | String _ _ as r' => String c r'
  end.
Proof. reflexivity. Qed.

Lemma trimEnd_idem (s : string) : trimEnd (trimEnd s) = trimEnd s.
Proof.
  induction s as [|c r IH]; [reflexivity|].
  rewrite trimEnd_cons. destruct (trimEnd r) as [|d r'] eqn:E.
  - destruct (isWhite c) eqn:W; [reflexivity|].
    rewrite trimEnd_cons. cbn [trimEnd]. now rewrite W.
  - rewrite trimEnd_cons, IH. reflexivity.
Qed.

Lemma trimStart_trimEnd (s : string) :
  trimStart (trimEnd s) = trimEnd (trimStart s).
Proof.
  unfold trimStart. induction s as [|c r IH]; [reflexivity|].
  rewrite trimEnd_cons. cbn [dropWhile].
  destruct (isWhite c) eqn:W.
  - destruct (trimEnd r) as [|d r'] eqn:E.
    + rewrite <- IH. reflexivity.
    + cbn [dropWhile]. rewrite W. exact IH.
  - rewrite trimEnd_cons.
    destruct (trimEnd r) as [|d r'] eqn:E; cbn [dropWhile]; now rewrite W.
Qed.

Lemma trim_trimStart (s : string) : trim (trimStart s) = trim s.
Proof. unfold trim, trimStart. now rewrite dropWhile_idem. Qed.

Lemma trim_trimEnd (s : string) : trim (trimEnd s) = trim s.
Proof. unfold trim. now rewrite trimStart_trimEnd, trimEnd_idem. Qed.

Lemma trim_idem (s : string) : trim (trim s) = trim s.
Proof. unfold trim at 2. now rewrite trim_trimEnd, trim_trimStart. Qed.

Lemma white_not_sep (c sep : ascii) :
  isWhite sep = false -> isWhite c = true -> Ascii.eqb c sep = false.
Proof.
  intros Hs Hc. destruct (Ascii.eqb_spec c sep) as [->|]; [|reflexivity].
  congruence.
Qed.

Lemma split_cons (sep c : ascii) (r : string) :
  split sep (String c r) =
  if Ascii.eqb c sep then EmptyString :: split sep r
  else match split sep r with
       | h :: t => String c h :: t
       | [] => [String c EmptyString]
       end.
Proof. reflexivity. Qed.

Lemma split_not_nil (sep : ascii) (s : string) : split sep s <> [].
Proof.
  destruct s as [|c r]; [discriminate|]. rewrite split_cons.
  destruct (Ascii.eqb c sep); [discriminate|].
  destruct (split sep r); discriminate.
Qed.

Lemma split_only_empty (sep : ascii) (s : string) :
  split sep s = [EmptyString] -> s = EmptyString.
Proof.
  destruct s as [|c r]; [reflexivity|]. rewrite split_cons.
  destruct (Ascii.eqb c sep).
  - intros H. inversion H as [H1]. now apply split_not_nil in H1.
  - destruct (split sep r); discriminate.
Qed.

Lemma split_trimStart (sep : ascii) (s : string) :
  isWhite sep = false ->
  split sep (trimStart s) = mapHead trimStart (split sep s).
Proof.
  intros Hs. unfold trimStart. induction s as [|c r IH]; [reflexivity|].
  cbn [dropWhile]. destruct (isWhite c) eqn:W.
  - rewrite split_cons, (white_not_sep _ _ Hs W), IH.
    pose proof (split_not_nil sep r) as Hn.
    destruct (split sep r) as [|h t]; [congruence|].
    cbn [mapHead dropWhile]. now rewrite W.
  - rewrite split_cons. destruct (Ascii.eqb c sep); [reflexivity|].
    destruct (split sep r) as [|h t]; cbn [mapHead dropWhile]; now rewrite W.
Qed.

Lemma trimEnd_empty_split (sep : ascii) (s : string) :
  isWhite sep = false -> trimEnd s = EmptyString -> split sep s = [s].
Proof.
  intros Hs. induction s as [|c r IH]; [reflexivity|].
  rewrite trimEnd_cons. destruct (trimEnd r) as [|d r'] eqn:E; [|discriminate].
  destruct (isWhite c) eqn:W; [|discriminate]. intros _.
  rewrite split_cons, (white_not_sep _ _ Hs W), (IH eq_refl). reflexivity.
Qed.

Lemma split_trimEnd (sep : ascii) (s : string) :
  isWhite sep = false ->
  split sep (trimEnd s) = mapLast trimEnd (split sep s).
Proof.
  intros Hs. induction s as [|c r IH]; [reflexivity|].
  rewrite trimEnd_cons. destruct (trimEnd r) as [|d r'] eqn:E.
  - rewrite (split_cons sep c r), (trimEnd_empty_split _ _ Hs E).
    destruct (isWhite c) eqn:W.
    + rewrite (white_not_sep _ _ Hs W). cbn [mapLast split].
      rewrite trimEnd_cons, E, W. reflexivity.
    + rewrite split_cons. destruct (Ascii.eqb c sep) eqn:Q.
      * cbn [mapLast split]. now rewrite E.
      * cbn [mapLast split]. rewrite trimEnd_cons, E, W. reflexivity.
  - rewrite (split_cons sep c r), split_cons.
    pose proof (split_not_nil sep r) as Hn.
    destruct (Ascii.eqb c sep) eqn:Q.
    + rewrite IH. destruct (split sep r) as [|h t]; [congruence|]. reflexivity.
    + destruct (split sep r) as [|h t]; [congruence|].
      rewrite IH. destruct t as [|h2 t].
      * cbn [mapLast]. rewrite trimEnd_cons.
        destruct (trimEnd h) as [|e h'] eqn:Eh; [|reflexivity].
        exfalso. cbn [mapLast] in IH. rewrite Eh in IH.
        apply split_only_empty in IH. discriminate IH.
      * reflexivity.
Qed.

Lemma map_trim_mapHead (l : list string) :
  List.map trim (mapHead trimStart l) = List.map trim l.
Proof.
  destruct l as [|h t]; [reflexivity|]. cbn [mapHead List.map].
  now rewrite trim_trimStart.
Qed.

Lemma map_trim_mapLast (l : list string) :
  List.map trim (mapLast trimEnd l) = List.map trim l.
Proof.
  induction l as [|h t IH]; [reflexivity|].
  destruct t as [|h2 t].
  - cbn [mapLast List.map]. now rewrite trim_trimEnd.
  - change (mapLast trimEnd (h :: h2 :: t)) with (h :: mapLast trimEnd (h2 :: t)).
    cbn [List.map] in *. now rewrite IH.
Qed.

Lemma map_trim_split_trim (sep : ascii) (s : string) :
  isWhite sep = false ->
  List.map trim (split sep (trim s)) = List.map trim (split sep s).
Proof.
  intros Hs. unfold trim.
  now rewrite (split_trimEnd _ _ Hs), map_trim_mapLast,
    (split_trimStart _ _ Hs), map_trim_mapHead.
Qed.

(** Trimming the whole list text first, as the source does, changes no
    name. *)
Lemma playersOf_trim (rest : string) : playersOf (trim rest) = namesOf rest.
Proof.
  unfold playersOf, namesOf.
  rewrite <- (map_trim_split_trim "," rest eq_refl).
  destruct (trim rest) as [|c r] eqn:E; reflexivity.
Qed.

Lemma parsePlayerList_first (text n m rest : string) :
  FirstListLine text n m rest ->
  parsePlayerList text
  = Some (Some (toNumber (digitsValue n)), Some (toNumber (digitsValue m)),
          namesOf rest).
Proof.
  intros H. unfold parsePlayerList. rewrite (jsMatch_first _ _ _ _ H).
  destruct H as (pre & s & _ & (post & _ & Hn & Dn & Hm & Dm & _) & _).
  now rewrite (parseInt_digits _ Hn Dn), (parseInt_digits _ Hm Dm),
    playersOf_trim.
Qed.

Lemma parsePlayerList_none (text : string) :
  NoListLine text -> parsePlayerList text = None.
Proof.
  intros H. unfold parsePlayerList. now rewrite (jsMatch_none _ H).
Qed.

(* ================================================================== *)
(** * Running the methods step by step *)
(* ================================================================== *)

Section Runs.

Variable isValidSshHost : option string -> bool.
Variable toISOString : Z -> string.
Variable env : Env.

Lemma run_ret {A B} (a : A) (k : A -> M B) (w : World) :
  bind (ret a) k w = k a w.
Proof. reflexivity. Qed.

Lemma run_exec {B} host user cmd (k : ExecResult -> M B) (w : World) :
  bind (sshExecRaw env host user cmd) k w
  = k (respond env (trace w) (now w) host user cmd)
      (elapse (latency env (trace w) (now w))
              (EvExecRaw host user cmd (respond env (trace w) (now w) host user cmd))
              w).
Proof. reflexivity. Qed.

Lemma run_wait {B} host user (k : bool -> M B) (w : World) :
  bind (waitForSsh env host user) k w
  = k (sshReady env (trace w) (now w) host user)
      (elapse (latency env (trace w) (now w))
              (EvWaitForSsh host user (sshReady env (trace w) (now w) host user))
              w).
Proof. reflexivity. Qed.

Lemma run_sleep {B} ms (k : unit -> M B) (w : World) :
  bind (sleep env ms) k w
  = k tt (mkWorld (now w + ms + Z.of_N (oversleep env (trace w) (now w)))
                  (trace w ++ [EvSleep ms])).
Proof. reflexivity. Qed.

Lemma run_now {B} (k : Z -> M B) (w : World) :
  bind dateNow k w = k (now w) w.
Proof. reflexivity. Qed.

Lemma run_iso {B} (k : string -> M B) (w : World) :
  bind (isoNow toISOString) k w = k (toISOString (now w)) w.
Proof. reflexivity. Qed.

Lemma run_writeAndReturn kind name d (w : World) :
  writeAndReturn kind name d w
  = (Ret [mkHandle kind name],
     mkWorld (now w) (trace w ++ [EvWriteResource kind name d])).
Proof. reflexivity. Qed.

Lemma run_throw {A B} msg (k : A -> M B) (w : World) :
  bind (throw msg) k w = (Throw msg, w).
Proof. reflexivity. Qed.

Lemma bind_assoc {A B C} (m : M A) (f : A -> M B) (k : B -> M C) (w : World) :
  bind (bind m f) k w = bind m (fun a => bind (f a) k) w.
Proof.
  unfold bind. destruct (m w) as [[a|msg|] w1]; reflexivity.
Qed.

Lemma newEvents_app (w : World) (t : Z) (evs : list Event) :
  newEvents w (mkWorld t (trace w ++ evs)) = evs.
Proof.
  unfold newEvents. cbn [trace].
  rewrite skipn_app, skipn_all, Nat.sub_diag. reflexivity.
Qed.

Lemma newEvents_self (w : World) : newEvents w w = [].
Proof. unfold newEvents. apply skipn_all. Qed.

End Runs.

(** One remote command: name its result and the world after it, and keep
    what the command did to trace and clock. *)
Ltac step_exec :=
  lazymatch goal with
  | |- context [bind (sshExecRaw ?e ?h ?u ?c) ?k ?w] =>
      let r := fresh "r" in
      let Hr := fresh "Hr" in
      let w1 := fresh "w" in
      let Hw := fresh "Hw" in
      let Ht := fresh "Htrace" in
      let Hn := fresh "Hnow" in
      rewrite (run_exec e h u c k w);
      remember (respond e (trace w) (now w) h u c) as r eqn:Hr;
      remember (elapse (latency e (trace w) (now w)) (EvExecRaw h u c r) w)
        as w1 eqn:Hw;
      assert (Ht : trace w1 = (trace w ++ [EvExecRaw h u c r])%list)
        by (rewrite Hw; reflexivity);
      assert (Hn : now w1 = now w + Z.of_N (latency e (trace w) (now w)))
        by (rewrite Hw; reflexivity);
      clear Hw
  end; cbv beta.

(** Replace the trace and the clock of every named world by what they are
    in terms of the world the run started in. *)
Ltac resolve_worlds :=
  cbn [trace now];
  repeat match goal with
         | H : trace ?x = _ |- context [trace ?x] => rewrite H
         end;
  repeat match goal with
         | H : now ?x = _ |- context [now ?x] => rewrite H
         end;
  repeat rewrite <- app_assoc; cbn [List.app].

Ltac step_pure :=
  first [ rewrite run_now | rewrite run_iso | rewrite run_sleep
        | rewrite run_ret | rewrite run_writeAndReturn
        | rewrite run_throw | rewrite bind_assoc ];
  cbv beta.

Ltac norm_world :=
  unfold elapse; cbn [trace now]; repeat rewrite <- app_assoc;
  cbn [List.app].

(* ================================================================== *)
(** * Transport gate *)
(* ================================================================== *)

Section Gate.

Variable isValidSshHost : option string -> bool.
Variable toISOString : Z -> string.
Variable env : Env.

(** C5, as the code has it.  With no usable host, [warnShutdown],
    [stopMinecraftServer] and [status] write their skipped, already-stopped
    or not-running result and run nothing else; [say], [op] and [deop] do the
    same when their argument is non-empty, and throw before anything else
    when it is empty. *)
Theorem no_host_short_circuit (g : GlobalArgs) (w : World) :
  isValidSshHost (sshHost g) = false ->
  (forall message,
      if truthy message
      then shortCircuits (say isValidSshHost env message g w) w
             "server" (serverName g) skippedData
      else say isValidSshHost env message g w = (Throw "message is required", w))
  /\ (forall playerName,
      if truthy playerName
      then shortCircuits (op isValidSshHost env playerName g w) w
             "server" (serverName g) skippedData
      else op isValidSshHost env playerName g w
           = (Throw "playerName is required", w))
  /\ (forall playerName,
      if truthy playerName
      then shortCircuits (deop isValidSshHost env playerName g w) w
             "server" (serverName g) skippedData
      else deop isValidSshHost env playerName g w
           = (Throw "playerName is required", w))
  /\ shortCircuits (warnShutdown isValidSshHost env g w) w
       "server" (serverName g) skippedData
  /\ shortCircuits (stopMinecraftServer isValidSshHost toISOString env g w) w
       "server" (serverName g) (alreadyStoppedData (toISOString (now w)))
  /\ shortCircuits (status isValidSshHost toISOString env g w) w
       "server" (serverName g) (notRunningData (toISOString (now w))).
Proof.
  intros H. unfold shortCircuits.
  repeat split.
  - intros message. unfold say, sendToConsole.
    destruct (truthy message); cbn [negb]; [|reflexivity].
    rewrite H. reflexivity.
  - intros playerName. unfold op, sendToConsole.
    destruct (truthy playerName); cbn [negb]; [|reflexivity].
    rewrite H. reflexivity.
  - intros playerName. unfold deop, sendToConsole.
    destruct (truthy playerName); cbn [negb]; [|reflexivity].
    rewrite H. reflexivity.
  - unfold warnShutdown. rewrite H. reflexivity.
  - unfold stopMinecraftServer. rewrite H. reflexivity.
  - unfold status. rewrite H. reflexivity.
Qed.

End Gate.

(** The instance of [no_host_short_circuit] on the simulated server with no
    host configured. *)
Lemma no_host_short_circuit_witness :
  shortCircuits
    (status simValid simISO (simEnv scRunning simArgsNoHost) simArgsNoHost world0)
    world0 "server" "server" (notRunningData (simISO (now world0))).
Proof.
  apply (no_host_short_circuit simValid simISO (simEnv scRunning simArgsNoHost)
           simArgsNoHost world0).
  reflexivity.
Defined.

(** C5 as stated fails: with no host configured, [say] with the empty
    message (the default of its argument) does not return a skipped result;
    it throws. *)
Lemma say_without_host_may_throw :
  simValid (sshHost simArgsNoHost) = false
  /\ say simValid (simEnv scRunning simArgsNoHost) EmptyString simArgsNoHost world0
     = (Throw "message is required", world0)
  /\ ~ shortCircuits
         (say simValid (simEnv scRunning simArgsNoHost) EmptyString
              simArgsNoHost world0)
         world0 "server" "server" skippedData.
Proof.
  split; [reflexivity|]. split; [reflexivity|].
  unfold shortCircuits. cbv. intros H. discriminate H.
Qed.

(* ================================================================== *)
(** * Console commands *)
(* ================================================================== *)

Section Console.

Variable isValidSshHost : option string -> bool.
Variable env : Env.

Lemma sendToConsole_events (g : GlobalArgs) (text : string) (w : World) :
  Forall (consoleEvent g text)
         (newEvents w (snd (sendToConsole isValidSshHost env g text w))).
Proof.
  unfold sendToConsole.
  destruct (isValidSshHost (sshHost g)); cbn [negb].
  - step_exec. destruct (sessionExists r); cbn [negb].
    + step_exec. rewrite run_writeAndReturn. cbn [snd]. resolve_worlds.
      rewrite newEvents_app.
      repeat apply Forall_cons; try apply Forall_nil; cbn [consoleEvent]; auto.
    + rewrite run_writeAndReturn. cbn [snd]. resolve_worlds.
      rewrite newEvents_app.
      repeat apply Forall_cons; try apply Forall_nil; cbn [consoleEvent]; auto.
  - rewrite run_writeAndReturn. cbn [snd]. rewrite newEvents_app.
    repeat constructor.
Qed.

Lemma filter_removed (p : ascii -> bool) (s : string) :
  Removed p s (JsString.filter p s).
Proof.
  induction s as [|c r IH]; cbn [JsString.filter]; [constructor|].
  destruct (p c) eqn:E; now constructor.
Qed.

Lemma filter_empty (p : ascii -> bool) (s : string) :
  JsString.filter p s = EmptyString
  <-> JsString.all (fun c => negb (p c)) s = true.
Proof.
  induction s as [|c r IH]; cbn [JsString.filter JsString.all];
    [split; reflexivity|].
  destruct (p c); cbn [negb andb]; [split; discriminate | exact IH].
Qed.

(** C10, as the code has it.  Whatever [playerName] is, the only remote
    commands of [op] and [deop] are the session check and one [send-keys]
    command whose quoted console text is the fixed word followed by the
    sanitized name.  The sanitized name is [playerName] with exactly the
    characters outside [[A-Za-z0-9_]] removed: it holds only characters of
    that class, a name made of such characters is sent unchanged, and the
    name sent is empty exactly when [playerName] holds no such
    character. *)
Theorem op_deop_send_sanitized (g : GlobalArgs) (w : World) (playerName : string) :
  Forall (consoleEvent g ("op " ++ sanitize playerName))
         (newEvents w (snd (op isValidSshHost env playerName g w)))
  /\ Forall (consoleEvent g ("deop " ++ sanitize playerName))
            (newEvents w (snd (deop isValidSshHost env playerName g w)))
  /\ Removed isWord playerName (sanitize playerName)
  /\ JsString.all isWord (sanitize playerName) = true
  /\ (JsString.all isWord playerName = true -> sanitize playerName = playerName)
  /\ (sanitize playerName = EmptyString
      <-> JsString.all (fun c => negb (isWord c)) playerName = true).
Proof.
  split; [|split; [|split; [|split; [|split]]]].
  - unfold op. destruct (truthy playerName); cbn [negb].
    + apply sendToConsole_events.
    + cbn [throw snd]. rewrite newEvents_self. constructor.
  - unfold deop. destruct (truthy playerName); cbn [negb].
    + apply sendToConsole_events.
    + cbn [throw snd]. rewrite newEvents_self. constructor.
  - apply filter_removed.
  - apply all_filter.
  - apply filter_keeps.
  - apply filter_empty.
Qed.

End Console.

(* ================================================================== *)
(** * The pid-liveness loop *)
(* ================================================================== *)

Section PidLoop.

Variable env : Env.

Lemma pollPid_unfold fuel g pid deadline w :
  pollPid env (S fuel) g pid deadline w =
  if now w <? deadline then
    let w1 := mkWorld (now w + pollInterval + Z.of_N (oversleep env (trace w) (now w)))
                      (trace w ++ [EvSleep pollInterval]) in
    let r := respond env (trace w1) (now w1) (sshHost g) (sshUser g) (cmdKill0 pid) in
    let w2 := elapse (latency env (trace w1) (now w1))
                     (EvExecRaw (sshHost g) (sshUser g) (cmdKill0 pid) r) w1 in
    if observedDead r then (Ret tt, w2)
    else pollPid env fuel g pid deadline w2
  else (Ret tt, w).
Proof.
  cbn [pollPid]. rewrite run_now. destruct (now w <? deadline); [|reflexivity].
  rewrite run_sleep, run_exec. cbv zeta. unfold observedDead.
  match goal with
  | |- context [String.eqb ?a ?b] => destruct (String.eqb a b)
  end; reflexivity.
Qed.

(** The loop always ends, having slept before every check; it ends on the
    first check that finds the process gone, or once the clock has reached
    the deadline. *)
Lemma pollPid_spec fuel g pid deadline w :
  deadline - now w <= pollInterval * Z.of_nat fuel ->
  exists checks w',
    pollPid env (S fuel) g pid deadline w = (Ret tt, w')
    /\ trace w' = (trace w ++ pollPidEvents g pid checks)%list
    /\ Forall (fun r => observedDead r = false) (removelast checks)
    /\ (deadline <= now w' \/ existsb observedDead checks = true)
    /\ (now w < deadline -> checks <> [])
    /\ now w <= now w'
    /\ (IdealTiming env ->
        now w' = now w + pollInterval * Z.of_nat (List.length checks)
        /\ (checks <> [] -> now w' - pollInterval < deadline)).
Proof.
  assert (Hnil : forall w0, deadline <= now w0 ->
    (Ret tt, w0) = (Ret tt, w0)
    /\ trace w0 = (trace w0 ++ pollPidEvents g pid [])%list
    /\ Forall (fun r => observedDead r = false) (removelast [])
    /\ (deadline <= now w0 \/ existsb observedDead [] = true)
    /\ (now w0 < deadline -> @nil ExecResult <> [])
    /\ now w0 <= now w0
    /\ (IdealTiming env ->
        now w0 = now w0 + pollInterval * Z.of_nat (@List.length ExecResult [])
        /\ (@nil ExecResult <> [] -> now w0 - pollInterval < deadline))).
  { intros w0 H0. cbn [pollPidEvents flat_map removelast List.length].
    rewrite app_nil_r.
    split; [reflexivity|]. split; [reflexivity|]. split; [constructor|].
    split; [now left|]. split; [lia|]. split; [lia|].
    intros _. split; [lia | congruence]. }
  revert w. induction fuel as [|fuel IH]; intros w Hf;
    rewrite pollPid_unfold; destruct (now w <? deadline) eqn:Hlt.
  - apply Z.ltb_lt in Hlt. unfold pollInterval in Hf. lia.
  - apply Z.ltb_ge in Hlt. exists [], w. now apply Hnil.
  - apply Z.ltb_lt in Hlt. cbv zeta.
    set (w1 := mkWorld _ (trace w ++ [EvSleep pollInterval])).
    set (r := respond env (trace w1) (now w1) (sshHost g) (sshUser g) (cmdKill0 pid)).
    set (w2 := elapse _ _ w1).
    assert (Hw2 : now w + pollInterval <= now w2).
    { subst w2 w1. unfold elapse. cbn [now trace]. lia. }
    assert (Ht2 : trace w2 = (trace w ++ pollPidEvents g pid [r])%list).
    { subst w2 w1. unfold elapse. cbn [now trace pollPidEvents flat_map].
      rewrite <- app_assoc. reflexivity. }
    assert (Hi2 : IdealTiming env -> now w2 = now w + pollInterval).
    { intros [Hl Ho]. subst w2 w1. unfold elapse. cbn [now trace].
      rewrite Hl, Ho. lia. }
    destruct (observedDead r) eqn:Hd.
    + exists [r], w2.
      split; [reflexivity|]. split; [exact Ht2|]. split; [constructor|].
      split; [right; cbn [existsb]; now rewrite Hd|].
      split; [congruence|]. split; [unfold pollInterval in *; lia|].
      intros Hid. rewrite (Hi2 Hid). cbn [List.length].
      split; [unfold pollInterval; lia | intros _; lia].
    + destruct (IH w2) as (checks & w' & Hrun & Htr & Hall & Hend & Hne & Hmon & Hideal).
      { unfold pollInterval in *. lia. }
      exists (r :: checks), w'.
      split; [exact Hrun|].
      split.
      { rewrite Htr, Ht2. cbn [pollPidEvents flat_map].
        rewrite <- app_assoc. reflexivity. }
      split.
      { destruct checks as [|c cs]; [constructor|].
        change (removelast (r :: c :: cs)) with (r :: removelast (c :: cs)).
        constructor; assumption. }
      split; [cbn [existsb]; rewrite Hd; exact Hend|].
      split; [congruence|]. split; [unfold pollInterval in *; lia|].
      intros Hid. destruct (Hideal Hid) as [Hn Hc]. split.
      { rewrite Hn, (Hi2 Hid). cbn [List.length]. unfold pollInterval. lia. }
      intros _. destruct checks as [|c cs]; [|apply Hc; congruence].
      cbn [List.length] in Hn. rewrite Hn, (Hi2 Hid).
      unfold pollInterval. lia.
  - apply Z.ltb_ge in Hlt. exists [], w. now apply Hnil.
Qed.

End PidLoop.

(* ================================================================== *)
(** * [stopMinecraftServer] *)
(* ================================================================== *)

Lemma run_bind_eq {A B} (m : M A) (k : A -> M B) (w w' : World) (a : A) :
  m w = (Ret a, w') -> bind m k w = k a w'.
Proof. intros H. unfold bind. now rewrite H. Qed.

Lemma pidChecks_app (a b : list Event) :
  pidChecks (a ++ b) = (pidChecks a ++ pidChecks b)%list.
Proof.
  unfold pidChecks.
  assert (H : rawCommands (a ++ b) = (rawCommands a ++ rawCommands b)%list).
  { induction a as [|e a IH]; [reflexivity|].
    destruct e; cbn [rawCommands List.app]; now rewrite ?IH. }
  now rewrite H, filter_app, map_app.
Qed.

Lemma isKill0_cmdKill0 (pid : string) : isKill0 (cmdKill0 pid) = true.
Proof.
  unfold isKill0, cmdKill0. cbn [append String.prefix].
  repeat rewrite Ascii.eqb_refl.
  destruct (pid ++ " 2>/dev/null && echo running || echo stopped");
    reflexivity.
Qed.

Lemma pidChecks_pollPidEvents g pid checks :
  pidChecks (pollPidEvents g pid checks) = checks.
Proof.
  induction checks as [|r checks IH]; [reflexivity|].
  cbn [pollPidEvents flat_map].
  change (pidChecks ([EvSleep pollInterval;
                      EvExecRaw (sshHost g) (sshUser g) (cmdKill0 pid) r]
                     ++ pollPidEvents g pid checks) = r :: checks).
  rewrite pidChecks_app, IH. unfold pidChecks.
  cbn [rawCommands List.filter fst]. rewrite isKill0_cmdKill0. reflexivity.
Qed.

Lemma lastWrite_snoc evs kind name d :
  lastWrite (evs ++ [EvWriteResource kind name d]) = Some d.
Proof.
  induction evs as [|e evs IH]; [reflexivity|].
  cbn [List.app lastWrite]. now rewrite IH.
Qed.

Lemma isProbe_hasSession g : isProbe g (cmdHasSession g) = true.
Proof.
  unfold isProbe. rewrite String.eqb_refl, orb_true_r. reflexivity.
Qed.

Section Stop.

Variable isValidSshHost : option string -> bool.
Variable toISOString : Z -> string.
Variable env : Env.

(** The tracking half always returns: the pid capture, the polls (at least
    one), the session kill, the result. *)
Lemma awaitExitAndKill_shape (g : GlobalArgs) (w : World) :
  exists w' rj pid checks rk tStart tEnd,
    awaitExitAndKill toISOString env g w
    = (Ret [mkHandle "server" (serverName g)], w')
    /\ trace w'
       = (trace w ++ [EvExecRaw (sshHost g) (sshUser g) cmdJavaPid rj]
            ++ pollPidEvents g pid checks
            ++ [EvExecRaw (sshHost g) (sshUser g) (cmdKillSession g) rk;
                EvWriteResource "server" (serverName g)
                  (stoppedData g (tStart + pollTimeout * 1000 <=? tEnd)
                               (toISOString (now w')))])%list
    /\ checks <> []
    /\ Forall (fun r => observedDead r = false) (removelast checks)
    /\ (tStart + pollTimeout * 1000 <= tEnd
        \/ existsb observedDead checks = true)
    /\ now w <= tStart
    /\ (IdealTiming env ->
        tStart = now w
        /\ tEnd = tStart + pollInterval * Z.of_nat (List.length checks)
        /\ tEnd - pollInterval < tStart + pollTimeout * 1000
        /\ now w' = tEnd).
Proof.
  unfold awaitExitAndKill. step_exec. cbv zeta. rewrite run_now.
  match goal with
  | |- context [pollPid env pollPidFuel g ?pid ?dl] =>
      set (pid0 := pid); set (dl0 := dl)
  end.
  destruct (pollPid_spec env 30 g pid0 dl0 w0)
    as (checks & w6 & Hrun & Htr & Hall & Hend & Hne & Hmon & Hideal).
  { subst dl0. unfold pollTimeout, pollInterval. lia. }
  change pollPidFuel with (S 30).
  rewrite (run_bind_eq _ _ w0 w6 tt Hrun).
  rewrite run_now. step_exec. rewrite run_iso, run_writeAndReturn.
  eexists. exists r, pid0, checks, r0, (now w0), (now w6).
  split; [reflexivity|].
  split.
  { cbn [trace now]. rewrite Htrace0, Htr, Htrace.
    repeat rewrite <- app_assoc. reflexivity. }
  split; [apply Hne; subst dl0; unfold pollTimeout; lia|].
  split; [exact Hall|]. split; [exact Hend|].
  split; [lia|].
  intros Hid. destruct (Hideal Hid) as [Hn Hc]. destruct Hid as [Hl Ho].
  assert (E0 : now w0 = now w) by (rewrite Hnow, Hl; lia).
  split; [exact E0|]. split; [exact Hn|].
  split; [apply Hc, Hne; subst dl0; unfold pollTimeout; lia|].
  cbn [now]. rewrite Hnow0, Hl. lia.
Qed.

(** Every run returns.  It either ends at one of the three already-stopped
    checks, having run probes only, or it tracks a pid: some events without
    sleep or liveness check, then the polls, then the session kill and the
    result. *)
Lemma stop_shape (g : GlobalArgs) (w : World) :
  exists w',
    stopMinecraftServer isValidSshHost toISOString env g w
    = (Ret [mkHandle "server" (serverName g)], w')
    /\ ((exists pre ts,
           newEvents w w'
           = (pre ++ [EvWriteResource "server" (serverName g)
                                      (alreadyStoppedData ts)])%list
           /\ forallb (readOnlyEvent g) pre = true)
        \/ (exists pre pid checks rk tStart tEnd,
              newEvents w w'
              = (pre ++ pollPidEvents g pid checks
                     ++ [EvExecRaw (sshHost g) (sshUser g) (cmdKillSession g) rk;
                         EvWriteResource "server" (serverName g)
                           (stoppedData g (tStart + pollTimeout * 1000 <=? tEnd)
                                        (toISOString (now w')))])%list
              /\ existsb isSleep pre = false
              /\ pidChecks pre = []
              /\ checks <> []
              /\ Forall (fun r => observedDead r = false) (removelast checks)
              /\ (tStart + pollTimeout * 1000 <= tEnd
                  \/ existsb observedDead checks = true)
              /\ now w <= tStart
              /\ (IdealTiming env ->
                  tStart = now w
                  /\ tEnd = tStart + pollInterval * Z.of_nat (List.length checks)
                  /\ tEnd - pollInterval < tStart + pollTimeout * 1000
                  /\ now w' = tEnd))).
Proof.
  unfold stopMinecraftServer.
  destruct (isValidSshHost (sshHost g)); cbn [negb].
  2:{ rewrite run_iso, run_writeAndReturn. eexists. split; [reflexivity|].
      left. exists [], (toISOString (now w)). rewrite newEvents_app. auto. }
  step_exec. destruct (code r =? 0); cbn [negb].
  2:{ rewrite run_iso, run_writeAndReturn. eexists. split; [reflexivity|].
      left. eexists [_], _. resolve_worlds. rewrite newEvents_app.
      split; reflexivity. }
  step_exec. step_exec. cbv zeta.
  destruct (sessionExists r0) eqn:Hsess; cbn [negb andb].
  - (* the session exists: the stop command is sent *)
    rewrite bind_assoc. step_exec. rewrite run_ret.
    destruct (awaitExitAndKill_shape g w3)
      as (w' & rj & pid & checks & rk & tS & tE & Hrun & Htr & Hne & Hall
          & Hend & Hmon & Hideal).
    exists w'. split; [exact Hrun|]. right.
    exists [EvExecRaw (sshHost g) (sshUser g) cmdEcho r;
            EvExecRaw (sshHost g) (sshUser g) (cmdHasSession g) r0;
            EvExecRaw (sshHost g) (sshUser g) cmdJavaCheck r1;
            EvExecRaw (sshHost g) (sshUser g) (cmdSendKeys g "stop") r2;
            EvExecRaw (sshHost g) (sshUser g) cmdJavaPid rj],
      pid, checks, rk, tS, tE.
    split.
    { unfold newEvents. rewrite Htr, Htrace2, Htrace1, Htrace0, Htrace.
      repeat rewrite <- app_assoc. rewrite skipn_app, skipn_all, Nat.sub_diag.
      reflexivity. }
    split; [reflexivity|]. split; [reflexivity|].
    split; [exact Hne|]. split; [exact Hall|]. split; [exact Hend|].
    split; [lia|].
    intros Hid. destruct (Hideal Hid) as (E1 & E2 & E3 & E4).
    destruct Hid as [Hl Ho].
    assert (E0 : now w3 = now w) by (rewrite Hnow2, Hnow1, Hnow0, Hnow, !Hl; lia).
    repeat split; auto; lia.
  - destruct (String.eqb (trim (stdout r1)) "running") eqn:Hjava; cbn [negb].
    + (* no session, but a process: no stop command *)
      rewrite run_ret.
      destruct (awaitExitAndKill_shape g w2)
        as (w' & rj & pid & checks & rk & tS & tE & Hrun & Htr & Hne & Hall
            & Hend & Hmon & Hideal).
      exists w'. split; [exact Hrun|]. right.
      exists [EvExecRaw (sshHost g) (sshUser g) cmdEcho r;
              EvExecRaw (sshHost g) (sshUser g) (cmdHasSession g) r0;
              EvExecRaw (sshHost g) (sshUser g) cmdJavaCheck r1;
              EvExecRaw (sshHost g) (sshUser g) cmdJavaPid rj],
        pid, checks, rk, tS, tE.
      split.
      { unfold newEvents. rewrite Htr, Htrace1, Htrace0, Htrace.
        repeat rewrite <- app_assoc. rewrite skipn_app, skipn_all, Nat.sub_diag.
        reflexivity. }
      split; [reflexivity|]. split; [reflexivity|].
      split; [exact Hne|]. split; [exact Hall|]. split; [exact Hend|].
      split; [lia|].
      intros Hid. destruct (Hideal Hid) as (E1 & E2 & E3 & E4).
      destruct Hid as [Hl Ho].
      assert (E0 : now w2 = now w) by (rewrite Hnow1, Hnow0, Hnow, !Hl; lia).
      repeat split; auto; lia.
    + (* no session and no process *)
      rewrite run_iso, run_writeAndReturn. eexists. split; [reflexivity|].
      left. eexists [_; _; _], _. resolve_worlds. rewrite newEvents_app.
      split; [reflexivity|]. cbn [forallb readOnlyEvent].
      rewrite isProbe_hasSession. reflexivity.
Qed.

End Stop.

(* ================================================================== *)
(** * The readiness loop *)
(* ================================================================== *)

Section ReadyLoop.

Variable env : Env.

Lemma pollReady_unfold fuel g deadline w :
  pollReady env (S fuel) g deadline w =
  if now w <? deadline then
    let rg := respond env (trace w) (now w) (sshHost g) (sshUser g) (cmdGrepDone g) in
    let w1 := elapse (latency env (trace w) (now w))
                     (EvExecRaw (sshHost g) (sshUser g) (cmdGrepDone g) rg) w in
    if sawReady rg then (Ret true, w1)
    else
      let ra := respond env (trace w1) (now w1) (sshHost g) (sshUser g)
                        (cmdSessionAlive g) in
      let w2 := elapse (latency env (trace w1) (now w1))
                       (EvExecRaw (sshHost g) (sshUser g) (cmdSessionAlive g) ra) w1 in
      if sawDead ra then
        let rc := respond env (trace w2) (now w2) (sshHost g) (sshUser g)
                          (cmdCatStartLog g) in
        (Throw (msgDead (stdout rc)),
         elapse (latency env (trace w2) (now w2))
                (EvExecRaw (sshHost g) (sshUser g) (cmdCatStartLog g) rc) w2)
      else
        pollReady env fuel g deadline
          (mkWorld (now w2 + readyPoll * 1000
                    + Z.of_N (oversleep env (trace w2) (now w2)))
                   (trace w2 ++ [EvSleep (readyPoll * 1000)]))
  else (Ret false, w).
Proof.
  cbn [pollReady]. rewrite run_now. destruct (now w <? deadline); [|reflexivity].
  rewrite run_exec. cbv zeta. unfold sawReady, sawDead.
  match goal with
  | |- context [String.eqb ?a "READY"] => destruct (String.eqb a "READY")
  end; [reflexivity|].
  rewrite run_exec.
  match goal with
  | |- context [String.eqb ?a "dead"] => destruct (String.eqb a "dead")
  end.
  - rewrite run_exec. reflexivity.
  - rewrite run_sleep. reflexivity.
Qed.

(** The loop always ends: after some passes that found neither the marker
    nor a dead session and slept, it finds the marker, or finds the session
    dead, or finds the deadline reached right after a sleep. *)
Lemma pollReady_spec fuel g deadline w :
  deadline - now w <= readyPoll * 1000 * Z.of_nat fuel ->
  exists passes last o w',
    pollReady env (S fuel) g deadline w = (o, w')
    /\ trace w' = (trace w ++ pollReadyEvents g passes ++ last)%list
    /\ ReadyEnd g deadline o last
    /\ now w <= now w'
    /\ (o = Ret false -> deadline <= now w' /\ (now w < deadline -> passes <> []))
    /\ (IdealTiming env ->
        now w' = now w + readyPoll * 1000 * Z.of_nat (List.length passes)
        /\ (o <> Ret false -> now w' < deadline)).
Proof.
  revert w. induction fuel as [|fuel IH]; intros w Hf;
    rewrite pollReady_unfold; destruct (now w <? deadline) eqn:Hlt;
    try (apply Z.ltb_ge in Hlt; exists [], [], (Ret false), w;
         cbn [pollReadyEvents flat_map List.app List.length]; rewrite app_nil_r;
         split; [reflexivity|]; split; [reflexivity|]; split; [constructor|];
         split; [lia|]; split; [intros _; split; [lia | lia]|];
         intros _; split; [lia | congruence]).
  - apply Z.ltb_lt in Hlt. unfold readyPoll in Hf. lia.
  - apply Z.ltb_lt in Hlt. cbv zeta.
    set (rg := respond env (trace w) (now w) (sshHost g) (sshUser g) (cmdGrepDone g)).
    set (w1 := elapse _ (EvExecRaw _ _ (cmdGrepDone g) rg) w).
    set (ra := respond env (trace w1) (now w1) (sshHost g) (sshUser g) (cmdSessionAlive g)).
    set (w2 := elapse _ (EvExecRaw _ _ (cmdSessionAlive g) ra) w1).
    set (rc := respond env (trace w2) (now w2) (sshHost g) (sshUser g) (cmdCatStartLog g)).
    set (w3 := elapse _ (EvExecRaw _ _ (cmdCatStartLog g) rc) w2).
    set (ws := mkWorld _ (trace w2 ++ [EvSleep (readyPoll * 1000)])).
    assert (Hn1 : now w <= now w1) by (subst w1; unfold elapse; cbn [now]; lia).
    assert (Hn2 : now w1 <= now w2) by (subst w2; unfold elapse; cbn [now]; lia).
    assert (Hn3 : now w2 <= now w3) by (subst w3; unfold elapse; cbn [now]; lia).
    assert (Hns : now w + readyPoll * 1000 <= now ws)
      by (subst ws; cbn [now]; lia).
    assert (Hid : IdealTiming env ->
                  now w1 = now w /\ now w2 = now w /\ now w3 = now w
                  /\ now ws = now w + readyPoll * 1000).
    { intros [Hl Ho]. subst ws w3 w2 w1. unfold elapse. cbn [now trace].
      rewrite !Hl, !Ho. lia. }
    destruct (sawReady rg) eqn:Hrdy.
    + exists [], [EvExecRaw (sshHost g) (sshUser g) (cmdGrepDone g) rg], (Ret true), w1.
      split; [reflexivity|]. split; [reflexivity|].
      split; [now constructor|]. split; [lia|]. split; [discriminate|].
      intros Hi. destruct (Hid Hi) as (E1 & _). rewrite E1.
      cbn [List.length]. split; [lia | intros _; lia].
    + destruct (sawDead ra) eqn:Hdead.
      * exists [], [EvExecRaw (sshHost g) (sshUser g) (cmdGrepDone g) rg;
                    EvExecRaw (sshHost g) (sshUser g) (cmdSessionAlive g) ra;
                    EvExecRaw (sshHost g) (sshUser g) (cmdCatStartLog g) rc],
          (Throw (msgDead (stdout rc))), w3.
        split; [reflexivity|].
        split.
        { subst w3 w2 w1. unfold elapse. cbn [trace pollReadyEvents flat_map List.app].
          repeat rewrite <- app_assoc. reflexivity. }
        split; [now constructor|]. split; [lia|]. split; [discriminate|].
        intros Hi. destruct (Hid Hi) as (_ & _ & E3 & _). rewrite E3.
        cbn [List.length]. split; [lia | intros _; lia].
      * destruct (IH ws) as (passes & last & o & w' & Hrun & Htr & Hend & Hmon & Hto & Hideal).
        { unfold readyPoll in *. lia. }
        exists ((rg, ra) :: passes), last, o, w'.
        split; [exact Hrun|].
        split.
        { rewrite Htr. subst ws w2 w1. unfold elapse.
          cbn [trace pollReadyEvents flat_map fst snd List.app].
          repeat rewrite <- app_assoc. reflexivity. }
        split; [exact Hend|]. split; [unfold readyPoll in *; lia|].
        split.
        { intros Ho. destruct (Hto Ho) as [Hd _]. split; [exact Hd | congruence]. }
        intros Hi. destruct (Hideal Hi) as [En Elt].
        destruct (Hid Hi) as (_ & _ & _ & Es).
        split; [|exact Elt].
        rewrite En, Es. cbn [List.length]. unfold readyPoll. lia.
Qed.

End ReadyLoop.

(* ================================================================== *)
(** * [startMinecraftServer] *)
(* ================================================================== *)

Section Start.

Variable isValidSshHost : option string -> bool.
Variable toISOString : Z -> string.
Variable env : Env.

(** Every run ends.  Past the SSH wait its events begin with the wait and the
    setup, in this order. *)
Lemma start_shape (g : GlobalArgs) (w : World) :
  exists o w',
    startMinecraftServer isValidSshHost toISOString env g w = (o, w')
    /\ ((newEvents w w' = []
         /\ o = Throw "sshHost is required - is the VM running?")
        \/ (newEvents w w' = [EvWaitForSsh (sshHost g) (sshUser g) false]
            /\ o = Throw ("SSH not reachable on " ++ hostText (sshHost g)
                          ++ " after 60s"))
        \/ (exists r1 r2 r3 r4 rest,
              newEvents w w'
              = (EvWaitForSsh (sshHost g) (sshUser g) true
                 :: startSetup g r1 r2 r3 r4 ++ rest)%list
              /\ ((code r4 <> 0 /\ rest = []
                   /\ o = Throw ("Failed to start tmux session: " ++ stderr r4))
                  \/ (code r4 = 0
                      /\ exists deadline, StartEnd g deadline o rest)))).
Proof.
  unfold startMinecraftServer.
  destruct (isValidSshHost (sshHost g)); cbn [negb].
  2:{ exists (Throw "sshHost is required - is the VM running?"), w.
      split; [reflexivity|]. left. now rewrite newEvents_self. }
  rewrite run_wait.
  destruct (sshReady env (trace w) (now w) (sshHost g) (sshUser g)); cbn [negb].
  2:{ eexists _, _. split; [reflexivity|]. right. left.
      unfold elapse. rewrite newEvents_app. auto. }
  set (w0 := elapse _ _ w).
  assert (Ht0 : trace w0 = (trace w ++ [EvWaitForSsh (sshHost g) (sshUser g) true])%list)
    by reflexivity.
  clearbody w0.
  step_exec. step_exec. step_exec. step_exec.
  destruct (code r2 =? 0) eqn:Hcode; cbn [negb].
  2:{ eexists _, _. split; [reflexivity|]. right. right.
      exists r, r0, r1, r2, []. split.
      { unfold newEvents. rewrite Htrace2, Htrace1, Htrace0, Htrace, Ht0.
        repeat rewrite <- app_assoc. rewrite skipn_app, skipn_all, Nat.sub_diag.
        reflexivity. }
      left. apply Z.eqb_neq in Hcode. auto. }
  apply Z.eqb_eq in Hcode.
  rewrite run_now.
  destruct (pollReady_spec env 180 g (now w4 + readyTimeout * 1000) w4)
    as (passes & last & oo & w5 & Hrun & Htr & Hend & Hmon & Hto & Hideal).
  { unfold readyTimeout, readyPoll. lia. }
  assert (Hpre : forall w6 evs,
             trace w6 = (trace w5 ++ evs)%list ->
             newEvents w w6
             = (EvWaitForSsh (sshHost g) (sshUser g) true
                :: startSetup g r r0 r1 r2
                   ++ pollReadyEvents g passes ++ last ++ evs)%list).
  { intros w6 evs H6. unfold newEvents.
    rewrite H6, Htr, Htrace2, Htrace1, Htrace0, Htrace, Ht0.
    repeat rewrite <- app_assoc. rewrite skipn_app, skipn_all, Nat.sub_diag.
    reflexivity. }
  change pollReadyFuel with (S 180).
  unfold bind at 1. rewrite Hrun.
  destruct Hend as [ | rg Hrg | rg ra rc Hrg Hra ].
  - (* timed out *)
    cbn [negb]. step_exec.
    eexists _, _. split; [reflexivity|]. right. right.
    exists r, r0, r1, r2. eexists. split; [apply (Hpre _ _ Htrace3)|].
    right. split; [exact Hcode|]. exists (now w4 + readyTimeout * 1000).
    exists passes, [], (Ret false). split; [constructor|].
    split.
    { apply (Hto eq_refl). unfold readyTimeout. lia. }
    exists r3. cbn [List.app]. auto.
  - (* ready *)
    cbn [negb]. rewrite run_iso, run_writeAndReturn.
    eexists _, _. split; [reflexivity|]. right. right.
    exists r, r0, r1, r2. eexists. split; [apply Hpre; reflexivity|].
    right. split; [exact Hcode|]. exists (now w4 + readyTimeout * 1000).
    exists passes, [EvExecRaw (sshHost g) (sshUser g) (cmdGrepDone g) rg], (Ret true).
    split; [now constructor|].
    eexists. split; reflexivity.
  - (* the session died *)
    eexists _, _. split; [reflexivity|]. right. right.
    exists r, r0, r1, r2. eexists. split.
    { apply (Hpre w5 []). now rewrite app_nil_r. }
    right. split; [exact Hcode|]. exists (now w4 + readyTimeout * 1000).
    eexists passes, _, (Throw (msgDead (stdout rc))).
    split; [exact (EndDead g _ rg ra rc Hrg Hra)|].
    rewrite app_nil_r. split; reflexivity.
Qed.

End Start.

(* ================================================================== *)
(** * What follows the last sleep *)
(* ================================================================== *)






Lemma msgDead_not_msgNotReady (t : Z) (a b : string) :
  msgDead a <> msgNotReady t b.
Proof. unfold msgDead, msgNotReady. cbn [append]. discriminate. Qed.

(* ================================================================== *)
(** * Ordering and polling theorems *)
(* ================================================================== *)

Section Lifecycle.

Variable isValidSshHost : option string -> bool.
Variable toISOString : Z -> string.
Variable env : Env.

(** C9.  In every run of [startMinecraftServer], wherever the command that
    creates the session ([tmux new-session -d -s] with the configured
    session name) stands in the trace, the command that kills the session
    of that name ([tmux kill-session -t] with the same name, errors
    ignored) stands before it, sent to the configured host. *)
Theorem stale_session_killed_first (g : GlobalArgs) (w : World)
        (i : nat) (host : option string) (user : string) (r : ExecResult) :
  nth_error
    (newEvents w (snd (startMinecraftServer isValidSshHost toISOString env g w)))
    i
  = Some (EvExecRaw host user
            ("tmux new-session -d -s " ++ tmuxSession g ++ " -c " ++ serverDir g
             ++ " 'bash " ++ startScript g ++ " 2>&1 | tee /tmp/mc-start-"
             ++ tmuxSession g ++ ".log'") r) ->
  exists j rk,
    (j < i)%nat
    /\ nth_error
         (newEvents w (snd (startMinecraftServer isValidSshHost toISOString env g w)))
         j
       = Some (EvExecRaw (sshHost g) (sshUser g)
                 ("tmux kill-session -t " ++ tmuxSession g
                  ++ " 2>/dev/null || true") rk).
Proof.
  destruct (start_shape isValidSshHost toISOString env g w)
    as (o & w' & Hrun & Hshape).
  rewrite Hrun. cbn [snd].
  destruct Hshape as [[He _] | [[He _] | (r1 & r2 & r3 & r4 & rest & He & _)]];
    rewrite He; intros Hi.
  - destruct i; discriminate Hi.
  - destruct i as [|[|i]]; discriminate Hi.
  - destruct i as [|[|i]].
    + discriminate Hi.
    + exfalso. cbn [List.app startSetup nth_error] in Hi.
      injection Hi as _ _ Hc _.
      unfold cmdKillSession in Hc. cbn [append] in Hc. discriminate Hc.
    + exists 1%nat, r1. split; [lia | reflexivity].
Qed.


Lemma lastWrite_app_write pre mid kind name d :
  lastWrite (pre ++ mid ++ [EvWriteResource kind name d]) = Some d.
Proof. rewrite app_assoc. apply lastWrite_snoc. Qed.





Lemma newEvents_eq (w w' : World) (evs : list Event) :
  trace w' = (trace w ++ evs)%list -> newEvents w w' = evs.
Proof.
  intros H. unfold newEvents.
  now rewrite H, skipn_app, skipn_all, Nat.sub_diag.
Qed.

(** On a stopped target one run ends at an already-stopped check, after
    probes only. *)
Lemma stop_on_stopped_target (g : GlobalArgs) (w : World) :
  StoppedTarget isValidSshHost env g ->
  exists w' pre ts,
    stopMinecraftServer isValidSshHost toISOString env g w
    = (Ret [mkHandle "server" (serverName g)], w')
    /\ trace w'
       = (trace w ++ pre ++ [EvWriteResource "server" (serverName g)
                                             (alreadyStoppedData ts)])%list
    /\ forallb (readOnlyEvent g) pre = true.
Proof.
  intros Hst. unfold stopMinecraftServer.
  destruct (isValidSshHost (sshHost g)) eqn:Hv; cbn [negb].
  2:{ rewrite run_iso, run_writeAndReturn. eexists _, [], _.
      split; [reflexivity|]. split; reflexivity. }
  step_exec. destruct (code r =? 0) eqn:Hc; cbn [negb].
  2:{ rewrite run_iso, run_writeAndReturn. eexists _, [_], _.
      split; [reflexivity|]. cbn [trace]. rewrite Htrace, <- app_assoc.
      split; reflexivity. }
  apply Z.eqb_eq in Hc.
  destruct Hst as [Hst | [Hst | Hst]].
  { congruence. }
  { exfalso. apply (Hst (trace w) (now w)). now rewrite <- Hr. }
  step_exec. step_exec. cbv zeta.
  destruct (Hst (trace w0) (now w0)) as [Hs _].
  destruct (Hst (trace w1) (now w1)) as [_ Hj].
  rewrite <- Hr0 in Hs. rewrite <- Hr1 in Hj. rewrite Hs, Hj. cbn [negb andb].
  rewrite run_iso, run_writeAndReturn. eexists _, [_; _; _], _.
  split; [reflexivity|]. cbn [trace].
  rewrite Htrace1, Htrace0, Htrace. repeat rewrite <- app_assoc.
  split; [reflexivity|]. cbn [forallb readOnlyEvent].
  rewrite isProbe_hasSession. reflexivity.
Qed.

(** C6.  On a target that is stopped and stays so (no host, or a host that
    never answers, or one that shows neither session nor process), two runs
    of [stopMinecraftServer] in a row both return, both write a result with
    [success = true] and [alreadyStopped = true], and between them run
    nothing on the host but the three probes. *)
Theorem stop_twice_already_stopped (g : GlobalArgs) (w : World) :
  StoppedTarget isValidSshHost env g ->
  let run1 := stopMinecraftServer isValidSshHost toISOString env g w in
  let run2 := stopMinecraftServer isValidSshHost toISOString env g (snd run1) in
  fst run1 = Ret [mkHandle "server" (serverName g)]
  /\ fst run2 = Ret [mkHandle "server" (serverName g)]
  /\ (exists d1,
        lastWrite (newEvents w (snd run1)) = Some d1
        /\ success d1 = Some true /\ alreadyStopped d1 = Some true)
  /\ (exists d2,
        lastWrite (newEvents (snd run1) (snd run2)) = Some d2
        /\ success d2 = Some true /\ alreadyStopped d2 = Some true)
  /\ forallb (readOnlyEvent g) (newEvents w (snd run2)) = true.
Proof.
  intros Hst. cbv zeta.
  destruct (stop_on_stopped_target g w Hst) as (w1 & pre1 & ts1 & R1 & T1 & P1).
  rewrite R1. cbn [fst snd].
  destruct (stop_on_stopped_target g w1 Hst) as (w2 & pre2 & ts2 & R2 & T2 & P2).
  rewrite R2. cbn [fst snd].
  split; [reflexivity|]. split; [reflexivity|].
  split.
  { exists (alreadyStoppedData ts1).
    rewrite (newEvents_eq _ _ _ T1), lastWrite_snoc. auto. }
  split.
  { exists (alreadyStoppedData ts2).
    rewrite (newEvents_eq _ _ _ T2), lastWrite_snoc. auto. }
  rewrite (newEvents_eq w w2
             ((pre1 ++ [EvWriteResource "server" (serverName g)
                                        (alreadyStoppedData ts1)])
              ++ pre2 ++ [EvWriteResource "server" (serverName g)
                                          (alreadyStoppedData ts2)])%list).
  2:{ rewrite T2, T1. now repeat rewrite <- app_assoc. }
  rewrite !forallb_app, P1, P2. reflexivity.
Qed.




End Lifecycle.

(* ================================================================== *)
(** * The query operations *)
(* ================================================================== *)

Section Query.

Variable isValidSshHost : option string -> bool.
Variable toISOString : Z -> string.
Variable env : Env.

Lemma run_sshExec {B} host user cmd (k : unit -> M B) (w : World) :
  bind (sshExec env host user cmd) k w
  = match execError env (trace w) (now w) host user cmd with
    | Some msg =>
        (Throw msg,
         elapse (latency env (trace w) (now w))
                (EvExec host user cmd (Some msg)) w)
    | None =>
        k tt (elapse (latency env (trace w) (now w))
                     (EvExec host user cmd None) w)
    end.
Proof.
  unfold bind, sshExec.
  destruct (execError env (trace w) (now w) host user cmd); reflexivity.
Qed.

(** [status] always returns: at a gate after probes only, or after the
    whole query. *)
Lemma status_shape (g : GlobalArgs) (w : World) :
  exists w',
    status isValidSshHost toISOString env g w
    = (Ret [mkHandle "server" (serverName g)], w')
    /\ ((exists pre ts,
           newEvents w w'
           = (pre ++ [EvWriteResource "server" (serverName g)
                                      (notRunningData ts)])%list
           /\ gateProbes g pre)
        \/ (exists r0 r1 rw rl rt ts,
              newEvents w w'
              = (queryEvents g r0 r1 rw rl rt
                 ++ [EvWriteResource "server" (serverName g)
                                     (statusData (stdout rt) ts)])%list)).
Proof.
  unfold status.
  destruct (isValidSshHost (sshHost g)); cbn [negb].
  2:{ rewrite run_iso, run_writeAndReturn. eexists. split; [reflexivity|].
      left. exists [], (toISOString (now w)). rewrite newEvents_app.
      split; [reflexivity | now left]. }
  step_exec. destruct (code r =? 0); cbn [negb].
  2:{ rewrite run_iso, run_writeAndReturn. eexists. split; [reflexivity|].
      left. eexists [_], _. split.
      - apply newEvents_eq. cbn [trace]. rewrite Htrace, <- app_assoc.
        reflexivity.
      - right. left. now exists r. }
  step_exec. destruct (sessionExists r0); cbn [negb].
  2:{ rewrite run_iso, run_writeAndReturn. eexists. split; [reflexivity|].
      left. eexists [_; _], _. split.
      - apply newEvents_eq. cbn [trace]. rewrite Htrace0, Htrace.
        repeat rewrite <- app_assoc. reflexivity.
      - right. right. now exists r, r0. }
  step_exec. cbv zeta. step_exec. rewrite run_sleep. step_exec.
  rewrite run_iso, run_writeAndReturn. eexists. split; [reflexivity|].
  right. exists r, r0, r1, r2, r3. eexists.
  apply newEvents_eq. cbn [trace]. rewrite Htrace3. cbn [trace].
  rewrite Htrace2, Htrace1, Htrace0, Htrace.
  repeat rewrite <- app_assoc. reflexivity.
Qed.

(** [writeMetricsFiles] runs one or two [sshExec] and nothing else; it
    throws exactly when the last of them failed. *)
Lemma writeMetricsFiles_shape host user game name data (w : World) :
  exists o w' evs,
    writeMetricsFiles toISOString env host user game name data w = (o, w')
    /\ trace w' = (trace w ++ evs)%list
    /\ existsb isRaw evs = false
    /\ lastWrite evs = None
    /\ (o = Ret tt
        \/ exists msg pre c, o = Throw msg
                             /\ evs = (pre ++ [EvExec host user c (Some msg)])%list).
Proof.
  unfold writeMetricsFiles.
  rewrite run_now, run_iso. cbv zeta. rewrite run_sshExec.
  destruct (execError env (trace w) (now w) host user _) as [msg|].
  - eexists _, _, [_]. split; [reflexivity|]. split; [reflexivity|].
    split; [reflexivity|]. split; [reflexivity|].
    right. now eexists msg, [], _.
  - unfold sshExec, elapse. cbn [trace now].
    match goal with
    | |- context [execError env ?h ?t host user ?c] =>
        destruct (execError env h t host user c) as [msg|]
    end.
    + eexists _, _, [_; _]. split; [reflexivity|]. cbn [trace].
      rewrite <- app_assoc. split; [reflexivity|].
      split; [reflexivity|]. split; [reflexivity|].
      right. now eexists msg, [_], _.
    + eexists _, _, [_; _]. split; [reflexivity|]. cbn [trace].
      rewrite <- app_assoc. split; [reflexivity|].
      split; [reflexivity|]. split; [reflexivity|]. now left.
Qed.

(** [collectMetrics] ends at a gate after probes, or runs the whole query
    and then the metrics writer, whose failure is the only way it throws. *)
Lemma collect_shape (g : GlobalArgs) (w : World) :
  exists o w',
    collectMetrics isValidSshHost toISOString env g w = (o, w')
    /\ ((exists pre rest,
           newEvents w w' = (pre ++ rest)%list
           /\ gateProbes g pre /\ existsb isRaw rest = false)
        \/ (exists r0 r1 rw rl rt rest,
              newEvents w w' = (queryEvents g r0 r1 rw rl rt ++ rest)%list
              /\ existsb isRaw rest = false
              /\ ((exists pre ts,
                     o = Ret [mkHandle "metrics" (serverName g)]
                     /\ rest
                        = (pre ++ [EvWriteResource "metrics" (serverName g)
                                     (with_timestamp ts (metricsData (stdout rt)))])%list)
                  \/ (exists msg pre c,
                        o = Throw msg
                        /\ rest = (pre ++ [EvExec (sshHost g) (sshUser g) c (Some msg)])%list
                        /\ lastWrite rest = None)))).
Proof.
  unfold collectMetrics.
  destruct (isValidSshHost (sshHost g)); cbn [negb].
  2:{ rewrite run_iso, run_writeAndReturn. eexists _, _. split; [reflexivity|].
      left. eexists [], [_]. rewrite newEvents_app.
      split; [reflexivity|]. split; [now left | reflexivity]. }
  step_exec. destruct (code r =? 0); cbn [negb].
  2:{ rewrite run_iso, run_writeAndReturn. eexists _, _. split; [reflexivity|].
      left. eexists [_], [_]. split.
      - apply newEvents_eq. cbn [trace]. rewrite Htrace, <- app_assoc.
        reflexivity.
      - split; [right; left; now exists r | reflexivity]. }
  step_exec. destruct (sessionExists r0); cbn [negb].
  2:{ cbv zeta.
      destruct (writeMetricsFiles_shape (sshHost g) (sshUser g) "minecraft"
                  (serverName g) metricsDownData w1)
        as (o & w2 & evs & Hrun & Htr & Hraw & Hlw & Ho).
      unfold bind at 1. rewrite Hrun.
      destruct Ho as [-> | (msg & pre & c & -> & Hevs)].
      - rewrite run_iso, run_writeAndReturn. eexists _, _.
        split; [reflexivity|]. left.
        eexists [_; _], (evs ++ [_])%list. split.
        + apply newEvents_eq. cbn [trace]. rewrite Htr, Htrace0, Htrace.
          repeat rewrite <- app_assoc. reflexivity.
        + split; [right; right; now exists r, r0|].
          rewrite existsb_app, Hraw. reflexivity.
      - eexists _, _. split; [reflexivity|]. left.
        eexists [_; _], evs. split.
        + apply newEvents_eq. rewrite Htr, Htrace0, Htrace.
          repeat rewrite <- app_assoc. reflexivity.
        + split; [right; right; now exists r, r0 | exact Hraw]. }
  step_exec. cbv zeta. step_exec. rewrite run_sleep. step_exec.
  destruct (writeMetricsFiles_shape (sshHost g) (sshUser g) "minecraft"
              (serverName g) (metricsData (stdout r3)) w4)
    as (o & w5 & evs & Hrun & Htr & Hraw & Hlw & Ho).
  unfold bind at 1. rewrite Hrun.
  assert (Hq : forall w7 rest,
             trace w7 = (trace w4 ++ rest)%list ->
             newEvents w w7 = (queryEvents g r r0 r1 r2 r3 ++ rest)%list).
  { intros w7 rest H7. apply newEvents_eq.
    rewrite H7, Htrace3. cbn [trace].
    rewrite Htrace2, Htrace1, Htrace0, Htrace.
    repeat rewrite <- app_assoc. reflexivity. }
  destruct Ho as [-> | (msg & pre & c & -> & Hevs)].
  - rewrite run_iso, run_writeAndReturn. eexists _, _.
    split; [reflexivity|]. right.
    exists r, r0, r1, r2, r3. eexists (evs ++ [_])%list. split.
    + apply Hq. cbn [trace]. rewrite Htr, <- app_assoc. reflexivity.
    + split; [rewrite existsb_app, Hraw; reflexivity|].
      left. eexists evs, _. split; reflexivity.
  - eexists _, _. split; [reflexivity|]. right.
    exists r, r0, r1, r2, r3, evs. split; [apply Hq, Htr|].
    split; [exact Hraw|]. right. exists msg, pre, c. auto.
Qed.

End Query.

Lemma no_raw_nth (rest : list Event) (i : nat) host user cmd r :
  existsb isRaw rest = false ->
  nth_error rest i <> Some (EvExecRaw host user cmd r).
Proof.
  intros Hraw Hn. apply nth_error_In in Hn.
  assert (existsb isRaw rest = true)
    by (apply existsb_exists; eexists; split; [exact Hn | reflexivity]).
  congruence.
Qed.

Lemma lastWrite_app (a b : list Event) :
  lastWrite (a ++ b)
  = match lastWrite b with Some d => Some d | None => lastWrite a end.
Proof.
  induction a as [|e a IH]; cbn [List.app lastWrite].
  - now destruct (lastWrite b).
  - rewrite IH. now destruct (lastWrite b).
Qed.

Lemma tailFromLine_above (W : Z) (lines : list string) (j : nat) (l : string) :
  nth_error (tailFromLine (W + 1) lines) j = Some l ->
  nth_error lines (Z.to_nat W + j) = Some l
  /\ W < Z.of_nat (Z.to_nat W + j) + 1.
Proof.
  unfold tailFromLine. rewrite nth_error_skipn.
  replace (W + 1 - 1) with W by lia. intros H. split; [exact H | lia].
Qed.

(** Telling the commands of the source apart by their first words. *)
Ltac cmd_discr H :=
  exfalso;
  unfold cmdEcho, cmdHasSession, cmdSendKeys, cmdWc, cmdTail, cmdKillSession,
    cmdNewSession in H;
  cbn [append] in H; discriminate H.

Lemma queryEvents_order (g : GlobalArgs) r0 r1 rw rl rt rest i host user r :
  existsb isRaw rest = false ->
  nth_error (queryEvents g r0 r1 rw rl rt ++ rest) i
  = Some (EvExecRaw host user (cmdSendKeys g "list") r) ->
  QueryOrder g (queryEvents g r0 r1 rw rl rt ++ rest) i.
Proof.
  intros Hraw Hi.
  destruct i as [|[|[|[|[|[|i]]]]]]; cbn [queryEvents List.app nth_error] in Hi.
  - injection Hi as _ _ Hc _. cmd_discr Hc.
  - injection Hi as _ _ Hc _. cmd_discr Hc.
  - injection Hi as _ _ Hc _. cmd_discr Hc.
  - exists rw, rt. split; [lia|]. split; [reflexivity|].
    split; [reflexivity|]. split; [reflexivity|].
    intros z Hz Hb. rewrite Hz, (plusOne_count z Hb).
    rewrite numberToString_count by lia.
    split; [apply tailStart_count; lia|].
    intros lines j l Hl. now apply tailFromLine_above.
  - discriminate Hi.
  - injection Hi as _ _ Hc _. cmd_discr Hc.
  - exfalso. exact (no_raw_nth _ _ _ _ _ _ Hraw Hi).
Qed.

Lemma gateProbes_no_list (g : GlobalArgs) pre rest i host user r :
  gateProbes g pre -> existsb isRaw rest = false ->
  nth_error (pre ++ rest) i
  <> Some (EvExecRaw host user (cmdSendKeys g "list") r).
Proof.
  intros [-> | [(r0 & ->) | (r0 & r1 & ->)]] Hraw Hi;
    cbn [List.app] in Hi.
  - exact (no_raw_nth _ _ _ _ _ _ Hraw Hi).
  - destruct i as [|i]; cbn [nth_error] in Hi.
    + injection Hi as _ _ Hc _. cmd_discr Hc.
    + exact (no_raw_nth _ _ _ _ _ _ Hraw Hi).
  - destruct i as [|[|i]]; cbn [nth_error] in Hi.
    + injection Hi as _ _ Hc _. cmd_discr Hc.
    + injection Hi as _ _ Hc _. cmd_discr Hc.
    + exact (no_raw_nth _ _ _ _ _ _ Hraw Hi).
Qed.

Lemma gateProbes_no_tail (g : GlobalArgs) pre rest i host user W r :
  gateProbes g pre -> existsb isRaw rest = false ->
  nth_error (pre ++ rest) i <> Some (EvExecRaw host user (cmdTail g W) r).
Proof.
  intros [-> | [(r0 & ->) | (r0 & r1 & ->)]] Hraw Hi;
    cbn [List.app] in Hi.
  - exact (no_raw_nth _ _ _ _ _ _ Hraw Hi).
  - destruct i as [|i]; cbn [nth_error] in Hi.
    + injection Hi as _ _ Hc _. cmd_discr Hc.
    + exact (no_raw_nth _ _ _ _ _ _ Hraw Hi).
  - destruct i as [|[|i]]; cbn [nth_error] in Hi.
    + injection Hi as _ _ Hc _. cmd_discr Hc.
    + injection Hi as _ _ Hc _. cmd_discr Hc.
    + exact (no_raw_nth _ _ _ _ _ _ Hraw Hi).
Qed.

(** The only tail command of a query is the sixth event. *)
Lemma queryEvents_tail (g : GlobalArgs) r0 r1 rw rl rt rest i host user W r :
  existsb isRaw rest = false ->
  nth_error (queryEvents g r0 r1 rw rl rt ++ rest) i
  = Some (EvExecRaw host user (cmdTail g W) r) ->
  r = rt.
Proof.
  intros Hraw Hi.
  destruct i as [|[|[|[|[|[|i]]]]]]; cbn [queryEvents List.app nth_error] in Hi.
  - injection Hi as _ _ Hc _. cmd_discr Hc.
  - injection Hi as _ _ Hc _. cmd_discr Hc.
  - injection Hi as _ _ Hc _. cmd_discr Hc.
  - injection Hi as _ _ Hc _. cmd_discr Hc.
  - discriminate Hi.
  - now injection Hi.
  - exfalso. exact (no_raw_nth _ _ _ _ _ _ Hraw Hi).
Qed.

(** Every text holds a first response line or none at all. *)
Lemma list_line_dichotomy (text : string) :
  (exists n m rest, FirstListLine text n m rest) \/ NoListLine text.
Proof.
  induction text as [|c text IH].
  - destruct (listLineAt EmptyString) as [[[n m] rest]|] eqn:E.
    + left. exists n, m, rest, EmptyString, EmptyString.
      split; [reflexivity|]. split; [now apply listLineAt_sound|].
      intros pre1 c pre2 n' m' rest' Hp. destruct pre1; discriminate Hp.
    + right. intros pre s n m rest Ht Hl.
      destruct pre; [|discriminate Ht]. cbn [append] in Ht. subst s.
      apply listLineAt_complete in Hl. congruence.
  - destruct (listLineAt (String c text)) as [[[n m] rest]|] eqn:E.
    + left. exists n, m, rest, EmptyString, (String c text).
      split; [reflexivity|]. split; [now apply listLineAt_sound|].
      intros pre1 c' pre2 n' m' rest' Hp. destruct pre1; discriminate Hp.
    + destruct IH as [(n & m & rest & pre & s & Ht & Hl & Hfirst) | Hnone].
      * left. exists n, m, rest, (String c pre), s.
        split; [cbn [append]; now rewrite Ht|]. split; [exact Hl|].
        intros pre1 c' pre2 n' m' rest' Hp Hl'.
        destruct pre1 as [|c1 pre1]; cbn [append] in Hp.
        -- injection Hp as -> ->. cbn [append] in Hl'. rewrite <- Ht in Hl'.
           apply listLineAt_complete in Hl'. congruence.
        -- injection Hp as _ Hp. exact (Hfirst pre1 c' pre2 n' m' rest' Hp Hl').
      * right. intros pre s n m rest Ht Hl.
        destruct pre as [|c1 pre]; cbn [append] in Ht.
        -- subst s. apply listLineAt_complete in Hl. congruence.
        -- injection Ht as _ Ht. exact (Hnone pre s n m rest Ht Hl).
Qed.

(** A text the matcher rejects holds no response line. *)
Lemma jsMatch_none_inv (text : string) :
  Regex.jsMatch listRegex text = None -> NoListLine text.
Proof.
  intros H. destruct (list_line_dichotomy text) as [(n & m & rest & Hf) | Hn];
    [|exact Hn].
  rewrite (jsMatch_first _ _ _ _ Hf) in H. discriminate H.
Qed.

Lemma jsMatch_first_inv (text n m rest : string) :
  Regex.jsMatch listRegex text = Some [n; m; rest] ->
  FirstListLine text n m rest.
Proof.
  intros H. destruct (list_line_dichotomy text) as [(n' & m' & rest' & Hf) | Hn].
  - rewrite (jsMatch_first _ _ _ _ Hf) in H. injection H as -> -> ->. exact Hf.
  - rewrite (jsMatch_none _ Hn) in H. discriminate H.
Qed.

Section QueryFacts.

Variable isValidSshHost : option string -> bool.
Variable toISOString : Z -> string.
Variable env : Env.

(** C4, as the code has it.  In every run of [status] and of
    [collectMetrics], wherever the [list] command stands in the trace, the
    command that reads the line count of the log ([wc -l]) stands right
    before it, and the settle wait and the tail follow it; the tail command
    is [tail -n +] followed by the number after the watermark and the log
    path.  When the watermark is a count below [2^53], that number is the
    next integer in plain decimal, [tail] reads it as its first line, and
    every line it returns has a line number above the watermark. *)
Theorem watermark_before_list (g : GlobalArgs) (w : World)
        (i : nat) (host : option string) (user : string) (r : ExecResult) :
  (nth_error (newEvents w (snd (status isValidSshHost toISOString env g w))) i
   = Some (EvExecRaw host user
             ("tmux send-keys -t " ++ tmuxSession g ++ " 'list' Enter") r) ->
   QueryOrder g (newEvents w (snd (status isValidSshHost toISOString env g w))) i)
  /\ (nth_error
        (newEvents w (snd (collectMetrics isValidSshHost toISOString env g w))) i
      = Some (EvExecRaw host user
                ("tmux send-keys -t " ++ tmuxSession g ++ " 'list' Enter") r) ->
      QueryOrder g
        (newEvents w (snd (collectMetrics isValidSshHost toISOString env g w))) i).
Proof.
  split.
  - destruct (status_shape isValidSshHost toISOString env g w)
      as (w' & Hrun & Hshape).
    rewrite Hrun. cbn [snd].
    destruct Hshape as [(pre & ts & He & Hg) | (r0 & r1 & rw & rl & rt & ts & He)];
      rewrite He; intros Hi.
    + exfalso. eapply gateProbes_no_list; [exact Hg | | exact Hi]; reflexivity.
    + now apply (queryEvents_order g r0 r1 rw rl rt _ i host user r).
  - destruct (collect_shape isValidSshHost toISOString env g w)
      as (o & w' & Hrun & Hshape).
    rewrite Hrun. cbn [snd].
    destruct Hshape as [(pre & rest & He & Hg & Hraw)
                       | (r0 & r1 & rw & rl & rt & rest & He & Hraw & _)];
      rewrite He; intros Hi.
    + exfalso. exact (gateProbes_no_list g pre rest i host user r Hg Hraw Hi).
    + now apply (queryEvents_order g r0 r1 rw rl rt rest i host user r).
Qed.

(** C1, as the code has it.  Whenever a run of [status] reads a log tail
    (the result [r] of its tail command), the run returns and the result it
    writes says the server runs; if the first response line of the tail has
    the numerals [n] and [m] and the list text [rest], the result has
    [online] and [max] equal to the doubles nearest to their values (the
    values themselves below [2^53]) and [players] equal to the
    comma-separated names of [rest], each trimmed, empty ones dropped; if
    the tail has no response line, [online] and [max] are null and
    [players] is empty.  The example of the specification and two
    variations of its list text give the same result. *)
Theorem status_parses_list (g : GlobalArgs) (w : World)
        (i : nat) (host : option string) (user : string) (W : number)
        (r : ExecResult) :
  nth_error (newEvents w (snd (status isValidSshHost toISOString env g w))) i
  = Some (EvExecRaw host user (cmdTail g W) r) ->
  (exists d,
      fst (status isValidSshHost toISOString env g w)
      = Ret [mkHandle "server" (serverName g)]
      /\ lastWrite (newEvents w (snd (status isValidSshHost toISOString env g w)))
         = Some d
      /\ serverRunning d = Some true
      /\ (forall n m rest,
            FirstListLine (stdout r) n m rest ->
            online d = Some (Some (toNumber (digitsValue n)))
            /\ max d = Some (Some (toNumber (digitsValue m)))
            /\ players d = Some (namesOf rest)
            /\ (digitsValue n < 2 ^ 53 ->
                online d = Some (Some (Fin (digitsValue n))))
            /\ (digitsValue m < 2 ^ 53 ->
                max d = Some (Some (Fin (digitsValue m)))))
      /\ (NoListLine (stdout r) ->
          online d = Some None /\ max d = Some None /\ players d = Some []))
  /\ parsePlayerList "There are 2 of a max of 20 players online: Alice, Bob"
     = Some (Some (Fin 2), Some (Fin 20), ["Alice"; "Bob"])
  /\ parsePlayerList "There are 2 of a max of 20 players online: Alice, Bob,"
     = Some (Some (Fin 2), Some (Fin 20), ["Alice"; "Bob"])
  /\ parsePlayerList "There are 2 of a max of 20 players online:  Alice ,Bob , "
     = Some (Some (Fin 2), Some (Fin 20), ["Alice"; "Bob"]).
Proof.
  intros Hi. split; [|repeat split; reflexivity].
  destruct (status_shape isValidSshHost toISOString env g w)
    as (w' & Hrun & Hshape).
  rewrite Hrun in *. cbn [fst snd] in *.
  destruct Hshape as [(pre & ts & He & Hg) | (r0 & r1 & rw & rl & rt & ts & He)];
    rewrite He in *.
  { exfalso. eapply gateProbes_no_tail; [exact Hg | | exact Hi]; reflexivity. }
  apply queryEvents_tail in Hi; [|reflexivity]. subst rt.
  exists (statusData (stdout r) ts).
  split; [reflexivity|]. split; [apply lastWrite_snoc|].
  unfold statusData. split; [|split].
  - destruct (parsePlayerList (stdout r)) as [[[o m] p]|]; reflexivity.
  - intros n m rest Hf. rewrite (parsePlayerList_first _ _ _ _ Hf).
    assert (Hn : 0 <= digitsValue n /\ 0 <= digitsValue m).
    { destruct Hf as (pre & s & _ & (post & _ & _ & Dn & _ & Dm & _) & _).
      split; apply digitsValueAcc_nonneg; auto; lia. }
    split; [reflexivity|]. split; [reflexivity|]. split; [reflexivity|].
    split; intros Hb;
      cbn [object fold_left with_serverRunning with_online with_max
           with_players with_timestamp online max];
      rewrite toNumber_small by lia; reflexivity.
  - intros Hn. rewrite (parsePlayerList_none _ Hn). repeat split; reflexivity.
Qed.

Lemma metricsData_none (tail : string) :
  NoListLine tail ->
  metricsData tail
  = object [with_serverRunning true; with_online (Some (Fin 0)); with_max None;
            with_players []].
Proof.
  intros H. unfold metricsData. now rewrite (jsMatch_none _ H).
Qed.

(** C7, as the code has it.  When the tail [r] that a query read holds no
    response line: [status] returns and writes a result with [online] null
    (and [max] null, [players] empty); [collectMetrics] builds a result with
    [online] equal to the number zero (and [max] null, [players] empty),
    which it writes and returns, unless writing the metrics files failed, in
    which case it throws the error of that write and writes no result. *)
Theorem unmatched_response_reported (g : GlobalArgs) (w : World)
        (i : nat) (host : option string) (user : string) (W : number)
        (r : ExecResult) :
  NoListLine (stdout r) ->
  (nth_error (newEvents w (snd (status isValidSshHost toISOString env g w))) i
   = Some (EvExecRaw host user (cmdTail g W) r) ->
   exists d,
     fst (status isValidSshHost toISOString env g w)
     = Ret [mkHandle "server" (serverName g)]
     /\ lastWrite (newEvents w (snd (status isValidSshHost toISOString env g w)))
        = Some d
     /\ undeterminedData d None)
  /\ (nth_error
        (newEvents w (snd (collectMetrics isValidSshHost toISOString env g w))) i
      = Some (EvExecRaw host user (cmdTail g W) r) ->
      (exists d,
          fst (collectMetrics isValidSshHost toISOString env g w)
          = Ret [mkHandle "metrics" (serverName g)]
          /\ lastWrite
               (newEvents w (snd (collectMetrics isValidSshHost toISOString env g w)))
             = Some d
          /\ undeterminedData d (Some (Fin 0)))
      \/ (exists msg pre c,
             fst (collectMetrics isValidSshHost toISOString env g w) = Throw msg
             /\ newEvents w (snd (collectMetrics isValidSshHost toISOString env g w))
                = (pre ++ [EvExec (sshHost g) (sshUser g) c (Some msg)])%list
             /\ lastWrite
                  (newEvents w
                     (snd (collectMetrics isValidSshHost toISOString env g w)))
                = None)).
Proof.
  intros Hnone. split.
  - intros Hi.
    destruct (status_shape isValidSshHost toISOString env g w)
      as (w' & Hrun & Hshape).
    rewrite Hrun in *. cbn [fst snd] in *.
    destruct Hshape as [(pre & ts & He & Hg) | (r0 & r1 & rw & rl & rt & ts & He)];
      rewrite He in *.
    { exfalso. eapply gateProbes_no_tail; [exact Hg | | exact Hi]; reflexivity. }
    apply queryEvents_tail in Hi; [|reflexivity]. subst rt.
    exists (statusData (stdout r) ts).
    split; [reflexivity|]. split; [apply lastWrite_snoc|].
    unfold statusData. rewrite (parsePlayerList_none _ Hnone).
    repeat split; reflexivity.
  - intros Hi.
    destruct (collect_shape isValidSshHost toISOString env g w)
      as (o & w' & Hrun & Hshape).
    rewrite Hrun in *. cbn [fst snd] in *.
    destruct Hshape as [(pre & rest & He & Hg & Hraw)
                       | (r0 & r1 & rw & rl & rt & rest & He & Hraw & Hout)];
      rewrite He in *.
    { exfalso. exact (gateProbes_no_tail g pre rest i host user W r Hg Hraw Hi). }
    apply queryEvents_tail in Hi; [|exact Hraw]. subst rt.
    destruct Hout as [(pre & ts & -> & ->) | (msg & pre & c & -> & -> & Hlw)].
    + left. eexists. split; [reflexivity|]. split.
      * rewrite app_assoc. apply lastWrite_snoc.
      * rewrite (metricsData_none _ Hnone). repeat split; reflexivity.
    + right. exists msg, (queryEvents g r0 r1 rw rl r ++ pre)%list, c.
      split; [reflexivity|]. split; [now rewrite app_assoc|].
      rewrite lastWrite_app, Hlw. reflexivity.
Qed.

End QueryFacts.

(* ================================================================== *)
(** * The simulated server *)
(* ================================================================== *)

Lemma simEnv_ideal (sc : Scenario) (g : GlobalArgs) : IdealTiming (simEnv sc g).
Proof. split; intros; reflexivity. Defined.




Lemma simRespond_echo sc h t host user :
  simRespond sc simArgs h t host user cmdEcho
  = mkExecResult (if reachable sc then 0 else 255) ("ok" ++ nl) EmptyString.
Proof. reflexivity. Qed.




Lemma sim_unreachable_stopped :
  StoppedTarget simValid (simEnv scUnreachable simArgs) simArgs.
Proof.
  right. left. intros h t. cbn [simEnv respond]. rewrite simRespond_echo.
  cbn [reachable scUnreachable code]. discriminate.
Defined.

(** The text of the specification's example parses as it says, through the
    whole of [status]. *)
Example status_two_players :
  lastWrite
    (newEvents world0
       (snd (status simValid simISO (simEnv scRunning simArgs) simArgs world0)))
  = Some (object [with_serverRunning true; with_online (Some (Fin 2));
                  with_max (Some (Fin 20)); with_players ["Alice"; "Bob"];
                  with_timestamp "1002000"]).
Proof. vm_compute. reflexivity. Qed.

(** An argument full of shell syntax reaches the console as letters only. *)
Example op_hostile_name :
  rawCommands
    (newEvents world0
       (snd (op simValid (simEnv scRunning simArgs) "x'; rm -rf / #" simArgs world0)))
  = [ (cmdHasSession simArgs, say_line "exists");
      ("tmux send-keys -t mons 'op xrmrf' Enter", okResult) ].
Proof. vm_compute. reflexivity. Qed.

(** A process that never exits: thirty checks, then the timeout at 90 s. *)
Example stop_never_exits :
  let run := stopMinecraftServer simValid simISO (simEnv scNeverStops simArgs)
               simArgs world0 in
  lastWrite (newEvents world0 (snd run))
  = Some (stoppedData simArgs true "1090000")
  /\ List.length (pidChecks (newEvents world0 (snd run))) = 30%nat
  /\ now (snd run) = now world0 + 90000.
Proof. vm_compute. repeat split; reflexivity. Qed.

(* ================================================================== *)
(** * Instances and counterexamples *)
(* ================================================================== *)

(** C1 at the running server: the tail is the sixth event of the query. *)
Lemma status_parses_list_witness :
  exists d,
    fst (status simValid simISO (simEnv scRunning simArgs) simArgs world0)
    = Ret [mkHandle "server" (serverName simArgs)]
    /\ lastWrite
         (newEvents world0
            (snd (status simValid simISO (simEnv scRunning simArgs) simArgs world0)))
       = Some d
    /\ serverRunning d = Some true.
Proof.
  destruct (status_parses_list simValid simISO (simEnv scRunning simArgs)
              simArgs world0 5 (Some "10.0.0.7") "root" (Fin 41)
              (mkExecResult 0 (listLine ++ nl) EmptyString))
    as [(d & H1 & H2 & H3 & _) _].
  - vm_compute. reflexivity.
  - exists d. auto.
Defined.


(** C6 at a host that does not answer. *)
Lemma stop_twice_already_stopped_witness :
  StoppedTarget simValid (simEnv scUnreachable simArgs) simArgs
  /\ fst (stopMinecraftServer simValid simISO (simEnv scUnreachable simArgs)
            simArgs world0)
     = Ret [mkHandle "server" (serverName simArgs)].
Proof.
  split; [apply sim_unreachable_stopped|].
  apply (stop_twice_already_stopped simValid simISO
           (simEnv scUnreachable simArgs) simArgs world0).
  apply sim_unreachable_stopped.
Defined.

(** C7 at a server that answers the list command with something else. *)
Lemma unmatched_response_reported_witness :
  NoListLine (tailText scGarbled)
  /\ exists d,
      fst (status simValid simISO (simEnv scGarbled simArgs) simArgs world0)
      = Ret [mkHandle "server" (serverName simArgs)]
      /\ lastWrite
           (newEvents world0
              (snd (status simValid simISO (simEnv scGarbled simArgs) simArgs world0)))
         = Some d
      /\ undeterminedData d None.
Proof.
  assert (Hn : NoListLine (tailText scGarbled)).
  { apply jsMatch_none_inv. vm_compute. reflexivity. }
  split; [exact Hn|].
  apply (unmatched_response_reported simValid simISO (simEnv scGarbled simArgs)
           simArgs world0 5 (Some "10.0.0.7") "root" (Fin 41)
           (mkExecResult 0 (tailText scGarbled) EmptyString) Hn).
  vm_compute. reflexivity.
Defined.


(** C9 at a start that succeeds: the creation is the fifth event. *)
Lemma stale_session_killed_first_witness :
  nth_error
    (newEvents world0
       (snd (startMinecraftServer simValid simISO (simEnv scRunning simArgs)
               simArgs world0)))
    4
  = Some (EvExecRaw (Some "10.0.0.7") "root"
            "tmux new-session -d -s mons -c ~/mons 'bash ./startserver.sh 2>&1 | tee /tmp/mc-start-mons.log'"
            okResult)
  /\ exists j rk,
      (j < 4)%nat
      /\ nth_error
           (newEvents world0
              (snd (startMinecraftServer simValid simISO (simEnv scRunning simArgs)
                      simArgs world0)))
           j
         = Some (EvExecRaw (Some "10.0.0.7") "root"
                   "tmux kill-session -t mons 2>/dev/null || true" rk).
Proof.
  assert (H : nth_error
                (newEvents world0
                   (snd (startMinecraftServer simValid simISO
                           (simEnv scRunning simArgs) simArgs world0)))
                4
              = Some (EvExecRaw (Some "10.0.0.7") "root"
                        "tmux new-session -d -s mons -c ~/mons 'bash ./startserver.sh 2>&1 | tee /tmp/mc-start-mons.log'"
                        okResult))
    by (vm_compute; reflexivity).
  split; [exact H|].
  exact (stale_session_killed_first simValid simISO (simEnv scRunning simArgs)
           simArgs world0 4 (Some "10.0.0.7") "root" okResult H).
Defined.

(** C1 as stated fails.  The response line says 9007199254740993 players;
    no double holds that integer, [parseInt] gives the nearest one, and the
    result has [online] equal to 9007199254740992. *)
Lemma big_count_is_rounded :
  let run := status simValid simISO (simEnv scBigCount simArgs) simArgs world0 in
  FirstListLine (tailText scBigCount) "9007199254740993" "20" " Alice"
  /\ digitsValue "9007199254740993" = 9007199254740993
  /\ fst run = Ret [mkHandle "server" (serverName simArgs)]
  /\ exists d,
      lastWrite (newEvents world0 (snd run)) = Some d
      /\ online d = Some (Some (Fin 9007199254740992))
      /\ online d <> Some (Some (Fin (digitsValue "9007199254740993")))
      /\ max d = Some (Some (Fin 20))
      /\ players d = Some ["Alice"].
Proof.
  cbv zeta. split; [apply jsMatch_first_inv; vm_compute; reflexivity|].
  split; [reflexivity|]. split; [vm_compute; reflexivity|].
  eexists. split; [vm_compute; reflexivity|].
  split; [reflexivity|]. split; [vm_compute; discriminate|].
  split; reflexivity.
Qed.


(** C4 as stated fails.  The log has 9007199254740992 lines; adding one to
    that double gives the same double, so the tail command starts at the
    watermark line itself, not above it. *)
Lemma watermark_line_is_read_again :
  let evs :=
    newEvents world0
      (snd (status simValid simISO (simEnv scHugeLog simArgs) simArgs world0)) in
  nth_error evs 2
  = Some (EvExecRaw (Some "10.0.0.7") "root" "wc -l < ~/mons/logs/latest.log"
            (mkExecResult 0 ("9007199254740992" ++ nl) EmptyString))
  /\ watermarkOf (mkExecResult 0 ("9007199254740992" ++ nl) EmptyString)
     = Fin 9007199254740992
  /\ nth_error evs 3
     = Some (EvExecRaw (Some "10.0.0.7") "root"
               "tmux send-keys -t mons 'list' Enter" okResult)
  /\ nth_error evs 5
     = Some (EvExecRaw (Some "10.0.0.7") "root"
               "tail -n +9007199254740992 ~/mons/logs/latest.log"
               (mkExecResult 0 (listLine ++ nl) EmptyString))
  /\ tailStart "tail -n +9007199254740992 ~/mons/logs/latest.log"
     = Some 9007199254740992
  /\ ~ TailAboveWatermark evs 3.
Proof.
  cbv zeta.
  split; [vm_compute; reflexivity|]. split; [vm_compute; reflexivity|].
  split; [vm_compute; reflexivity|]. split; [vm_compute; reflexivity|].
  split; [vm_compute; reflexivity|].
  intros (host & user & cw & rw & ct & rt & z & k & H1 & H2 & H3 & H4 & H5).
  vm_compute in H1. inversion H1; subst.
  vm_compute in H2. inversion H2; subst.
  vm_compute in H3. inversion H3; subst.
  vm_compute in H4. inversion H4; subst.
  vm_compute in H5. discriminate H5.
Qed.

(** C10 as stated fails.  The name [!!! ;] is not empty and holds no
    character of the class: [op] types the fixed word with no argument. *)
Lemma op_without_word_character_sends_no_name :
  truthy "!!! ;" = true
  /\ sanitize "!!! ;" = EmptyString
  /\ fst (op simValid (simEnv scRunning simArgs) "!!! ;" simArgs world0)
     = Ret [mkHandle "server" (serverName simArgs)]
  /\ nth_error
       (newEvents world0
          (snd (op simValid (simEnv scRunning simArgs) "!!! ;" simArgs world0)))
       1
     = Some (EvExecRaw (Some "10.0.0.7") "root"
               "tmux send-keys -t mons 'op ' Enter" okResult).
Proof. repeat split; vm_compute; reflexivity. Qed.


(** C7 as stated fails for [collectMetrics]: the session exists, the tail
    holds no response line, and the result has [online] equal to the number
    zero, not null. *)
Lemma metrics_unmatched_reports_zero :
  let evs :=
    newEvents world0
      (snd (collectMetrics simValid simISO (simEnv scGarbled simArgs)
              simArgs world0)) in
  nth_error evs 5
  = Some (EvExecRaw (Some "10.0.0.7") "root" (cmdTail simArgs (Fin 41))
                    (mkExecResult 0 (tailText scGarbled) EmptyString))
  /\ NoListLine (tailText scGarbled)
  /\ exists d,
      lastWrite evs = Some d
      /\ online d = Some (Some (Fin 0))
      /\ ~ undeterminedData d None.
Proof.
  cbv zeta. split; [vm_compute; reflexivity|].
  split; [apply jsMatch_none_inv; vm_compute; reflexivity|].
  eexists. split; [vm_compute; reflexivity|].
  split; [reflexivity|].
  intros (_ & H & _). discriminate H.
Qed.


(* ================================================================== *)
(** * Composing what methods emit *)
(* ================================================================== *)

Section Emitting.

Variable P : Event -> Prop.
Variable toISOString : Z -> string.
Variable env : Env.

Lemma emits_ret {A} (a : A) : Emits P (ret a).
Proof. intros w. exists []. cbn. now rewrite app_nil_r. Qed.

Lemma emits_throw {A} (msg : string) : Emits P (@throw A msg).
Proof. intros w. exists []. cbn. now rewrite app_nil_r. Qed.

Lemma emits_outOfFuel {A} : Emits P (@outOfFuel A).
Proof. intros w. exists []. cbn. now rewrite app_nil_r. Qed.

Lemma emits_now : Emits P dateNow.
Proof. intros w. exists []. cbn. now rewrite app_nil_r. Qed.

Lemma emits_iso : Emits P (isoNow toISOString).
Proof. intros w. exists []. cbn. now rewrite app_nil_r. Qed.

Lemma emits_bind {A B} (m : M A) (k : A -> M B) :
  Emits P m -> (forall a, Emits P (k a)) -> Emits P (bind m k).
Proof.
  intros Hm Hk w. destruct (Hm w) as (e1 & T1 & F1). unfold bind.
  destruct (m w) as [[a|msg|] w1]; cbn [snd] in *.
  - destruct (Hk a w1) as (e2 & T2 & F2). exists (e1 ++ e2)%list.
    rewrite T2, T1, app_assoc. split; [reflexivity | now apply Forall_app].
  - now exists e1.
  - now exists e1.
Qed.

Lemma emits_exec host user cmd :
  (forall r, P (EvExecRaw host user cmd r)) ->
  Emits P (sshExecRaw env host user cmd).
Proof. intros H w. eexists [_]. split; [reflexivity | repeat constructor; apply H]. Qed.

Lemma emits_sshExec host user cmd :
  (forall err, P (EvExec host user cmd err)) ->
  Emits P (sshExec env host user cmd).
Proof.
  intros H w. unfold sshExec.
  destruct (execError env (trace w) (now w) host user cmd);
    (eexists [_]; split; [reflexivity | repeat constructor; apply H]).
Qed.

Lemma emits_wait host user :
  (forall ok, P (EvWaitForSsh host user ok)) ->
  Emits P (waitForSsh env host user).
Proof. intros H w. eexists [_]. split; [reflexivity | repeat constructor; apply H]. Qed.

Lemma emits_sleep ms : P (EvSleep ms) -> Emits P (sleep env ms).
Proof. intros H w. eexists [_]. split; [reflexivity | repeat constructor; apply H]. Qed.

Lemma emits_write kind name d :
  P (EvWriteResource kind name d) -> Emits P (writeAndReturn kind name d).
Proof. intros H w. eexists [_]. split; [reflexivity | repeat constructor; apply H]. Qed.

Lemma emits_newEvents {A} (m : M A) (w : World) :
  Emits P m -> Forall P (newEvents w (snd (m w))).
Proof.
  intros H. destruct (H w) as (evs & T & F).
  now rewrite (newEvents_eq _ _ _ T).
Qed.

End Emitting.

(** Break a method into its steps, leaving one goal per emitted event. *)
Ltac emits_steps :=
  repeat first
    [ apply emits_ret | apply emits_throw | apply emits_outOfFuel
    | apply emits_now | apply emits_iso
    | apply emits_bind; [| intros ? ]
    | apply emits_exec; intros ?
    | apply emits_sshExec; intros ?
    | apply emits_wait; intros ?
    | apply emits_sleep
    | apply emits_write
    | progress cbv zeta
    | match goal with
      | |- Emits _ (if ?b then _ else _) => destruct b
      end ].

Section HostFrame.

Variable isValidSshHost : option string -> bool.
Variable toISOString : Z -> string.
Variable env : Env.

Lemma emits_pollPid (P : Event -> Prop) fuel g pid deadline :
  P (EvSleep pollInterval) ->
  (forall r, P (EvExecRaw (sshHost g) (sshUser g) (cmdKill0 pid) r)) ->
  Emits P (pollPid env fuel g pid deadline).
Proof.
  intros Hs He. induction fuel as [|fuel IH]; cbn [pollPid].
  - apply emits_outOfFuel.
  - apply emits_bind; [apply emits_now | intros t].
    destruct (t <? deadline); [|apply emits_ret].
    apply emits_bind; [now apply emits_sleep | intros _].
    apply emits_bind; [now apply emits_exec | intros check].
    destruct (String.eqb (trim (stdout check)) "stopped");
      [apply emits_ret | exact IH].
Qed.

Lemma emits_pollReady (P : Event -> Prop) fuel g deadline :
  P (EvSleep (readyPoll * 1000)) ->
  (forall r, P (EvExecRaw (sshHost g) (sshUser g) (cmdGrepDone g) r)) ->
  (forall r, P (EvExecRaw (sshHost g) (sshUser g) (cmdSessionAlive g) r)) ->
  (forall r, P (EvExecRaw (sshHost g) (sshUser g) (cmdCatStartLog g) r)) ->
  Emits P (pollReady env fuel g deadline).
Proof.
  intros Hs Hg Ha Hc. induction fuel as [|fuel IH]; cbn [pollReady].
  - apply emits_outOfFuel.
  - apply emits_bind; [apply emits_now | intros t].
    destruct (t <? deadline); [|apply emits_ret].
    apply emits_bind; [now apply emits_exec | intros logCheck].
    destruct (String.eqb (trim (stdout logCheck)) "READY"); [apply emits_ret|].
    apply emits_bind; [now apply emits_exec | intros tmuxAlive].
    destruct (String.eqb (trim (stdout tmuxAlive)) "dead").
    + apply emits_bind; [now apply emits_exec | intros out].
      apply emits_throw.
    + apply emits_bind; [now apply emits_sleep | intros _]. exact IH.
Qed.

(** X1.  Whatever the configuration, the arguments and the remote side, every
    remote command of every method of the model (and of the metrics writer
    they call) is addressed to the configured host and user. *)
Theorem commands_go_to_configured_host (g : GlobalArgs) :
  (forall message, Emits (onHost g) (say isValidSshHost env message g))
  /\ (forall playerName, Emits (onHost g) (op isValidSshHost env playerName g))
  /\ (forall playerName, Emits (onHost g) (deop isValidSshHost env playerName g))
  /\ Emits (onHost g) (warnShutdown isValidSshHost env g)
  /\ Emits (onHost g) (stopMinecraftServer isValidSshHost toISOString env g)
  /\ Emits (onHost g) (status isValidSshHost toISOString env g)
  /\ Emits (onHost g) (startMinecraftServer isValidSshHost toISOString env g)
  /\ Emits (onHost g) (collectMetrics isValidSshHost toISOString env g).
Proof.
  assert (Hconsole : forall text, Emits (onHost g) (sendToConsole isValidSshHost env g text)).
  { intros text. unfold sendToConsole. emits_steps; cbn [onHost]; auto. }
  repeat split.
  - intros message. unfold say. emits_steps. apply Hconsole.
  - intros playerName. unfold op. emits_steps. apply Hconsole.
  - intros playerName. unfold deop. emits_steps. apply Hconsole.
  - unfold warnShutdown. emits_steps; cbn [onHost]; auto.
  - unfold stopMinecraftServer, awaitExitAndKill. emits_steps; cbn [onHost]; auto;
      apply emits_pollPid; cbn [onHost]; auto.
  - unfold status. emits_steps; cbn [onHost]; auto.
  - unfold startMinecraftServer. emits_steps; cbn [onHost]; auto;
      apply emits_pollReady; cbn [onHost]; auto.
  - unfold collectMetrics, writeMetricsFiles. emits_steps; cbn [onHost]; auto.
Qed.

End HostFrame.

(* ================================================================== *)
(** * Console methods and the shutdown warning *)
(* ================================================================== *)

Section ConsoleFacts.

Variable isValidSshHost : option string -> bool.
Variable env : Env.

Lemma sendToConsole_trace (g : GlobalArgs) (text : string) (w : World) :
  isValidSshHost (sshHost g) = true ->
  fst (sendToConsole isValidSshHost env g text w)
  = Ret [mkHandle "server" (serverName g)]
  /\ consoleTrace g text
       (respond env (trace w) (now w) (sshHost g) (sshUser g) (cmdHasSession g))
       (newEvents w (snd (sendToConsole isValidSshHost env g text w))).
Proof.
  intros Hv. unfold sendToConsole, consoleTrace. rewrite Hv. cbn [negb].
  step_exec. destruct (sessionExists r); cbn [negb].
  - step_exec. rewrite run_writeAndReturn. cbn [fst snd].
    split; [reflexivity|]. exists r0. apply newEvents_eq. cbn [trace].
    rewrite Htrace0, Htrace. now repeat rewrite <- app_assoc.
  - rewrite run_writeAndReturn. cbn [fst snd].
    split; [reflexivity|]. apply newEvents_eq. cbn [trace].
    rewrite Htrace. now repeat rewrite <- app_assoc.
Qed.

(** X2.  On a usable host and with a non-empty argument, [say], [op] and [deop]
    return; they run the session check and then, only when the check
    answers that the session exists, exactly one [send-keys]: [say] with the
    message as it is, [op] and [deop] with the sanitized name.  Without the
    session the result is the skipped one and nothing is sent. *)
Theorem console_sends_once_or_skips (g : GlobalArgs) (w : World) (arg : string) :
  isValidSshHost (sshHost g) = true ->
  truthy arg = true ->
  let check :=
    respond env (trace w) (now w) (sshHost g) (sshUser g) (cmdHasSession g) in
  (fst (say isValidSshHost env arg g w) = Ret [mkHandle "server" (serverName g)]
   /\ consoleTrace g ("say " ++ arg) check
        (newEvents w (snd (say isValidSshHost env arg g w))))
  /\ (fst (op isValidSshHost env arg g w) = Ret [mkHandle "server" (serverName g)]
      /\ consoleTrace g ("op " ++ sanitize arg) check
           (newEvents w (snd (op isValidSshHost env arg g w))))
  /\ (fst (deop isValidSshHost env arg g w) = Ret [mkHandle "server" (serverName g)]
      /\ consoleTrace g ("deop " ++ sanitize arg) check
           (newEvents w (snd (deop isValidSshHost env arg g w)))).
Proof.
  intros Hv Ha. cbv zeta. unfold say, op, deop. rewrite Ha. cbn [negb].
  repeat split; now apply sendToConsole_trace.
Qed.

(** X3.  On a usable host [warnShutdown] returns.  When the session check
    answers that the session exists, it sends the fixed warning exactly
    three times, then sleeps 30 s once, then writes the not-skipped result,
    so at least 30 s pass (exactly 30 s on the simulated clock).  Otherwise
    it sends nothing, does not sleep, and writes the skipped result. *)
Theorem warnShutdown_three_warnings (g : GlobalArgs) (w : World) :
  isValidSshHost (sshHost g) = true ->
  let check :=
    respond env (trace w) (now w) (sshHost g) (sshUser g) (cmdHasSession g) in
  let run := warnShutdown isValidSshHost env g w in
  fst run = Ret [mkHandle "server" (serverName g)]
  /\ if sessionExists check then
       (exists r1 r2 r3,
           newEvents w (snd run)
           = [ EvExecRaw (sshHost g) (sshUser g) (cmdHasSession g) check;
               EvExecRaw (sshHost g) (sshUser g) (cmdSendKeys g warnText) r1;
               EvExecRaw (sshHost g) (sshUser g) (cmdSendKeys g warnText) r2;
               EvExecRaw (sshHost g) (sshUser g) (cmdSendKeys g warnText) r3;
               EvSleep 30000;
               EvWriteResource "server" (serverName g) sentData ])
       /\ now w + 30000 <= now (snd run)
       /\ (IdealTiming env -> now (snd run) = now w + 30000)
     else
       newEvents w (snd run)
       = [ EvExecRaw (sshHost g) (sshUser g) (cmdHasSession g) check;
           EvWriteResource "server" (serverName g) skippedData ]
       /\ (IdealTiming env -> now (snd run) = now w).
Proof.
  intros Hv. cbv zeta. unfold warnShutdown. rewrite Hv. cbn [negb].
  step_exec. destruct (sessionExists r); cbn [negb].
  - step_exec. step_exec. step_exec. rewrite run_sleep, run_writeAndReturn.
    cbn [fst snd]. split; [reflexivity|]. split; [|split].
    + exists r0, r1, r2. apply newEvents_eq. cbn [trace].
      rewrite Htrace2, Htrace1, Htrace0, Htrace.
      now repeat rewrite <- app_assoc.
    + cbn [now]. rewrite Hnow2, Hnow1, Hnow0, Hnow. lia.
    + intros [Hl Ho]. cbn [now].
      rewrite Hnow2, Hnow1, Hnow0, Hnow, !Hl, Ho. lia.
  - rewrite run_writeAndReturn. cbn [fst snd]. split; [reflexivity|]. split.
    + apply newEvents_eq. cbn [trace]. rewrite Htrace.
      now repeat rewrite <- app_assoc.
    + intros [Hl Ho]. cbn [now]. rewrite Hnow, Hl. lia.
Qed.

End ConsoleFacts.

(* ================================================================== *)
(** * More on [startMinecraftServer] *)
(* ================================================================== *)





Section StartFacts.

Variable isValidSshHost : option string -> bool.
Variable toISOString : Z -> string.
Variable env : Env.



End StartFacts.

Lemma run_bind_any {A B} (m : M A) (k : A -> M B) (w w' : World)
      (o : outcome A) :
  m w = (o, w') ->
  bind m k w
  = match o with
    | Ret a => k a w'
    | Throw msg => (Throw msg, w')
    | OutOfFuel => (OutOfFuel, w')
    end.
Proof. intros H. unfold bind. rewrite H. now destruct o. Qed.

Section StartTiming.

Variable isValidSshHost : option string -> bool.
Variable toISOString : Z -> string.
Variable env : Env.

(** X6.  Whatever the remote side does and however long its answers take, a run
    of [startMinecraftServer] that reports the readiness timeout ends no
    earlier than 900 s after it began. *)
Theorem start_timeout_never_early (g : GlobalArgs) (w : World) (out : string) :
  fst (startMinecraftServer isValidSshHost toISOString env g w)
  = Throw (msgNotReady readyTimeout out) ->
  now w + readyTimeout * 1000
  <= now (snd (startMinecraftServer isValidSshHost toISOString env g w)).
Proof.
  unfold startMinecraftServer.
  destruct (isValidSshHost (sshHost g)); cbn [negb].
  2:{ unfold throw; cbn [fst snd]. intros H. exfalso.
      unfold msgNotReady in H. cbn [append] in H. discriminate H. }
  rewrite run_wait.
  destruct (sshReady env (trace w) (now w) (sshHost g) (sshUser g)); cbn [negb].
  2:{ unfold throw; cbn [fst snd]. intros H. exfalso.
      unfold msgNotReady in H. cbn [append] in H. discriminate H. }
  set (w0 := elapse _ _ w).
  assert (Hn0 : now w <= now w0) by (subst w0; unfold elapse; cbn [now]; lia).
  clearbody w0.
  step_exec. step_exec. step_exec. step_exec.
  destruct (code r2 =? 0); cbn [negb].
  2:{ unfold throw; cbn [fst snd]. intros H. exfalso.
      unfold msgNotReady in H. cbn [append] in H. discriminate H. }
  rewrite run_now.
  destruct (pollReady_spec env 180 g (now w4 + readyTimeout * 1000) w4)
    as (passes & last & oo & w5 & Hrun & Htr & Hend & Hmon & Hto & Hideal).
  { unfold readyTimeout, readyPoll. lia. }
  change pollReadyFuel with (S 180).
  rewrite (run_bind_any _ _ _ _ _ Hrun).
  destruct Hend as [ | rg Hrg | rg ra rc Hrg Hra ].
  - cbn [negb]. step_exec. unfold throw; cbn [fst snd]. intros _.
    destruct (Hto eq_refl) as [Hd _]. lia.
  - cbn [negb]. rewrite run_iso, run_writeAndReturn. cbn [fst].
    intros H. discriminate H.
  - cbn [fst snd]. intros H. exfalso.
    apply (msgDead_not_msgNotReady readyTimeout (stdout rc) out). congruence.
Qed.



End StartTiming.

(* ================================================================== *)
(** * More on [stopMinecraftServer] *)
(* ================================================================== *)

Section StopFacts.

Variable isValidSshHost : option string -> bool.
Variable toISOString : Z -> string.
Variable env : Env.

(** X8.  On the simulated clock, in a run past the already-stopped checks, the
    pid is checked between one and thirty times, three seconds apart, and
    [timedOut] says whether the thirtieth check was made: a process that the
    thirtieth check finds gone is still reported as timed out. *)
Theorem stop_flag_counts_checks (g : GlobalArgs) (w : World) (d : ServerData) :
  IdealTiming env ->
  lastWrite
    (newEvents w (snd (stopMinecraftServer isValidSshHost toISOString env g w)))
  = Some d ->
  alreadyStopped d = Some false ->
  let run := stopMinecraftServer isValidSshHost toISOString env g w in
  let n := List.length (pidChecks (newEvents w (snd run))) in
  (1 <= n <= 30)%nat
  /\ timedOut d = Some (Nat.eqb n 30)
  /\ now (snd run) = now w + pollInterval * Z.of_nat n
  /\ Forall (fun r => observedDead r = false)
            (removelast (pidChecks (newEvents w (snd run)))).
Proof.
  intros Hid Hlast Hd. cbv zeta.
  destruct (stop_shape isValidSshHost toISOString env g w)
    as (w' & Hrun & Hshape).
  rewrite Hrun in *. cbn [fst snd] in *.
  destruct Hshape as [(pre & ts & He & _)
                     | (pre & pid & checks & rk & tS & tE & He & Hns & Hnc & Hne
                        & Hall & Hend & Hmon & Hideal)].
  { exfalso. rewrite He, lastWrite_snoc in Hlast.
    injection Hlast as <-. discriminate Hd. }
  destruct (Hideal Hid) as (E1 & E2 & E3 & E4).
  assert (Hchecks : pidChecks (newEvents w w') = checks).
  { rewrite He, !pidChecks_app, Hnc, pidChecks_pollPidEvents.
    cbn [List.app]. apply app_nil_r. }
  rewrite He in Hlast. rewrite app_assoc in Hlast.
  change [EvExecRaw (sshHost g) (sshUser g) (cmdKillSession g) rk;
          EvWriteResource "server" (serverName g)
            (stoppedData g (tS + pollTimeout * 1000 <=? tE) (toISOString (now w')))]
    with ([EvExecRaw (sshHost g) (sshUser g) (cmdKillSession g) rk]
          ++ [EvWriteResource "server" (serverName g)
                (stoppedData g (tS + pollTimeout * 1000 <=? tE)
                             (toISOString (now w')))])%list in Hlast.
  rewrite lastWrite_app_write in Hlast. injection Hlast as <-.
  rewrite Hchecks.
  assert (Hpos : (1 <= List.length checks)%nat).
  { destruct checks; [congruence | cbn [List.length]; lia]. }
  unfold pollTimeout, pollInterval in *.
  split; [lia|]. split; [|split; [lia | exact Hall]].
  cbn [stoppedData object fold_left with_timedOut timedOut with_ip
       with_timestamp with_success with_alreadyStopped].
  f_equal.
  destruct (Nat.eqb_spec (List.length checks) 30) as [E|E].
  - apply Z.leb_le. lia.
  - apply Z.leb_gt. lia.
Qed.



End StopFacts.

(* ================================================================== *)
(** * Player names and numbers *)
(* ================================================================== *)

Lemma all_app (p : ascii -> bool) (a b : string) :
  JsString.all p (a ++ b) = JsString.all p a && JsString.all p b.
Proof.
  induction a as [|c a IH]; cbn [append JsString.all]; [reflexivity|].
  now rewrite IH, andb_assoc.
Qed.

Lemma all_dropWhile (q p : ascii -> bool) (s : string) :
  JsString.all q s = true -> JsString.all q (dropWhile p s) = true.
Proof.
  induction s as [|c r IH]; cbn [JsString.all dropWhile]; [auto|].
  intros H. apply andb_prop in H. destruct H as [Hc Hr].
  destruct (p c); [auto|]. cbn [JsString.all]. now rewrite Hc, Hr.
Qed.

Lemma all_trimEnd (q : ascii -> bool) (s : string) :
  JsString.all q s = true -> JsString.all q (trimEnd s) = true.
Proof.
  induction s as [|c r IH]; [auto|]. rewrite trimEnd_cons.
  cbn [JsString.all]. intros H. apply andb_prop in H. destruct H as [Hc Hr].
  specialize (IH Hr). destruct (trimEnd r) as [|d r'].
  - destruct (isWhite c); [reflexivity|]. cbn [JsString.all]. now rewrite Hc.
  - cbn [JsString.all] in *. now rewrite Hc, IH.
Qed.

Lemma all_trim (q : ascii -> bool) (s : string) :
  JsString.all q s = true -> JsString.all q (trim s) = true.
Proof. intros H. unfold trim, trimStart. now apply all_trimEnd, all_dropWhile. Qed.

Lemma split_pieces_free (sep : ascii) (s : string) :
  Forall (fun p => JsString.all (fun c => negb (Ascii.eqb c sep)) p = true)
         (split sep s).
Proof.
  induction s as [|c r IH]; [repeat constructor|]. rewrite split_cons.
  destruct (Ascii.eqb c sep) eqn:E; [constructor; [reflexivity | exact IH]|].
  destruct (split sep r) as [|h t].
  - constructor; [|constructor]. cbn [JsString.all]. now rewrite E.
  - inversion IH as [|? ? Hh Ht]; subst. constructor; [|exact Ht].
    cbn [JsString.all]. now rewrite E, Hh.
Qed.

Lemma playersOf_clean (playerStr : string) :
  Forall cleanName (playersOf playerStr).
Proof.
  unfold playersOf. destruct (truthy playerStr); [|constructor].
  apply Forall_forall. intros name Hin.
  apply filter_In in Hin. destruct Hin as [Hin Ht].
  apply in_map_iff in Hin. destruct Hin as (piece & <- & Hp).
  pose proof (split_pieces_free "," playerStr) as Hfree.
  rewrite Forall_forall in Hfree. specialize (Hfree piece Hp).
  split; [exact Ht|]. split; [apply trim_idem | now apply all_trim].
Qed.

(** X11.  Every player name that [status] or [collectMetrics] reports is clean:
    it is not empty, has no white space around it and holds no comma,
    whatever the log tail was. *)
Theorem reported_names_are_clean (tail ts : string) :
  (forall names, players (statusData tail ts) = Some names ->
                 Forall cleanName names)
  /\ (forall names, players (metricsData tail) = Some names ->
                    Forall cleanName names).
Proof.
  split; intros names H.
  - unfold statusData, parsePlayerList in H.
    destruct (Regex.jsMatch listRegex tail) as [[|m1 [|m2 [|m3 [|]]]]|];
      cbn in H; injection H as <-; try constructor.
    apply playersOf_clean.
  - unfold metricsData in H. cbn in H. injection H as <-.
    apply playersOf_clean.
Qed.

Lemma trim_cons_white (c : ascii) (h : string) :
  isWhite c = true -> trim (String c h) = trim h.
Proof. intros H. unfold trim, trimStart. cbn [dropWhile]. now rewrite H. Qed.

Lemma trim_cons_nonwhite (c : ascii) (h : string) :
  isWhite c = false -> truthy (trim (String c h)) = true.
Proof.
  intros H. unfold trim, trimStart. cbn [dropWhile]. rewrite H, trimEnd_cons.
  destruct (trimEnd h); [now rewrite H | reflexivity].
Qed.

(** The name list of a list text is empty exactly when the text holds
    nothing but white space and commas. *)
Lemma namesOf_nil_iff (rest : string) :
  namesOf rest = [] <-> JsString.all whiteOrComma rest = true.
Proof.
  unfold namesOf. induction rest as [|c r IH]; [split; reflexivity|].
  rewrite split_cons. cbn [JsString.all]. unfold whiteOrComma at 1.
  destruct (Ascii.eqb c ",") eqn:Ec.
  - rewrite orb_true_r. cbn [List.map List.filter andb].
    change (truthy (trim EmptyString)) with false. cbv iota. exact IH.
  - rewrite orb_false_r.
    pose proof (split_not_nil "," r) as Hn.
    destruct (split "," r) as [|h t]; [congruence|].
    cbn [List.map List.filter] in *.
    destruct (isWhite c) eqn:Ew; cbn [andb].
    + rewrite (trim_cons_white c h Ew). exact IH.
    + rewrite (trim_cons_nonwhite c h Ew). split; discriminate.
Qed.

(** X12.  A response line whose list text is empty (or white space and commas
    only) gives an empty player list next to a player count that is a
    number (the double nearest to the value of the numeral), never null:
    "nobody online" differs from "undetermined". *)
Theorem empty_list_differs_from_undetermined (tail n m rest ts : string) :
  FirstListLine tail n m rest ->
  online (statusData tail ts) = Some (Some (toNumber (digitsValue n)))
  /\ online (statusData tail ts) <> Some None
  /\ (players (statusData tail ts) = Some []
      <-> JsString.all whiteOrComma rest = true).
Proof.
  intros Hf. unfold statusData. rewrite (parsePlayerList_first _ _ _ _ Hf).
  cbn [object fold_left with_serverRunning with_online with_max with_players
       with_timestamp online players].
  split; [reflexivity|]. split; [discriminate|].
  rewrite <- namesOf_nil_iff. split; intros H; [now injection H | now rewrite H].
Qed.

(** X13.  [collectMetrics] reads a tail as [status] does ("same logic as status"
    in the source): on a tail with a response line both build the same
    result; on a tail without one they differ in [online] alone, the number
    zero against null. *)
Theorem metrics_agree_with_status (tail ts : string) :
  with_timestamp ts (metricsData tail)
  = match parsePlayerList tail with
    | Some _ => statusData tail ts
    | None => with_online (Some (Fin 0)) (statusData tail ts)
    end.
Proof.
  unfold statusData, parsePlayerList, metricsData.
  destruct (Regex.jsMatch listRegex tail) as [caps|] eqn:E; [|reflexivity].
  destruct (jsMatch_groups _ _ E) as (n & m & rest & s & -> & _).
  reflexivity.
Qed.

Lemma metricsData_online (tail : string) :
  exists v, online (metricsData tail) = Some (Some v) /\ notNegative v = true.
Proof.
  unfold metricsData.
  destruct (Regex.jsMatch listRegex tail) as [caps|] eqn:E.
  - destruct (jsMatch_groups _ _ E)
      as (n & m & rest & s & -> & (post & _ & Hn & Dn & _) & _).
    rewrite (parseInt_digits _ Hn Dn). exists (toNumber (digitsValue n)).
    split; [reflexivity|].
    apply toNumber_notNegative. apply digitsValueAcc_nonneg; [lia | exact Dn].
  - exists (Fin 0). split; reflexivity.
Qed.

Section MetricsNumbers.

Variable isValidSshHost : option string -> bool.
Variable toISOString : Z -> string.
Variable env : Env.

(** X14.  In every run of [collectMetrics], on every path, a resource it writes
    is of kind "metrics", named as configured, and has [online] equal to a
    number that is not negative (zero, a positive integer-valued double or
    the positive infinity): never null, absent or [NaN]. *)
Theorem metrics_online_is_a_number (g : GlobalArgs) :
  Emits (metricsWrite g) (collectMetrics isValidSshHost toISOString env g).
Proof.
  assert (Hdown : forall ts,
             metricsWrite g (EvWriteResource "metrics" (serverName g)
                               (with_timestamp ts metricsDownData))).
  { intros ts. cbn [metricsWrite]. split; [reflexivity|]. split; [reflexivity|].
    exists (Fin 0). split; reflexivity. }
  assert (Hup : forall ts tail,
             metricsWrite g (EvWriteResource "metrics" (serverName g)
                               (with_timestamp ts (metricsData tail)))).
  { intros ts tail. cbn [metricsWrite]. split; [reflexivity|]. split; [reflexivity|].
    destruct (metricsData_online tail) as (v & Ho & Hv). exists v.
    split; [exact Ho | exact Hv]. }
  unfold collectMetrics, writeMetricsFiles.
  emits_steps; try exact I; try apply Hdown; try apply Hup.
Qed.

End MetricsNumbers.

(* ================================================================== *)
(** * The log line and its quoting *)
(* ================================================================== *)

Lemma shUnquote_quoted (s : string) :
  shUnquote true (Metrics.quoteForShell s ++ "'") = Some s.
Proof.
  induction s as [|c r IH]; [reflexivity|].
  cbn [Metrics.quoteForShell].
  destruct (codeUnit c =? 39)%N eqn:E.
  - assert (Hc : c = "'"%char).
    { apply N.eqb_eq in E. unfold codeUnit in E.
      rewrite <- (ascii_N_embedding c), E. reflexivity. }
    subst c. rewrite str_app_assoc.
    change (shUnquote true (("'" ++ bs ++ "''") ++ Metrics.quoteForShell r ++ "'"))
      with (option_map (String "'"%char)
              (shUnquote true (Metrics.quoteForShell r ++ "'"))).
    now rewrite IH.
  - cbn [append shUnquote].
    assert (Hq : Ascii.eqb c "'" = false).
    { destruct (Ascii.eqb_spec c "'"%char) as [->|]; [|reflexivity].
      vm_compute in E. discriminate E. }
    now rewrite Hq, IH.
Qed.

Lemma all_join (p : ascii -> bool) (sep : string) (l : list string) :
  JsString.all p sep = true ->
  Forall (fun x => JsString.all p x = true) l ->
  JsString.all p (Metrics.join sep l) = true.
Proof.
  intros Hs Hl. destruct l as [|h t]; [reflexivity|].
  inversion Hl as [|? ? Hh Ht]; subst. cbn [Metrics.join].
  clear Hl. revert h Hh.
  induction Ht as [|x t Hx _ IH]; intros h Hh; cbn [fold_left]; [exact Hh|].
  apply IH. now rewrite !all_app, Hh, Hs, Hx.
Qed.

Lemma noControl_uint (d : Decimal.uint) :
  JsString.all noControl (NilEmpty.string_of_uint d) = true.
Proof.
  induction d; cbn [NilEmpty.string_of_uint JsString.all]; auto.
Qed.

Lemma noControl_ofZ (z : Z) : JsString.all noControl (ofZ z) = true.
Proof.
  unfold ofZ, NilZero.string_of_int, NilZero.string_of_uint.
  destruct (Z.to_int z) as [d|d].
  - destruct d; try apply (noControl_uint (_ d)); try reflexivity.
  - cbn [JsString.all].
    destruct d; try apply (noControl_uint (_ d)); try reflexivity.
Qed.

Lemma noControl_zeros (n : nat) : JsString.all noControl (zeros n) = true.
Proof. induction n; [reflexivity | exact IHn]. Qed.

Lemma noControl_positiveToString (a : Z) :
  JsString.all noControl (positiveToString a) = true.
Proof.
  unfold positiveToString.
  destruct (a <? 2 ^ 53); [apply noControl_ofZ|].
  destruct (shortestDigits 17 1 a _) as [[s n]|]; [|apply noControl_ofZ].
  cbv zeta. destruct (n <=? 21).
  - now rewrite all_app, noControl_ofZ, noControl_zeros.
  - pose proof (noControl_ofZ s) as Hs.
    destruct (ofZ s) as [|d [|e rest]]; [apply noControl_ofZ | |];
      cbn [JsString.all] in Hs |- *; apply andb_prop in Hs;
      destruct Hs as [Hd Hr]; rewrite Hd; cbn [andb].
    + now rewrite all_app, noControl_ofZ.
    + change (JsString.all noControl
                ("." ++ String e rest ++ "e+" ++ ofZ (n - 1)) = true).
      rewrite !all_app, noControl_ofZ. cbn [JsString.all] in Hr |- *.
      now rewrite Hr.
Qed.

Lemma noControl_numberToString (x : number) :
  JsString.all noControl (numberToString x) = true.
Proof.
  destruct x as [z|[|]]; try reflexivity. cbn [numberToString].
  destruct (z <? 0); [|apply noControl_positiveToString].
  now rewrite all_app, noControl_positiveToString.
Qed.

Lemma noControl_jsonNumber (x : option number) :
  JsString.all noControl (Metrics.jsonNumber x) = true.
Proof.
  destruct x as [[z|b]|]; try reflexivity. apply noControl_numberToString.
Qed.

Lemma noControl_hexDigit (n : N) :
  (n < 16)%N -> JsString.all noControl (Metrics.hexDigit n) = true.
Proof.
  intros H. unfold Metrics.hexDigit, noControl, codeUnit.
  cbn [JsString.all]. rewrite andb_true_r.
  rewrite N_ascii_embedding by (destruct (n <? 10)%N; lia).
  apply N.leb_le. destruct (n <? 10)%N; lia.
Qed.

Lemma noControl_jsonEscape (s : string) :
  JsString.all noControl (Metrics.jsonEscape s) = true.
Proof.
  induction s as [|c r IH]; [reflexivity|].
  cbn [Metrics.jsonEscape]. rewrite all_app, IH, andb_true_r.
  repeat match goal with
         | |- context [if ?b then _ else _] =>
             destruct b eqn:?; [reflexivity|]
         end.
  destruct (codeUnit c <? 32)%N eqn:E.
  - apply N.ltb_lt in E. rewrite !all_app.
    rewrite (noControl_hexDigit (codeUnit c / 16)),
      (noControl_hexDigit (codeUnit c mod 16)); [reflexivity | |].
    + apply N.mod_lt. discriminate.
    + apply N.Div0.div_lt_upper_bound. lia.
  - cbn [JsString.all]. unfold noControl. rewrite andb_true_r.
    apply N.leb_le. apply N.ltb_ge in E. exact E.
Qed.

Lemma noControl_jsonString (s : string) :
  JsString.all noControl (Metrics.jsonString s) = true.
Proof.
  unfold Metrics.jsonString. now rewrite !all_app, noControl_jsonEscape.
Qed.

Lemma noControl_jsonProp key value :
  JsString.all noControl key = true ->
  (forall v, value = Some v -> JsString.all noControl v = true) ->
  Forall (fun x => JsString.all noControl x = true) (Metrics.jsonProp key value).
Proof.
  intros Hk Hv. destruct value as [v|]; [|constructor].
  constructor; [|constructor].
  rewrite !all_app, Hk, (Hv v eq_refl). reflexivity.
Qed.

Lemma noControl_jsonArray (l : list string) :
  JsString.all noControl
    ("[" ++ Metrics.join "," (map Metrics.jsonString l) ++ "]") = true.
Proof.
  rewrite !all_app. apply andb_true_iff. split; [reflexivity|].
  apply andb_true_iff. split; [|reflexivity].
  apply all_join; [reflexivity|].
  apply Forall_forall. intros x Hx. apply in_map_iff in Hx.
  destruct Hx as (y & <- & _). apply noControl_jsonString.
Qed.

Lemma noControl_formatLogLine ts game name data :
  JsString.all noControl (Metrics.formatLogLine ts game name data) = true.
Proof.
  unfold Metrics.formatLogLine. rewrite !all_app.
  apply andb_true_iff. split; [reflexivity|].
  apply andb_true_iff. split; [|reflexivity].
  apply all_join; [reflexivity|].
  cbn [List.concat].
  repeat (apply Forall_app; split); try apply Forall_nil;
    apply noControl_jsonProp; try reflexivity; intros v H.
  - injection H as <-. apply noControl_jsonString.
  - injection H as <-. apply noControl_jsonString.
  - injection H as <-. apply noControl_jsonString.
  - destruct (serverRunning data) as [[|]|]; cbn in H;
      try discriminate H; injection H as <-; reflexivity.
  - destruct (online data) as [x|]; cbn [option_map] in H; [|discriminate H].
    injection H as <-. apply noControl_jsonNumber.
  - destruct (max data) as [x|]; cbn [option_map] in H; [|discriminate H].
    injection H as <-. apply noControl_jsonNumber.
  - destruct (players data) as [l|]; cbn [option_map] in H; [|discriminate H].
    injection H as <-. apply noControl_jsonArray.
Qed.

(** X19.  The log line that [writeMetricsFiles] appends is one intact line,
    whatever the server name and the player names hold: the JSON text has
    no control character (so no line break), and the single-quoted word
    given to [echo] reads back, by the quoting rules of the shell, as that
    very text. *)
Theorem log_line_is_one_intact_line (ts game name : string) (data : ServerData) :
  let logLine := Metrics.formatLogLine ts game name data in
  JsString.all noControl logLine = true
  /\ Metrics.cmdAppendLog logLine
     = "echo " ++ quotedLogLine logLine ++ " >> " ++ Metrics.logFile
  /\ shUnquote false (quotedLogLine logLine) = Some logLine.
Proof.
  cbv zeta. split; [apply noControl_formatLogLine|]. split.
  - unfold Metrics.cmdAppendLog, quotedLogLine.
    cbn [append]. now rewrite !str_app_assoc.
  - unfold quotedLogLine. cbn [append shUnquote Ascii.eqb Bool.eqb].
    apply shUnquote_quoted.
Qed.

(* ================================================================== *)
(** * The watermark *)
(* ================================================================== *)

Lemma dropWhile_all (p : ascii -> bool) (s : string) :
  JsString.all p s = true -> dropWhile p s = EmptyString.
Proof.
  induction s as [|c r IH]; [reflexivity|]. cbn [JsString.all dropWhile].
  intros H. apply andb_prop in H. destruct H as [Hc Hr]. now rewrite Hc, IH.
Qed.

Lemma dropWhile_app_all (p : ascii -> bool) (a b : string) :
  JsString.all p a = true -> dropWhile p (a ++ b) = dropWhile p b.
Proof.
  induction a as [|c r IH]; [reflexivity|]. cbn [JsString.all append dropWhile].
  intros H. apply andb_prop in H. destruct H as [Hc Hr]. now rewrite Hc, IH.
Qed.

Lemma trimEnd_white (s : string) :
  JsString.all isWhite s = true -> trimEnd s = EmptyString.
Proof.
  induction s as [|c r IH]; [reflexivity|]. cbn [JsString.all].
  intros H. apply andb_prop in H. destruct H as [Hc Hr].
  now rewrite trimEnd_cons, (IH Hr), Hc.
Qed.

Lemma trimEnd_app_white (a b : string) :
  JsString.all isWhite b = true -> trimEnd (a ++ b) = trimEnd a.
Proof.
  intros Hb. induction a as [|c r IH]; cbn [append].
  - now apply trimEnd_white.
  - now rewrite !trimEnd_cons, IH.
Qed.

Lemma digit_not_white (c : ascii) : isDigit c = true -> isWhite c = false.
Proof.
  destruct c as [[] [] [] [] [] [] [] []]; intros H;
    first [ reflexivity | vm_compute in H; discriminate H ].
Qed.

Lemma trimEnd_digits (s : string) :
  JsString.all isDigit s = true -> trimEnd s = s.
Proof.
  induction s as [|c r IH]; [reflexivity|]. cbn [JsString.all].
  intros H. apply andb_prop in H. destruct H as [Hc Hr].
  rewrite trimEnd_cons, (IH Hr), (digit_not_white c Hc). now destruct r.
Qed.

Lemma trim_padded_digits (ws1 ds ws2 : string) :
  JsString.all isWhite ws1 = true -> JsString.all isWhite ws2 = true ->
  truthy ds = true -> JsString.all isDigit ds = true ->
  trim (ws1 ++ ds ++ ws2) = ds.
Proof.
  intros H1 H2 Ht Hd. unfold trim, trimStart.
  rewrite (dropWhile_app_all _ _ _ H1).
  destruct ds as [|c r]; [discriminate Ht|].
  cbn [JsString.all] in Hd. apply andb_prop in Hd. destruct Hd as [Hc Hr].
  cbn [append dropWhile]. rewrite (digit_not_white c Hc).
  change (String c (r ++ ws2)) with (String c r ++ ws2).
  rewrite (trimEnd_app_white _ _ H2). apply trimEnd_digits.
  cbn [JsString.all]. now rewrite Hc, Hr.
Qed.

(** X17.  When [wc -l] prints a numeral, with white space around it or not, the
    watermark is the double nearest to its value, not negative.  For a value
    below [2^53] the watermark is the value itself, the tail command names
    the next integer in plain decimal, and [tail] reads it as the line to
    start from. *)
Theorem watermark_is_the_line_count (g : GlobalArgs) (rw : ExecResult)
        (ws1 ds ws2 : string) :
  stdout rw = ws1 ++ ds ++ ws2 ->
  JsString.all isWhite ws1 = true -> JsString.all isWhite ws2 = true ->
  truthy ds = true -> JsString.all isDigit ds = true ->
  watermarkOf rw = toNumber (digitsValue ds)
  /\ notNegative (watermarkOf rw) = true
  /\ (digitsValue ds < 2 ^ 53 ->
      watermarkOf rw = Fin (digitsValue ds)
      /\ cmdTail g (watermarkOf rw)
         = "tail -n +" ++ ofZ (digitsValue ds + 1) ++ " " ++ logPath g
      /\ tailStart (cmdTail g (watermarkOf rw)) = Some (digitsValue ds + 1)).
Proof.
  intros Hs H1 H2 Ht Hd.
  assert (Hv : 0 <= digitsValue ds)
    by (apply digitsValueAcc_nonneg; [lia | exact Hd]).
  assert (E : watermarkOf rw = toNumber (digitsValue ds)).
  { unfold watermarkOf.
    now rewrite Hs, (trim_padded_digits _ _ _ H1 H2 Ht Hd), (parseInt_digits _ Ht Hd). }
  rewrite E. split; [reflexivity|].
  split; [now apply toNumber_notNegative|].
  intros Hb. rewrite toNumber_small by lia. split; [reflexivity|].
  unfold cmdTail. rewrite plusOne_count by lia.
  rewrite numberToString_count by lia.
  split; [reflexivity | apply tailStart_count; lia].
Qed.

Lemma takeWhile_none (p : ascii -> bool) (s : string) :
  JsString.all (fun c => negb (p c)) s = true -> takeWhile p s = EmptyString.
Proof.
  destruct s as [|c r]; [reflexivity|]. cbn [JsString.all takeWhile].
  intros H. apply andb_prop in H. destruct H as [Hc _].
  apply negb_true_iff in Hc. now rewrite Hc.
Qed.

Lemma parseInt_no_digit (s : string) :
  JsString.all (fun c => negb (isDigit c)) s = true -> parseInt s = None.
Proof.
  intros H. unfold parseInt, trimStart.
  pose proof (all_dropWhile (fun c => negb (isDigit c)) isWhite s H) as H1.
  destruct (dropWhile isWhite s) as [|c r] eqn:E; [reflexivity|].
  assert (Hr : JsString.all (fun c => negb (isDigit c)) r = true).
  { cbn [JsString.all] in H1. apply andb_prop in H1. tauto. }
  assert (Hn : forall x,
             takeWhile isDigit x = EmptyString ->
             (if truthy (takeWhile isDigit x)
              then Some (toNumber (1 * digitsValue (takeWhile isDigit x)))
              else None)
             = @None number)
    by (intros x ->; reflexivity).
  assert (Hm : forall x,
             takeWhile isDigit x = EmptyString ->
             (if truthy (takeWhile isDigit x)
              then Some (toNumber (-1 * digitsValue (takeWhile isDigit x)))
              else None)
             = @None number)
    by (intros x ->; reflexivity).
  destruct c as [[] [] [] [] [] [] [] []];
    first [ apply Hn; now apply takeWhile_none
          | apply Hm; now apply takeWhile_none ].
Qed.

(** X18.  When [wc -l] prints no digit at all (nothing, or an error text
    without one), the watermark falls back to zero and the tail command
    reads the log from its first line. *)
Theorem watermark_falls_back_to_zero (g : GlobalArgs) (rw : ExecResult) :
  JsString.all (fun c => negb (isDigit c)) (stdout rw) = true ->
  watermarkOf rw = Fin 0
  /\ cmdTail g (watermarkOf rw) = "tail -n +1 " ++ logPath g.
Proof.
  intros H.
  assert (E : watermarkOf rw = Fin 0).
  { unfold watermarkOf. rewrite parseInt_no_digit; [reflexivity|].
    now apply all_trim. }
  rewrite E. split; reflexivity.
Qed.

(* ================================================================== *)
(** * How reports end *)
(* ================================================================== *)

Section Reports.

Variable isValidSshHost : option string -> bool.
Variable toISOString : Z -> string.
Variable env : Env.

Lemma gateProbes_quiet (g : GlobalArgs) (pre : list Event) :
  gateProbes g pre ->
  forallb (readOnlyEvent g) pre = true /\ existsb isWrite pre = false
  /\ existsb isSleep pre = false.
Proof.
  intros [-> | [(r0 & ->) | (r0 & r1 & ->)]]; cbn [forallb existsb readOnlyEvent
    isWrite isSleep orb andb]; unfold isProbe;
    rewrite ?String.eqb_refl, ?orb_true_r; auto.
Qed.

Lemma statusData_running (tail ts : string) :
  serverRunning (statusData tail ts) = Some true.
Proof.
  unfold statusData. destruct (parsePlayerList tail) as [[[o m] p]|]; reflexivity.
Qed.

(** X16.  [status] never throws.  Every run returns the handle of the one
    resource it wrote, as its last event.  A result with
    [serverRunning = false] comes after at most the two probes: nothing was
    typed into the console and no time was spent sleeping.  A result with
    [serverRunning = true] comes after the whole query. *)
Theorem status_always_reports (g : GlobalArgs) (w : World) :
  exists w' pre d,
    status isValidSshHost toISOString env g w
    = (Ret [mkHandle "server" (serverName g)], w')
    /\ newEvents w w'
       = (pre ++ [EvWriteResource "server" (serverName g) d])%list
    /\ existsb isWrite pre = false
    /\ ((serverRunning d = Some false
         /\ forallb (readOnlyEvent g) pre = true
         /\ existsb isSleep pre = false
         /\ (List.length pre <= 2)%nat)
        \/ (serverRunning d = Some true
            /\ exists r0 r1 rw rl rt, pre = queryEvents g r0 r1 rw rl rt)).
Proof.
  destruct (status_shape isValidSshHost toISOString env g w)
    as (w' & Hrun & [(pre & ts & He & Hg) | (r0 & r1 & rw & rl & rt & ts & He)]).
  - exists w', pre, (notRunningData ts). split; [exact Hrun|].
    split; [exact He|].
    destruct (gateProbes_quiet g pre Hg) as (Hro & Hw & Hs).
    split; [exact Hw|]. left. split; [reflexivity|]. split; [exact Hro|].
    split; [exact Hs|].
    destruct Hg as [-> | [(x & ->) | (x & y & ->)]]; cbn [List.length]; lia.
  - exists w', (queryEvents g r0 r1 rw rl rt), (statusData (stdout rt) ts).
    split; [exact Hrun|]. split; [exact He|]. split; [reflexivity|].
    right. split; [apply statusData_running|]. now exists r0, r1, rw, rl, rt.
Qed.

(** X10.  In a run of [stopMinecraftServer] past the already-stopped checks,
    whatever the timing, [timedOut = false] means that the exit was seen:
    the last pid check, and no check before it, found the process gone. *)
Theorem stop_flag_false_means_exit_seen (g : GlobalArgs) (w : World)
        (d : ServerData) :
  lastWrite
    (newEvents w (snd (stopMinecraftServer isValidSshHost toISOString env g w)))
  = Some d ->
  alreadyStopped d = Some false ->
  timedOut d = Some false ->
  exists before r,
    pidChecks
      (newEvents w (snd (stopMinecraftServer isValidSshHost toISOString env g w)))
    = (before ++ [r])%list
    /\ Forall (fun c => observedDead c = false) before
    /\ observedDead r = true.
Proof.
  intros Hlast Hd Ht.
  destruct (stop_shape isValidSshHost toISOString env g w)
    as (w' & Hrun & Hshape).
  rewrite Hrun in *. cbn [fst snd] in *.
  destruct Hshape as [(pre & ts & He & _)
                     | (pre & pid & checks & rk & tS & tE & He & Hns & Hnc & Hne
                        & Hall & Hend & Hmon & Hideal)].
  { exfalso. rewrite He, lastWrite_snoc in Hlast.
    injection Hlast as <-. discriminate Hd. }
  assert (Hchecks : pidChecks (newEvents w w') = checks).
  { rewrite He, !pidChecks_app, Hnc, pidChecks_pollPidEvents.
    cbn [List.app]. apply app_nil_r. }
  rewrite He in Hlast. rewrite app_assoc in Hlast.
  change [EvExecRaw (sshHost g) (sshUser g) (cmdKillSession g) rk;
          EvWriteResource "server" (serverName g)
            (stoppedData g (tS + pollTimeout * 1000 <=? tE) (toISOString (now w')))]
    with ([EvExecRaw (sshHost g) (sshUser g) (cmdKillSession g) rk]
          ++ [EvWriteResource "server" (serverName g)
                (stoppedData g (tS + pollTimeout * 1000 <=? tE)
                             (toISOString (now w')))])%list in Hlast.
  rewrite lastWrite_app_write in Hlast. injection Hlast as <-.
  assert (Hflag : (tS + pollTimeout * 1000 <=? tE) = false).
  { revert Ht.
    cbn [stoppedData object fold_left with_timedOut timedOut with_ip
         with_timestamp with_success with_alreadyStopped].
    intros Ht. injection Ht as Ht. exact Ht. }
  destruct Hend as [Hle | Hex]; [apply Z.leb_le in Hle; congruence|].
  rewrite Hchecks.
  destruct (exists_last Hne) as (before & r & ->).
  rewrite removelast_last in Hall.
  exists before, r. split; [reflexivity|]. split; [exact Hall|].
  rewrite existsb_app in Hex. apply orb_true_iff in Hex.
  destruct Hex as [Hex | Hex].
  - exfalso. apply existsb_exists in Hex. destruct Hex as (x & Hin & Hx).
    rewrite Forall_forall in Hall. rewrite (Hall x Hin) in Hx. discriminate Hx.
  - cbn [existsb] in Hex. now rewrite orb_false_r in Hex.
Qed.

(** X15.  [collectMetrics] returns exactly when it wrote its resource, which is
    then its last event and its only write; it throws only the error of a
    failed file write on the host, and then no resource is written. *)
Theorem collect_writes_or_throws (g : GlobalArgs) (w : World) :
  CollectEnd g
    (fst (collectMetrics isValidSshHost toISOString env g w))
    (newEvents w (snd (collectMetrics isValidSshHost toISOString env g w))).
Proof.
  assert (Hfin : forall data w1 pre,
             trace w1 = (trace w ++ pre)%list -> lastWrite pre = None ->
             CollectEnd g
               (fst ((writeMetricsFiles toISOString env (sshHost g) (sshUser g)
                        "minecraft" (serverName g) data ;;
                      ts <- isoNow toISOString ;;
                      writeAndReturn "metrics" (serverName g)
                        (with_timestamp ts data)) w1))
               (newEvents w
                  (snd ((writeMetricsFiles toISOString env (sshHost g) (sshUser g)
                           "minecraft" (serverName g) data ;;
                         ts <- isoNow toISOString ;;
                         writeAndReturn "metrics" (serverName g)
                           (with_timestamp ts data)) w1)))).
  { intros data w1 pre Hw1 Hpre.
    destruct (writeMetricsFiles_shape toISOString env (sshHost g) (sshUser g)
                "minecraft" (serverName g) data w1)
      as (o & w2 & evs & Hrun & Htr & Hraw & Hlw & Ho).
    rewrite (run_bind_any _ _ w1 w2 o Hrun).
    destruct Ho as [-> | (msg & pre' & c & -> & Hevs)].
    - rewrite run_iso, run_writeAndReturn. cbn [fst snd]. left.
      split; [reflexivity|]. exists (pre ++ evs)%list. eexists. split.
      + apply newEvents_eq. cbn [trace]. rewrite Htr, Hw1.
        repeat rewrite <- app_assoc. reflexivity.
      + now rewrite lastWrite_app, Hlw.
    - cbn [fst snd]. right. exists msg, (pre ++ pre')%list, c.
      split; [reflexivity|].
      assert (Hn : newEvents w w2
                   = ((pre ++ pre')
                        ++ [EvExec (sshHost g) (sshUser g) c (Some msg)])%list).
      { apply newEvents_eq. rewrite Htr, Hw1, Hevs.
        repeat rewrite <- app_assoc. reflexivity. }
      split; [exact Hn|]. rewrite Hn, <- app_assoc, <- Hevs.
      now rewrite lastWrite_app, Hlw. }
  unfold collectMetrics.
  destruct (isValidSshHost (sshHost g)); cbn [negb].
  2:{ rewrite run_iso, run_writeAndReturn. cbn [fst snd]. left.
      split; [reflexivity|]. exists []. eexists. rewrite newEvents_app.
      split; reflexivity. }
  step_exec. destruct (code r =? 0); cbn [negb].
  2:{ rewrite run_iso, run_writeAndReturn. cbn [fst snd]. left.
      split; [reflexivity|]. eexists [_]. eexists. split.
      - apply newEvents_eq. cbn [trace]. rewrite Htrace, <- app_assoc.
        reflexivity.
      - reflexivity. }
  step_exec. destruct (sessionExists r0); cbn [negb].
  2:{ cbv zeta.
      apply Hfin
        with (pre := [EvExecRaw (sshHost g) (sshUser g) cmdEcho r;
                      EvExecRaw (sshHost g) (sshUser g) (cmdHasSession g) r0]).
      - rewrite Htrace0, Htrace. repeat rewrite <- app_assoc. reflexivity.
      - reflexivity. }
  step_exec. cbv zeta. step_exec. rewrite run_sleep. step_exec.
  apply Hfin with (pre := queryEvents g r r0 r1 r2 r3).
  - rewrite Htrace3. cbn [trace]. rewrite Htrace2, Htrace1, Htrace0, Htrace.
    repeat rewrite <- app_assoc. reflexivity.
  - reflexivity.
Qed.

End Reports.

(* ================================================================== *)
(** * Instances of the further properties *)
(* ================================================================== *)





(** [op] at the running server, for the name Steve. *)
Lemma console_sends_once_or_skips_witness :
  simValid (sshHost simArgs) = true
  /\ truthy "Steve" = true
  /\ fst (op simValid (simEnv scRunning simArgs) "Steve" simArgs world0)
     = Ret [mkHandle "server" (serverName simArgs)]
  /\ consoleTrace simArgs ("op " ++ sanitize "Steve")
       (respond (simEnv scRunning simArgs) (trace world0) (now world0)
                (sshHost simArgs) (sshUser simArgs) (cmdHasSession simArgs))
       (newEvents world0
          (snd (op simValid (simEnv scRunning simArgs) "Steve" simArgs world0))).
Proof.
  split; [reflexivity|]. split; [reflexivity|].
  exact (proj1 (proj2 (console_sends_once_or_skips simValid
                         (simEnv scRunning simArgs) simArgs world0 "Steve"
                         eq_refl eq_refl))).
Defined.

(** [warnShutdown] at the running server: the run takes 30 s. *)
Lemma warnShutdown_three_warnings_witness :
  simValid (sshHost simArgs) = true
  /\ fst (warnShutdown simValid (simEnv scRunning simArgs) simArgs world0)
     = Ret [mkHandle "server" (serverName simArgs)]
  /\ now world0 + 30000
     <= now (snd (warnShutdown simValid (simEnv scRunning simArgs) simArgs world0)).
Proof.
  split; [reflexivity|].
  pose proof (warnShutdown_three_warnings simValid (simEnv scRunning simArgs)
                simArgs world0 eq_refl) as H.
  cbv zeta in H. destruct H as [H1 H2]. split; [exact H1|].
  match type of H2 with
  | if ?c then _ else _ =>
      replace c with true in H2 by (vm_compute; reflexivity)
  end.
  destruct H2 as (_ & H2 & _). exact H2.
Defined.


(** A server that becomes ready too late: the timeout is reported no
    earlier than 900 s after the start. *)
Lemma start_timeout_never_early_witness :
  fst (startMinecraftServer simValid simISO (simEnv scReadyLate simArgs)
         simArgs world0)
  = Throw (msgNotReady readyTimeout "boot log")
  /\ now world0 + readyTimeout * 1000
     <= now (snd (startMinecraftServer simValid simISO (simEnv scReadyLate simArgs)
                    simArgs world0)).
Proof.
  assert (H : fst (startMinecraftServer simValid simISO
                     (simEnv scReadyLate simArgs) simArgs world0)
              = Throw (msgNotReady readyTimeout "boot log"))
    by (vm_compute; reflexivity).
  split; [exact H|].
  exact (start_timeout_never_early simValid simISO (simEnv scReadyLate simArgs)
           simArgs world0 "boot log" H).
Defined.


(** A process that exits 5.5 s after the stop command: two checks. *)
Lemma stop_flag_counts_checks_witness :
  IdealTiming (simEnv scStopsSoon simArgs)
  /\ lastWrite
       (newEvents world0
          (snd (stopMinecraftServer simValid simISO (simEnv scStopsSoon simArgs)
                  simArgs world0)))
     = Some (stoppedData simArgs false "1006000")
  /\ timedOut (stoppedData simArgs false "1006000")
     = Some
         (Nat.eqb
            (List.length
               (pidChecks
                  (newEvents world0
                     (snd (stopMinecraftServer simValid simISO
                             (simEnv scStopsSoon simArgs) simArgs world0)))))
            30).
Proof.
  assert (H : lastWrite
                (newEvents world0
                   (snd (stopMinecraftServer simValid simISO
                           (simEnv scStopsSoon simArgs) simArgs world0)))
              = Some (stoppedData simArgs false "1006000"))
    by (vm_compute; reflexivity).
  split; [apply simEnv_ideal|]. split; [exact H|].
  exact (proj1 (proj2 (stop_flag_counts_checks simValid simISO
                         (simEnv scStopsSoon simArgs) simArgs world0
                         (stoppedData simArgs false "1006000")
                         (simEnv_ideal scStopsSoon simArgs) H eq_refl))).
Defined.


(** The same run: the second check sees the exit. *)
Lemma stop_flag_false_means_exit_seen_witness :
  lastWrite
    (newEvents world0
       (snd (stopMinecraftServer simValid simISO (simEnv scStopsSoon simArgs)
               simArgs world0)))
  = Some (stoppedData simArgs false "1006000")
  /\ exists before r,
      pidChecks
        (newEvents world0
           (snd (stopMinecraftServer simValid simISO (simEnv scStopsSoon simArgs)
                   simArgs world0)))
      = (before ++ [r])%list
      /\ Forall (fun c => observedDead c = false) before
      /\ observedDead r = true.
Proof.
  assert (H : lastWrite
                (newEvents world0
                   (snd (stopMinecraftServer simValid simISO
                           (simEnv scStopsSoon simArgs) simArgs world0)))
              = Some (stoppedData simArgs false "1006000"))
    by (vm_compute; reflexivity).
  split; [exact H|].
  exact (stop_flag_false_means_exit_seen simValid simISO
           (simEnv scStopsSoon simArgs) simArgs world0
           (stoppedData simArgs false "1006000") H eq_refl eq_refl).
Defined.

(** A response line with nobody online. *)
Lemma empty_list_differs_from_undetermined_witness :
  FirstListLine (emptyListLine ++ nl) "0" "20" " "
  /\ online (statusData (emptyListLine ++ nl) "t") = Some (Some (Fin 0))
  /\ players (statusData (emptyListLine ++ nl) "t") = Some [].
Proof.
  assert (H : FirstListLine (emptyListLine ++ nl) "0" "20" " ")
    by (apply jsMatch_first_inv; vm_compute; reflexivity).
  split; [exact H|].
  destruct (empty_list_differs_from_undetermined (emptyListLine ++ nl)
              "0" "20" " " "t" H) as (H1 & _ & H3).
  split; [exact H1|]. apply H3. reflexivity.
Defined.

(** The line count 41 with its line break: the tail starts at line 42. *)
Lemma watermark_is_the_line_count_witness :
  watermarkOf (mkExecResult 0 ("41" ++ nl) EmptyString) = Fin 41
  /\ cmdTail simArgs (watermarkOf (mkExecResult 0 ("41" ++ nl) EmptyString))
     = "tail -n +42 ~/mons/logs/latest.log"
  /\ tailStart (cmdTail simArgs (watermarkOf (mkExecResult 0 ("41" ++ nl) EmptyString)))
     = Some 42.
Proof.
  destruct (watermark_is_the_line_count simArgs
              (mkExecResult 0 ("41" ++ nl) EmptyString)
              EmptyString "41" nl eq_refl eq_refl eq_refl eq_refl eq_refl)
    as (_ & _ & H).
  apply H. reflexivity.
Defined.

(** A log that cannot be read: [wc] prints nothing. *)
Lemma watermark_falls_back_to_zero_witness :
  cmdTail simArgs
    (watermarkOf (mkExecResult 1 EmptyString "sh: cannot open the log"))
  = "tail -n +1 ~/mons/logs/latest.log".
Proof.
  exact (proj2 (watermark_falls_back_to_zero simArgs
                  (mkExecResult 1 EmptyString "sh: cannot open the log")
                  eq_refl)).
Defined.

(** When the host cannot write files, [collectMetrics] at the running
    server throws that error and writes no resource. *)
Example collect_disk_full :
  let run :=
    collectMetrics simValid simISO (brokenDiskEnv scRunning simArgs)
                   simArgs world0 in
  fst run = Throw "disk full"
  /\ lastWrite (newEvents world0 (snd run)) = None.
Proof. vm_compute. split; reflexivity. Qed.

(* ================================================================== *)
(** * The here-document of the metrics file *)
(* ================================================================== *)

Lemma split_free (s : string) :
  JsString.all notLineBreak s = true -> split nlChar s = [s].
Proof.
  induction s as [|c r IH]; [reflexivity|]. cbn [JsString.all].
  intros H. apply andb_prop in H. destruct H as [Hc Hr].
  rewrite split_cons, (IH Hr). unfold notLineBreak in Hc.
  apply negb_true_iff in Hc. now rewrite Hc.
Qed.

Lemma split_line (a b : string) :
  JsString.all notLineBreak a = true ->
  split nlChar (a ++ nl ++ b) = a :: split nlChar b.
Proof.
  induction a as [|c r IH]; [reflexivity|]. cbn [JsString.all].
  intros H. apply andb_prop in H. destruct H as [Hc Hr].
  change (String c r ++ nl ++ b) with (String c (r ++ nl ++ b)).
  rewrite split_cons, (IH Hr). unfold notLineBreak in Hc.
  apply negb_true_iff in Hc. now rewrite Hc.
Qed.

Lemma split_unlines (lines : list string) (rest : string) :
  Forall (fun l => JsString.all notLineBreak l = true) lines ->
  split nlChar (unlines lines ++ rest) = (lines ++ split nlChar rest)%list.
Proof.
  induction 1 as [|l lines Hl _ IH]; [reflexivity|].
  cbn [unlines fold_right]. fold (unlines lines).
  rewrite !str_app_assoc, (split_line _ _ Hl), IH. reflexivity.
Qed.

Lemma join_unlines (h : string) (t : list string) :
  Metrics.join nl (h :: t) ++ nl = unlines (h :: t).
Proof.
  cbn [Metrics.join]. revert h.
  induction t as [|x t IH]; intros h; [reflexivity|].
  cbn [fold_left]. rewrite IH. cbn [unlines fold_right].
  now rewrite !str_app_assoc.
Qed.

Lemma formatPromMetrics_unlines nowMs game name data :
  Metrics.formatPromMetrics nowMs game name data
  = unlines (promLines nowMs game name data).
Proof.
  unfold Metrics.formatPromMetrics, promLines. cbv zeta.
  destruct (max data) as [[m|]|]; cbn [List.app]; apply join_unlines.
Qed.

Lemma heredoc_found (delim : string) (lines rest : list string) :
  Forall (fun l => String.eqb l delim = false) lines ->
  heredoc delim (lines ++ delim :: rest) = Some (lines, rest).
Proof.
  induction 1 as [|l lines Hl _ IH]; cbn [List.app heredoc].
  - now rewrite String.eqb_refl.
  - now rewrite Hl, IH.
Qed.

Lemma noControl_notLineBreak (s : string) :
  JsString.all noControl s = true -> JsString.all notLineBreak s = true.
Proof.
  induction s as [|c r IH]; [reflexivity|]. cbn [JsString.all].
  intros H. apply andb_prop in H. destruct H as [Hc Hr].
  rewrite (IH Hr), andb_true_r. unfold notLineBreak.
  destruct (Ascii.eqb_spec c nlChar) as [->|]; [discriminate Hc | reflexivity].
Qed.

Lemma numberToString_free (x : number) :
  JsString.all notLineBreak (numberToString x) = true.
Proof. apply noControl_notLineBreak, noControl_numberToString. Qed.

Lemma numText_free (x : option (option number)) :
  JsString.all notLineBreak (Metrics.numText "undefined" x) = true.
Proof.
  destruct x as [[v|]|]; try reflexivity. apply numberToString_free.
Qed.

Lemma promLines_free nowMs game name data :
  JsString.all notLineBreak game = true ->
  JsString.all notLineBreak name = true ->
  Forall (fun l => JsString.all notLineBreak l = true)
         (promLines nowMs game name data).
Proof.
  intros Hg Hn. unfold promLines. cbv zeta.
  repeat (apply Forall_app; split);
    [ | destruct (max data) as [[m|]|] | ];
    repeat apply Forall_cons; try apply Forall_nil; try reflexivity;
    rewrite !all_app, Hg, Hn, ?numText_free, ?numberToString_free; reflexivity.
Qed.

Lemma promLines_not_delimiter nowMs game name data :
  Forall (fun l => String.eqb l "PROMEOF" = false)
         (promLines nowMs game name data).
Proof.
  unfold promLines. cbv zeta.
  repeat (apply Forall_app; split);
    [ | destruct (max data) as [[m|]|] | ];
    repeat apply Forall_cons; try apply Forall_nil; reflexivity.
Qed.

(** X20.  When neither the game type nor the server name holds a line break, the
    command that writes the metrics file is: the line of the command, the
    lines of the metrics, the delimiter, the line that moves the file.  No
    line of the metrics is the delimiter, so the here-document that the
    shell reads is the content that [formatPromMetrics] built, whole. *)
Theorem prom_file_gets_the_content (nowMs : Z) (game name : string)
        (data : ServerData) :
  JsString.all notLineBreak game = true ->
  JsString.all notLineBreak name = true ->
  let content := Metrics.formatPromMetrics nowMs game name data in
  let lines := promLines nowMs game name data in
  content = unlines lines
  /\ exists first,
      split nlChar (Metrics.cmdWriteProm game content)
      = (first :: lines ++ ["PROMEOF"; cmdMoveProm game])%list
      /\ heredoc "PROMEOF" (lines ++ ["PROMEOF"; cmdMoveProm game])
         = Some (lines, [cmdMoveProm game]).
Proof.
  intros Hg Hn. cbv zeta.
  split; [apply formatPromMetrics_unlines|].
  exists ("mkdir -p " ++ Metrics.promDir ++ " && cat > " ++ Metrics.promFile game
          ++ ".tmp << 'PROMEOF'").
  split; [|apply heredoc_found, promLines_not_delimiter].
  assert (Hf : JsString.all notLineBreak (Metrics.promFile game) = true).
  { unfold Metrics.promFile. rewrite !all_app, Hg. reflexivity. }
  assert (E : Metrics.cmdWriteProm game
                (Metrics.formatPromMetrics nowMs game name data)
              = ("mkdir -p " ++ Metrics.promDir ++ " && cat > "
                 ++ Metrics.promFile game ++ ".tmp << 'PROMEOF'")
                ++ nl ++ unlines (promLines nowMs game name data)
                ++ "PROMEOF" ++ nl ++ cmdMoveProm game).
  { unfold Metrics.cmdWriteProm, cmdMoveProm.
    rewrite formatPromMetrics_unlines, !str_app_assoc. reflexivity. }
  rewrite E, split_line.
  2:{ rewrite !all_app, Hf. reflexivity. }
  f_equal. rewrite split_unlines by (now apply promLines_free).
  f_equal. rewrite split_line by reflexivity. f_equal.
  apply split_free. unfold cmdMoveProm. rewrite !all_app, Hf. reflexivity.
Qed.

(** The metrics of the configured server. *)
Lemma prom_file_gets_the_content_witness :
  JsString.all notLineBreak "minecraft" = true
  /\ JsString.all notLineBreak (serverName simArgs) = true
  /\ Metrics.formatPromMetrics 1000000 "minecraft" (serverName simArgs)
       metricsDownData
     = unlines (promLines 1000000 "minecraft" (serverName simArgs)
                  metricsDownData).
Proof.
  split; [reflexivity|]. split; [reflexivity|].
  exact (proj1 (prom_file_gets_the_content 1000000 "minecraft"
                  (serverName simArgs) metricsDownData eq_refl eq_refl)).
Defined.

(* ================================================================== *)
(** * The quoting of a player name *)
(* ================================================================== *)

Lemma shUnquote_plain (s : string) :
  JsString.all (fun c => negb (Ascii.eqb c "'")) s = true ->
  shUnquote true (s ++ "'") = Some s.
Proof.
  induction s as [|c r IH]; [reflexivity|]. cbn [JsString.all].
  intros H. apply andb_prop in H. destruct H as [Hc Hr].
  apply negb_true_iff in Hc. cbn [append shUnquote]. now rewrite Hc, (IH Hr).
Qed.

Lemma word_not_quote (s : string) :
  JsString.all isWord s = true ->
  JsString.all (fun c => negb (Ascii.eqb c "'")) s = true.
Proof.
  induction s as [|c r IH]; [reflexivity|]. cbn [JsString.all].
  intros H. apply andb_prop in H. destruct H as [Hc Hr].
  rewrite (IH Hr), andb_true_r.
  destruct (Ascii.eqb_spec c "'"%char) as [->|]; [|reflexivity].
  vm_compute in Hc. discriminate Hc.
Qed.

(** X21.  Whatever the player name holds, the console text of [op] and [deop]
    stays inside the single quotes of the [send-keys] command: the quoted
    word, read by the quoting rules of the shell, is the fixed word
    followed by the sanitized name, and nothing of the name is left
    outside it. *)
Theorem op_name_stays_inside_quotes (g : GlobalArgs) (playerName : string) :
  let quoted verb := "'" ++ verb ++ sanitize playerName ++ "'" in
  (cmdSendKeys g ("op " ++ sanitize playerName)
   = "tmux send-keys -t " ++ tmuxSession g ++ " " ++ quoted "op " ++ " Enter"
   /\ shUnquote false (quoted "op ") = Some ("op " ++ sanitize playerName))
  /\ (cmdSendKeys g ("deop " ++ sanitize playerName)
      = "tmux send-keys -t " ++ tmuxSession g ++ " " ++ quoted "deop " ++ " Enter"
      /\ shUnquote false (quoted "deop ") = Some ("deop " ++ sanitize playerName)).
Proof.
  cbv zeta.
  assert (Hq : shUnquote true (sanitize playerName ++ "'")
               = Some (sanitize playerName))
    by (apply shUnquote_plain, word_not_quote, all_filter).
  repeat split.
  - unfold cmdSendKeys. cbn [append]. now rewrite !str_app_assoc.
  - cbn [append shUnquote Ascii.eqb Bool.eqb option_map]. now rewrite Hq.
  - unfold cmdSendKeys. cbn [append]. now rewrite !str_app_assoc.
  - cbn [append shUnquote Ascii.eqb Bool.eqb option_map]. now rewrite Hq.
Qed.
